(** * LLM caller gateway: orchestrator, error taxonomy and stream normalizer

    A shallow embedding of the request-orchestration core of the gateway:

    - [providerErrors.ts]   the closed error taxonomy and [isRetryable];
    - [adapters/helpers.ts] the shared HTTP-status classification;
    - [adapters/openaiAdapter.ts] usage normalization and the SSE stream
      normalizer [mapChatCompletionsStream];
    - [orchestrator.ts]     routing selection, adapter selection, the retry
      loop and the three dispatch entry points.

    JavaScript values are modelled as follows.  A number is an IEEE-754
    binary64 value (Rocq's primitive [float]); integer counters of the
    orchestrator (attempt numbers, indices) are carried as [Z], which is
    what the source's doubles hold up to [2^53].  A string is
    a sequence of 8-bit code units.  A plain object is an association list
    in property order; [undefined] and [null] are values of their own.
    Thrown values are explicit results, and the adapters, which talk to the
    network, are state transformers over an abstract upstream state; every
    adapter method call is recorded in a call log. *)

From Stdlib Require Import ZArith List String Ascii Bool Lia.
From Stdlib Require Import Floats DecimalString.
Import ListNotations.

Set Warnings "-register-all".

Open Scope string_scope.
Open Scope list_scope.
Open Scope Z_scope.

(* ================================================================== *)
(** ** The JavaScript runtime fragment the sources rely on *)
(* ================================================================== *)

Module Js.

(** *** Numbers *)

(** [Number.isFinite(x)] for a value that is already a number. *)
Definition isFinite (x : float) : bool := PrimFloat.is_finite x.

(** [Number.isNaN(x)]. *)
Definition isNaN (x : float) : bool := PrimFloat.is_nan x.

(** The exact integer [n] as a binary64 value (round to nearest even when
    it is not representable). *)
Definition ofZ (n : Z) : float :=
  SF2Prim (binary_normalize prec emax n 0 false).

(** The signed integer mantissa of a finite binary64 decomposition. *)
Definition signedMantissa (s : bool) (m : positive) : Z :=
  if s then Z.neg m else Z.pos m.

(** [Math.round(x)]: the integral value closest to [x], ties towards
    +infinity.  NaN, the infinities and the zeros are returned as they
    are; a negative [x] that rounds to zero gives [-0]. *)
Definition Math_round (x : float) : float :=
  match Prim2SF x with
  | S754_finite s m e =>
      if 0 <=? e then x
      else
        let n := Z.shiftr (2 * signedMantissa s m + 2 ^ (- e)) (1 - e) in
        if (n =? 0) && s then (-0)%float else ofZ n
  | _ => x
  end.

(** [Math.floor(x)] of a finite [x], as an exact integer. *)
Definition Math_floor (x : float) : Z :=
  match Prim2SF x with
  | S754_finite s m e =>
      if 0 <=? e then signedMantissa s m * 2 ^ e
      else Z.shiftr (signedMantissa s m) (- e)
  | _ => 0
  end.

(** The decimal rendering of an integer, as a template literal prints an
    integral number (below 10^21 in magnitude). *)
Definition showInt (n : Z) : string := NilZero.string_of_int (Z.to_int n).

(** *** Strings *)

Definition LF : ascii := ascii_of_nat 10.

(** WhiteSpace and LineTerminator code units below 256:
    TAB, LF, VT, FF, CR, SP and NBSP. *)
Definition isWhiteSpace (c : ascii) : bool :=
  let n := nat_of_ascii c in
  ((9 <=? n)%nat && (n <=? 13)%nat) || (n =? 32)%nat || (n =? 160)%nat.

(** [s.trimStart()]. *)
Fixpoint trimStart (s : string) : string :=
  match s with
  | EmptyString => EmptyString
  | String c rest => if isWhiteSpace c then trimStart rest else s
  end.

(** [s.trimEnd()]. *)
Fixpoint trimEnd (s : string) : string :=
  match s with
  | EmptyString => EmptyString
  | String c rest =>
      match trimEnd rest with
      | EmptyString => if isWhiteSpace c then EmptyString else String c EmptyString
      | rest' => String c rest'
      end
  end.

(** [s.trim()]. *)
Definition trim (s : string) : string := trimEnd (trimStart s).

(** [s.split(sep)] for a one-character separator: never the empty list. *)
Fixpoint split (sep : ascii) (s : string) : list string :=
  match s with
  | EmptyString => [EmptyString]
  | String c rest =>
      if Ascii.eqb c sep then EmptyString :: split sep rest
      else
        match split sep rest with
        | [] => [String c EmptyString]
        | first :: others => String c first :: others
        end
  end.

(** [s.startsWith(p)]. *)
Definition startsWith (p s : string) : bool := String.prefix p s.

(** [s.slice(n)] for [0 <= n]. *)
Fixpoint slice (n : nat) (s : string) : string :=
  match n, s with
  | O, _ => s
  | S n', String _ rest => slice n' rest
  | S _, EmptyString => EmptyString
  end.

(** [parts.join(sep)]. *)
Definition join (sep : ascii) (parts : list string) : string :=
  String.concat (String sep EmptyString) parts.

(** *** Values *)



(** A JavaScript value as [JSON.parse] or an HTTP client can deliver it,
    plus [undefined].  Objects are association lists in property order. *)
Inductive Value : Type :=
| Undefined
| Null
| Bool (b : bool)
| Num (x : float)
| Str (s : string)
| Arr (items : list Value)
| Obj (fields : list (string * Value)).

(** First binding of a key in an association list. *)
Fixpoint lookup {A : Type} (k : string) (fields : list (string * A)) : option A :=
  match fields with
  | [] => None
  | (k', v) :: rest => if String.eqb k k' then Some v else lookup k rest
  end.

(** [v.k] / [v[k]] for a value that is neither [null] nor [undefined]
    (the callers below test that first, since the access throws there).
    Only own properties of plain objects are found; none of the names the
    sources read is a built-in property of arrays or strings. *)
Definition getProp (v : Value) (k : string) : Value :=
  match v with
  | Obj fields => match lookup k fields with Some x => x | None => Undefined end
  | _ => Undefined
  end.

(** [v === null || v === undefined]. *)
Definition isNullish (v : Value) : bool :=
  match v with Undefined | Null => true | _ => false end.

(** ToBoolean. *)
Definition truthy (v : Value) : bool :=
  match v with
  | Undefined | Null => false
  | Bool b => b
  | Num x => negb (PrimFloat.is_zero x || PrimFloat.is_nan x)
  | Str s => negb (String.eqb s "")
  | Arr _ | Obj _ => true
  end.

(** [typeof v === 'object'] (true of [null] and of arrays too). *)
Definition isObjectType (v : Value) : bool :=
  match v with Null | Arr _ | Obj _ => true | _ => false end.

(** [a ?? b]. *)
Definition coalesce (a b : Value) : Value := if isNullish a then b else a.

(** Set a property: an existing key keeps its place, a new one is added
    last. *)
Fixpoint setProp (k : string) (v : Value) (fields : list (string * Value))
  : list (string * Value) :=
  match fields with
  | [] => [(k, v)]
  | (k', v') :: rest =>
      if String.eqb k k' then (k, v) :: rest else (k', v') :: setProp k v rest
  end.

(** Index keys "0", "1", ... for the elements of an array. *)
Fixpoint indexed (i : Z) (items : list Value) : list (string * Value) :=
  match items with
  | [] => []
  | x :: rest => (showInt i, x) :: indexed (i + 1) rest
  end.

(** The own enumerable properties an object spread [{...v}] copies.
    (The engine's reordering of integer-like keys is not modelled.) *)
Definition ownEntries (v : Value) : list (string * Value) :=
  match v with
  | Obj fields => fields
  | Arr items => indexed 0 items
  | Str s => indexed 0 (map (fun c => Str (String c EmptyString)) (list_ascii_of_string s))
  | _ => []
  end.

(** [{...target, ...source}] on property lists. *)
Definition assign (target source : list (string * Value)) : list (string * Value) :=
  fold_left (fun acc kv => setProp (fst kv) (snd kv) acc) source target.

(** An optional string as a property value. *)
Definition ofOptString (o : option string) : Value :=
  match o with Some s => Str s | None => Undefined end.

(** The two library functions whose results depend on text: [JSON.parse]
    ([None] when it throws a SyntaxError) and the [Number(s)] conversion
    of a string. *)
Class Runtime : Type := {
  JSON_parse : string -> option Value;
  Number_ofString : string -> float
}.

End Js.

Import Js.

(* ================================================================== *)
(** ** providerErrors.ts: the error taxonomy *)
(* ================================================================== *)

(** [ProviderErrorClassification]. *)
Inductive ProviderErrorClassification : Type :=
| TEMPORARY
| PERMANENT
| AUTH
| CONFIG
| RATE_LIMIT.

(** The built-in error classes the sources throw or provoke. *)
Inductive NativeKind : Type :=
| PlainError      (* new Error(message) *)
| TypeError       (* property access on null or undefined *)
| SyntaxError.    (* JSON.parse *)

(** Anything a [throw] can carry.  [ProviderErrorObj] is an instance of the
    class [ProviderError]: message, classification, [retryAfterMs] and the
    [cause] its constructor stores when one is given. *)
Inductive Thrown : Type :=
| ProviderErrorObj (message : string)
                   (classification : ProviderErrorClassification)
                   (retryAfterMs : option float)
                   (cause : option Thrown)
| NativeError (kind : NativeKind) (message : string)
| ThrownValue (v : Value).

(** [isProviderError(error)]: [error instanceof ProviderError]. *)
Definition isProviderError (error : Thrown) : bool :=
  match error with ProviderErrorObj _ _ _ _ => true | _ => false end.

(** [error.classification], present on provider errors only. *)
Definition classificationOf (error : Thrown) : option ProviderErrorClassification :=
  match error with ProviderErrorObj _ c _ _ => Some c | _ => None end.

(** [error.message]. *)
Definition messageOf (error : Thrown) : option string :=
  match error with
  | ProviderErrorObj m _ _ _ => Some m
  | NativeError _ m => Some m
  | ThrownValue _ => None
  end.

(** [isRetryable(classification)]. *)
Definition isRetryable (classification : ProviderErrorClassification) : bool :=
  match classification with
  | TEMPORARY | RATE_LIMIT => true
  | _ => false
  end.

(** How a call ends: it returns, it throws, or (for a promise) it never
    settles. *)
Inductive Outcome (A : Type) : Type :=
| Returned (a : A)
| Threw (error : Thrown)
| Unsettled.

Arguments Returned {A} a.
Arguments Threw {A} error.
Arguments Unsettled {A}.

(** [a ?? b] where [a] may be [undefined]. *)
Definition orElse {A : Type} (a : option A) (b : option A) : option A :=
  match a with Some _ => a | None => b end.

(** [a ?? d] where [d] is always defined. *)
Definition orDefault {A : Type} (a : option A) (d : A) : A :=
  match a with Some x => x | None => d end.

(** A string-valued property, when [typeof v === 'string']. *)
Definition asString (v : Value) : option string :=
  match v with Str s => Some s | _ => None end.

(** Truthiness of an optional string ([undefined] or a string). *)
Definition truthyString (o : option string) : bool :=
  match o with Some s => negb (String.eqb s "") | None => false end.

(* ================================================================== *)
(** ** adapters/helpers.ts: status classification *)
(* ================================================================== *)

(** [mapStatusToClassification(status)] on an integral HTTP status. *)
Definition mapStatusToClassification (status : Z) : ProviderErrorClassification :=
  if (status =? 401) || (status =? 403) then AUTH
  else if status =? 429 then RATE_LIMIT
  else if 500 <=? status then TEMPORARY
  else if 400 <=? status then PERMANENT
  else TEMPORARY.

(* ================================================================== *)
(** ** adapters/openaiAdapter.ts: usage normalization *)
(* ================================================================== *)

Module OpenAIAdapter.

(** The normalized usage object; [totalTokens] is an optional property. *)
Record ChatUsage : Type := {
  inputTokens : float;
  outputTokens : float;
  totalTokens : option float
}.

Section WithRuntime.

Context {RT : Runtime}.

(** [toNumber(value)]: a finite number, or a non-blank string that converts
    to one; [None] is [undefined]. *)
Definition toNumber (value : Value) : option float :=
  match value with
  | Num x => if isFinite x then Some x else None
  | Str s =>
      if (0 <? String.length (trim s))%nat then
        let numeric := Number_ofString s in
        if negb (isNaN numeric) && isFinite numeric then Some numeric else None
      else None
  | _ => None
  end.

(** [clampNonNegative(value)]. *)
Definition clampNonNegative (value : float) : float :=
  if negb (isFinite value) then 0%float
  else if (value <=? 0)%float then 0%float else Math_round value.

(** The raw (unclamped) input count:
    [toNumber(base['prompt_tokens']) ?? toNumber(base['input_tokens']) ?? 0]. *)
Definition rawInput (base : Value) : float :=
  orDefault (orElse (toNumber (getProp base "prompt_tokens"))
                    (toNumber (getProp base "input_tokens"))) 0%float.

(** The raw output count, from [completion_tokens] then [output_tokens]. *)
Definition rawOutput (base : Value) : float :=
  orDefault (orElse (toNumber (getProp base "completion_tokens"))
                    (toNumber (getProp base "output_tokens"))) 0%float.

(** [typeof raw === 'object' && raw !== null ? raw : {}]. *)
Definition usageBase (raw : Value) : Value :=
  if isObjectType raw && negb (isNullish raw) then raw else Obj [].

(** [normalizeChatUsage(raw)]. *)
Definition normalizeChatUsage (raw : Value) : ChatUsage :=
  let base := usageBase raw in
  let input := rawInput base in
  let output := rawOutput base in
  let total := toNumber (getProp base "total_tokens") in
  let derivedTotal :=
    orElse total
           (if isFinite input && isFinite output
            then Some (input + output)%float else None) in
  {| inputTokens := clampNonNegative input;
     outputTokens := clampNonNegative output;
     totalTokens := option_map clampNonNegative derivedTotal |}.

(** The usage object as a JavaScript value. *)
Definition usageValue (u : ChatUsage) : Value :=
  Obj ([("inputTokens", Num (inputTokens u));
        ("outputTokens", Num (outputTokens u))]
       ++ match totalTokens u with
          | Some t => [("totalTokens", Num t)]
          | None => []
          end).

(* ------------------------------------------------------------------ *)
(** ** adapters/openaiAdapter.ts: the stream normalizer *)
(* ------------------------------------------------------------------ *)

(** [extractDataPayload(chunk)]: the joined [data:] lines of one SSE block;
    [None] is [undefined]. *)
Definition extractDataPayload (chunk : Value) : option string :=
  match chunk with
  | Str text =>
      let lines := split LF text in
      let dataLines :=
        map (fun line => trimStart (slice 5 line))
            (filter (fun line => startsWith "data:" line) lines) in
      match dataLines with
      | [] => None
      | _ => Some (trim (join LF dataLines))
      end
  | _ => None
  end.

(** [ProviderStreamEvent.type]. *)
Inductive EventType : Type := delta | completion.

(** [ProviderStreamEvent.delta]. *)
Record DeltaFragment : Type := {
  deltaRole : option string;
  deltaContent : option string
}.

(** [ProviderStreamEvent]. *)
Record ProviderStreamEvent : Type := {
  eventType : EventType;
  eventDelta : option DeltaFragment;
  eventPayload : option Value;
  eventTraceId : option string
}.

(** The local variables of [mapChatCompletionsStream]. *)
Record StreamState : Type := {
  accumulatedContent : string;
  role : option string;
  traceId : option string;
  usageRaw : Value
}.

Definition initialStreamState : StreamState :=
  {| accumulatedContent := ""; role := None; traceId := None; usageRaw := Undefined |}.

(** What a generator has done when it stops: the events it yielded, and the
    error it threw, if it did not simply finish. *)
Record StreamRun : Type := {
  emitted : list ProviderStreamEvent;
  failure : option Thrown
}.

(** The [if (choice.delta) { ... }] block: the updated variables and the
    delta event, when one is yielded. *)
Definition applyDelta (st : StreamState) (choice : Value)
  : StreamState * list ProviderStreamEvent :=
  let d := getProp choice "delta" in
  if truthy d then
    let newRole := asString (getProp d "role") in
    let newContent := asString (getProp d "content") in
    let st' :=
      {| accumulatedContent :=
           match newContent with
           | Some c => (accumulatedContent st ++ c)%string
           | None => accumulatedContent st
           end;
         role := orElse newRole (role st);
         traceId := traceId st;
         usageRaw := usageRaw st |} in
    let deltaEvent :=
      {| eventType := delta;
         eventDelta := Some {| deltaRole := newRole; deltaContent := newContent |};
         eventPayload := None;
         eventTraceId := traceId st |} in
    (st', if truthyString newRole || truthyString newContent then [deltaEvent] else [])
  else (st, []).

(** The completion event built from the variables at hand. *)
Definition completionEvent (providerName : string) (model : option string)
  (st : StreamState) : ProviderStreamEvent :=
  {| eventType := completion;
     eventDelta := None;
     eventPayload :=
       Some (Obj [("message",
                   Obj [("role", Str (orDefault (role st) "assistant"));
                        ("content", Str (accumulatedContent st))]);
                  ("usage", usageValue (normalizeChatUsage (usageRaw st)));
                  ("providerInfo",
                   Obj [("name", Str providerName);
                        ("model", ofOptString model)])]);
     eventTraceId := traceId st |}.

(** The [if (choice.finish_reason === 'stop') { ... }] block. *)
Definition applyFinish (providerName : string) (model : option string)
  (st : StreamState) (choice : Value) : list ProviderStreamEvent :=
  match getProp choice "finish_reason" with
  | Str reason =>
      if String.eqb reason "stop" then [completionEvent providerName model st] else []
  | _ => []
  end.

(** The message of the TypeError a property read on [null] raises. *)
Definition nullAccess : Thrown :=
  NativeError TypeError "Cannot read properties of null".

(** [for (const choice of choices) { ... }]: the state afterwards, the
    events yielded, and the error if an iteration threw. *)
Fixpoint forEachChoice (providerName : string) (model : option string)
  (choices : list Value) (st : StreamState)
  : StreamState * list ProviderStreamEvent * option Thrown :=
  match choices with
  | [] => (st, [], None)
  | choice :: rest =>
      if isNullish choice then (st, [], Some nullAccess)
      else
        let '(st1, deltas) := applyDelta st choice in
        let finish := applyFinish providerName model st1 choice in
        let '(st2, later, err) := forEachChoice providerName model rest st1 in
        (st2, deltas ++ finish ++ later, err)
  end.

(** [Array.isArray(parsed.choices) ? parsed.choices : []]. *)
Definition choicesOf (parsed : Value) : list Value :=
  match getProp parsed "choices" with Arr items => items | _ => [] end.

(** The assignments at the head of the loop body, after a successful parse. *)
Definition observeChunk (st : StreamState) (parsed : Value) : StreamState :=
  {| accumulatedContent := accumulatedContent st;
     role := role st;
     traceId := orElse (asString (getProp parsed "id")) (traceId st);
     usageRaw := if truthy (getProp parsed "usage")
                 then getProp parsed "usage" else usageRaw st |}.

(** The error a malformed payload raises. *)
Definition parseFailure : Thrown :=
  ProviderErrorObj "Failed to parse OpenAI stream payload" TEMPORARY None
                   (Some (NativeError SyntaxError "JSON.parse")).

(** [for await (const chunk of source) { ... }]. *)
Fixpoint consume (providerName : string) (model : option string)
  (source : list Value) (st : StreamState) : StreamRun :=
  match source with
  | [] => {| emitted := []; failure := None |}
  | chunk :: rest =>
      match extractDataPayload chunk with
      | None => consume providerName model rest st                (* continue *)
      | Some data =>
          if String.eqb data "" then consume providerName model rest st   (* continue *)
          else if String.eqb data "[DONE]" then {| emitted := []; failure := None |} (* break *)
          else
            match JSON_parse data with
            | None => {| emitted := []; failure := Some parseFailure |}
            | Some parsed =>
                if isNullish parsed then {| emitted := []; failure := Some nullAccess |}
                else
                  let st1 := observeChunk st parsed in
                  let '(st2, events, err) :=
                    forEachChoice providerName model (choicesOf parsed) st1 in
                  match err with
                  | Some e => {| emitted := events; failure := Some e |}
                  | None =>
                      let later := consume providerName model rest st2 in
                      {| emitted := events ++ emitted later; failure := failure later |}
                  end
            end
      end
  end.

(** [mapChatCompletionsStream(source, providerName, model)], run to its end
    on a source that delivers the given chunks. *)
Definition mapChatCompletionsStream (source : list Value) (providerName : string)
  (model : option string) : StreamRun :=
  consume providerName model source initialStreamState.

(** *** Reading a stream off its source

    The choices the loops of [mapChatCompletionsStream] go through, in
    order: those of every chunk read before the sentinel, a parse failure or
    a [null] payload, up to the first [null] choice. *)

Fixpoint untilNull (choices : list Value) : list Value * bool :=
  match choices with
  | [] => ([], false)
  | choice :: rest =>
      if isNullish choice then ([], true)
      else let '(before, stopped) := untilNull rest in (choice :: before, stopped)
  end.

Fixpoint consumedChoices (source : list Value) : list Value :=
  match source with
  | [] => []
  | chunk :: rest =>
      match extractDataPayload chunk with
      | None => consumedChoices rest
      | Some data =>
          if String.eqb data "" then consumedChoices rest
          else if String.eqb data "[DONE]" then []
          else
            match JSON_parse data with
            | None => []
            | Some parsed =>
                if isNullish parsed then []
                else
                  let '(before, stopped) := untilNull (choicesOf parsed) in
                  if stopped then before else before ++ consumedChoices rest
            end
      end
  end.

(** [choice.finish_reason === 'stop']. *)
Definition isStop (choice : Value) : bool :=
  match getProp choice "finish_reason" with
  | Str reason => String.eqb reason "stop"
  | _ => false
  end.

(** The choice carries a delta that changes the role or the content. *)
Definition hasFragment (choice : Value) : bool :=
  let d := getProp choice "delta" in
  truthy d && (truthyString (asString (getProp d "role"))
               || truthyString (asString (getProp d "content"))).

(** The types of the events one choice gives rise to. *)
Definition choiceEventTypes (choice : Value) : list EventType :=
  (if hasFragment choice then [delta] else [])
  ++ (if isStop choice then [completion] else []).

Definition isCompletionType (t : EventType) : bool :=
  match t with completion => true | delta => false end.

Definition isCompletion (event : ProviderStreamEvent) : bool :=
  isCompletionType (eventType event).

(** The property "a completion event is the last event": no event follows
    one. *)
Fixpoint completionIsLast (events : list ProviderStreamEvent) : bool :=
  match events with
  | [] => true
  | event :: rest =>
      (if isCompletion event then match rest with [] => true | _ => false end else true)
      && completionIsLast rest
  end.

End WithRuntime.

End OpenAIAdapter.

(* ================================================================== *)
(** ** A reference runtime *)
(* ================================================================== *)

(** An executable [JSON.parse] and [Number(string)] on 8-bit strings, so
    that the normalizer can be run on literal SSE chunks.  [JSON.parse]
    follows the JSON grammar (a [\u] escape above U+00FF is outside the
    8-bit model and is rejected); [Number] reads the decimal
    StringNumericLiteral forms and [Infinity], not the 0x/0o/0b forms.
    Both convert decimals to the nearest binary64 value. *)

Module RefRuntime.

Definition QUOTE : ascii := ascii_of_nat 34.
Definition BACKSLASH : ascii := ascii_of_nat 92.

Definition isDigit (c : ascii) : bool :=
  let n := nat_of_ascii c in ((48 <=? n)%nat && (n <=? 57)%nat).

Definition digitValue (c : ascii) : Z := Z.of_nat (nat_of_ascii c) - 48.

(** JSON white space: SP, TAB, LF, CR. *)
Definition isJsonSpace (c : ascii) : bool :=
  let n := nat_of_ascii c in
  (n =? 32)%nat || (n =? 9)%nat || (n =? 10)%nat || (n =? 13)%nat.

Fixpoint skipSpace (s : string) : string :=
  match s with
  | String c rest => if isJsonSpace c then skipSpace rest else s
  | EmptyString => s
  end.

(** A run of decimal digits: its value on top of [acc], how many digits,
    and the rest of the text. *)
Fixpoint digits (s : string) (acc count : Z) : Z * Z * string :=
  match s with
  | String c rest =>
      if isDigit c then digits rest (10 * acc + digitValue c) (count + 1)
      else (acc, count, s)
  | EmptyString => (acc, count, s)
  end.

(** The binary64 value nearest to [m / d], for positive [m] and [d]: the
    quotient is taken with more than 60 significant bits and a sticky bit,
    then rounded once. *)
Definition ofRatio (negative : bool) (m d : Z) : float :=
  let s := Z.max 0 (64 + Z.log2 d - Z.log2 m) in
  let q := Z.shiftl m s / d in
  let sticky := if Z.shiftl m s mod d =? 0 then 0 else 1 in
  let n := 2 * q + sticky in
  SF2Prim (binary_normalize prec emax (if negative then - n else n) (- s - 1) negative).

(** The binary64 value nearest to [(-1)^negative * m * 10^e], [0 <= m],
    where [m] has at most [len] decimal digits. *)
Definition ofDecimal (negative : bool) (m e len : Z) : float :=
  if m =? 0 then (if negative then (-0)%float else 0%float)
  else if 400 <? e then (if negative then neg_infinity else infinity)
  else if e + len <? -400 then (if negative then (-0)%float else 0%float)
  else if 0 <=? e then
    SF2Prim (binary_normalize prec emax
               (if negative then - (m * 10 ^ e) else m * 10 ^ e) 0 negative)
  else ofRatio negative m (10 ^ (- e)).

Definition isChar (n : nat) (c : ascii) : bool := (nat_of_ascii c =? n)%nat.

(** An optional exponent part [e[+-]ddd]: its value and the rest; [None]
    when an [e] is not followed by digits. *)
Definition exponentPart (s : string) : option (Z * string) :=
  match s with
  | String c rest =>
      if isChar 101 c || isChar 69 c then
        let '(negative, body) :=
          match rest with
          | String sign rest' =>
              if isChar 45 sign then (true, rest')
              else if isChar 43 sign then (false, rest')
              else (false, rest)
          | EmptyString => (false, rest)
          end in
        let '(v, count, rest') := digits body 0 0 in
        if count =? 0 then None
        else Some (if negative then - v else v, rest')
      else Some (0, s)
  | EmptyString => Some (0, s)
  end.

(** An unsigned decimal literal: integer digits, an optional fraction and an
    optional exponent.  With [strict] the JSON rules hold (no leading zero,
    digits on both sides of the point); otherwise one digit anywhere is
    enough. *)
Definition unsignedDecimal (strict negative : bool) (s : string)
  : option (float * string) :=
  let '(i, ni, r1) := digits s 0 0 in
  let leadingZero :=
    match s with String c _ => isChar 48 c && (1 <? ni) | EmptyString => false end in
  let '(hasPoint, f, nf, r2) :=
    match r1 with
    | String c rest =>
        if isChar 46 c then let '(f, nf, r) := digits rest 0 0 in (true, f, nf, r)
        else (false, 0, 0, r1)
    | EmptyString => (false, 0, 0, r1)
    end in
  let wellFormed :=
    if strict then (1 <=? ni) && negb leadingZero && (negb hasPoint || (1 <=? nf))
    else 1 <=? ni + nf in
  if wellFormed then
    match exponentPart r2 with
    | Some (e, r3) => Some (ofDecimal negative (i * 10 ^ nf + f) (e - nf) (ni + nf), r3)
    | None => None
    end
  else None.

(** A JSON number at the head of the text. *)
Definition jsonNumber (s : string) : option (float * string) :=
  match s with
  | String c rest =>
      if isChar 45 c then unsignedDecimal true true rest
      else unsignedDecimal true false s
  | EmptyString => None
  end.

Definition hexValue (c : ascii) : option Z :=
  let n := nat_of_ascii c in
  if isDigit c then Some (Z.of_nat n - 48)
  else if ((97 <=? n)%nat && (n <=? 102)%nat) then Some (Z.of_nat n - 87)
  else if ((65 <=? n)%nat && (n <=? 70)%nat) then Some (Z.of_nat n - 55)
  else None.

(** The text of a JSON string after its opening quote, up to and without
    the closing quote. *)
Fixpoint stringBody (s : string) : option (string * string) :=
  match s with
  | EmptyString => None
  | String c rest =>
      if Ascii.eqb c QUOTE then Some (EmptyString, rest)
      else if Ascii.eqb c BACKSLASH then
        match rest with
        | String esc rest1 =>
            let simple (x : nat) :=
              match stringBody rest1 with
              | Some (body, r) => Some (String (ascii_of_nat x) body, r)
              | None => None
              end in
            if isChar 34 esc then simple 34%nat
            else if isChar 92 esc then simple 92%nat
            else if isChar 47 esc then simple 47%nat
            else if isChar 98 esc then simple 8%nat
            else if isChar 102 esc then simple 12%nat
            else if isChar 110 esc then simple 10%nat
            else if isChar 114 esc then simple 13%nat
            else if isChar 116 esc then simple 9%nat
            else if isChar 117 esc then
              match rest1 with
              | String h1 (String h2 (String h3 (String h4 rest2))) =>
                  match hexValue h1, hexValue h2, hexValue h3, hexValue h4 with
                  | Some a, Some b, Some c3, Some d =>
                      let cp := ((a * 16 + b) * 16 + c3) * 16 + d in
                      if cp <? 256 then
                        match stringBody rest2 with
                        | Some (body, r) =>
                            Some (String (ascii_of_nat (Z.to_nat cp)) body, r)
                        | None => None
                        end
                      else None
                  | _, _, _, _ => None
                  end
              | _ => None
              end
            else None
        | EmptyString => None
        end
      else if (nat_of_ascii c <? 32)%nat then None
      else
        match stringBody rest with
        | Some (body, r) => Some (String c body, r)
        | None => None
        end
  end.

(** A JSON value at the head of the text (after white space), and the array
    elements and object members that follow an opening bracket.  The budget
    bounds the number of nested calls. *)
Fixpoint jsonValue (budget : nat) (s : string) : option (Value * string) :=
  match budget with
  | O => None
  | S budget' =>
      match skipSpace s with
      | EmptyString => None
      | String c rest as text =>
          if isChar 123 c then
            match skipSpace rest with
            | String c' rest' as inner =>
                if isChar 125 c' then Some (Obj [], rest')
                else jsonMembers budget' inner []
            | EmptyString => None
            end
          else if isChar 91 c then
            match skipSpace rest with
            | String c' rest' as inner =>
                if isChar 93 c' then Some (Arr [], rest')
                else jsonElements budget' inner []
            | EmptyString => None
            end
          else if Ascii.eqb c QUOTE then
            match stringBody rest with
            | Some (body, r) => Some (Str body, r)
            | None => None
            end
          else if String.prefix "true" text then Some (Bool true, slice 4 text)
          else if String.prefix "false" text then Some (Bool false, slice 5 text)
          else if String.prefix "null" text then Some (Null, slice 4 text)
          else
            match jsonNumber text with
            | Some (x, r) => Some (Num x, r)
            | None => None
            end
      end
  end

with jsonElements (budget : nat) (s : string) (acc : list Value)
  : option (Value * string) :=
  match budget with
  | O => None
  | S budget' =>
      match jsonValue budget' s with
      | Some (v, r) =>
          match skipSpace r with
          | String c rest =>
              if isChar 44 c then jsonElements budget' rest (acc ++ [v])
              else if isChar 93 c then Some (Arr (acc ++ [v]), rest)
              else None
          | EmptyString => None
          end
      | None => None
      end
  end

with jsonMembers (budget : nat) (s : string) (acc : list (string * Value))
  : option (Value * string) :=
  match budget with
  | O => None
  | S budget' =>
      match skipSpace s with
      | String q rest =>
          if Ascii.eqb q QUOTE then
            match stringBody rest with
            | Some (key, r) =>
                match skipSpace r with
                | String colon r1 =>
                    if isChar 58 colon then
                      match jsonValue budget' r1 with
                      | Some (v, r2) =>
                          match skipSpace r2 with
                          | String c r3 =>
                              if isChar 44 c then jsonMembers budget' r3 (setProp key v acc)
                              else if isChar 125 c then Some (Obj (setProp key v acc), r3)
                              else None
                          | EmptyString => None
                          end
                      | None => None
                      end
                    else None
                | EmptyString => None
                end
            | None => None
            end
          else None
      | EmptyString => None
      end
  end.

(** [JSON.parse(text)]; [None] when the text is not one JSON value. *)
Definition parse (text : string) : option Value :=
  match jsonValue (2 * String.length text + 2) text with
  | Some (v, rest) =>
      match skipSpace rest with
      | EmptyString => Some v
      | String _ _ => None
      end
  | None => None
  end.

(** [Number(text)] for a string. *)
Definition number (text : string) : float :=
  let body := trim text in
  let '(negative, unsigned) :=
    match body with
    | String c rest =>
        if isChar 45 c then (true, rest)
        else if isChar 43 c then (false, rest)
        else (false, body)
    | EmptyString => (false, body)
    end in
  if String.eqb body "" then 0%float
  else if String.eqb unsigned "Infinity" then
    (if negative then neg_infinity else infinity)
  else
    match unsignedDecimal false negative unsigned with
    | Some (x, EmptyString) => x
    | _ => nan
    end.

#[export] Instance runtime : Runtime :=
  {| JSON_parse := parse; Number_ofString := number |}.

End RefRuntime.

(* ================================================================== *)
(** ** loadConfig.ts: the configuration types *)
(* ================================================================== *)

(** [ProviderConfig].  [defaults] and [scores] are optional maps from a
    capability name. *)
Record ProviderConfig : Type := {
  baseUrl : string;
  defaultModel : string;
  capabilities : list string;
  defaults : option (list (string * string));
  scores : option (list (string * float));
  notes : option string
}.

(** [CallerConfig.retry]. *)
Record RetryConfig : Type := {
  maxAttempts : option float
}.

(** [CallerConfig], without the transport's fields (host, port, clients,
    rate limit).  [providers] lists the entries in the order
    [Object.entries] enumerates them. *)
Record CallerConfig : Type := {
  providers : list (string * ProviderConfig);
  retry : option RetryConfig
}.

(* ================================================================== *)
(** ** orchestrator.ts *)
(* ================================================================== *)

Module Orchestrator.

Record ChatMessage : Type := {
  role : string;
  content : string
}.

(** [NormalizedChatRequest]. *)
Record NormalizedChatRequest : Type := {
  requestId : string;
  callerTool : string;
  messages : list ChatMessage;
  provider : option string;
  model : option string;
  temperature : option float;
  maxTokens : option float
}.

(** One element of [NormalizedEmbedRequest.inputs]. *)
Inductive EmbedInput : Type :=
| TextInput (text : string)
| VectorInput (vector : list float).

(** [NormalizedEmbedRequest]. *)
Record NormalizedEmbedRequest : Type := {
  embedRequestId : string;
  embedCallerTool : string;
  inputs : list EmbedInput;
  embedProvider : option string;
  embedModel : option string
}.

(** [ProviderResponse<TPayload>]; the payload is opaque to the orchestrator
    beyond its [providerInfo] property. *)
Record ProviderResponse : Type := {
  payload : Value;
  traceId : string;
  retryAfterMs : option float;
  attempts : option Z
}.

(** [RoutingStrategy]. *)
Inductive RoutingStrategy : Type :=
| CapabilityDefault
| CallerOverride
| Fallback.

(** The string a strategy is in the source. *)
Definition strategyName (s : RoutingStrategy) : string :=
  match s with
  | CapabilityDefault => "capability-default"
  | CallerOverride => "caller-override"
  | Fallback => "fallback"
  end.

(** [RoutingSelection]. *)
Record RoutingSelection : Type := {
  providerKey : string;
  selectedModel : string;
  strategy : RoutingStrategy
}.

(** The [context] argument of [attachRoutingMetadata]. *)
Record RoutingContext : Type := {
  ctxProvider : string;
  ctxModel : string;
  ctxCapability : string;
  ctxStrategy : RoutingStrategy
}.

(** [resolveMaxAttempts(config)]. *)
Definition resolveMaxAttempts (config : CallerConfig) : Z :=
  match retry config with
  | Some r =>
      match maxAttempts r with
      | Some configured =>
          if isFinite configured && (1 <=? configured)%float
          then Math_floor configured
          else 2
      | None => 2
      end
  | None => 2
  end.

(** [list.includes(x)] on strings. *)
Definition includes (x : string) (l : list string) : bool :=
  existsb (String.eqb x) l.

(** [map?.[key]] on an optional map. *)
Definition optLookup {A : Type} (key : string) (m : option (list (string * A)))
  : option A :=
  match m with Some fields => lookup key fields | None => None end.

(** The local variable [best] of [resolveRoutingSelection]. *)
Record Best : Type := {
  bestKey : string;
  bestIndex : Z;
  bestScore : float;
  bestModel : string;
  bestStrategy : RoutingStrategy
}.

(** The callback of [entries.forEach], as a function of [best]. *)
Definition considerEntry (capability : string) (best : option Best)
  (key : string) (config : ProviderConfig) (index : Z) : option Best :=
  if negb (includes capability (capabilities config)) then best
  else
    let hasDefault := truthyString (optLookup capability (defaults config)) in
    let baseScore := orDefault (optLookup capability (scores config)) 0%float in
    let score := (baseScore + (if hasDefault then 50 else 0))%float in
    let model := orDefault (optLookup capability (defaults config)) (defaultModel config) in
    let strategy := if hasDefault then CapabilityDefault else Fallback in
    let candidate :=
      {| bestKey := key; bestIndex := index; bestScore := score;
         bestModel := model; bestStrategy := strategy |} in
    match best with
    | None => Some candidate
    | Some b =>
        if (bestScore b <? score)%float
           || ((score =? bestScore b)%float && (index <? bestIndex b))
        then Some candidate
        else best
    end.

(** [entries.forEach(([key, config], index) => ...)] from [index] on. *)
Fixpoint forEachEntry (capability : string)
  (entries : list (string * ProviderConfig)) (index : Z) (best : option Best)
  : option Best :=
  match entries with
  | [] => best
  | (key, config) :: rest =>
      forEachEntry capability rest (index + 1)
                   (considerEntry capability best key config index)
  end.

(** [resolveRoutingSelection(capability, request, providers)]; of the
    request only [provider] and [model] are read.  The read
    [providers[request.provider]] is that of a configured entry: a name
    every object inherits ([constructor], [toString], ...) is found by the
    source without one, and the statements about unknown providers leave
    such names out ([RoutingSpec.inheritedNames]). *)
Definition resolveRoutingSelection (capability : string)
  (requestProvider requestModel : option string)
  (providers : list (string * ProviderConfig)) : Outcome RoutingSelection :=
  match (if truthyString requestProvider then requestProvider else None) with
  | Some requested =>
      match lookup requested providers with
      | None => Threw (NativeError PlainError ("Unknown provider: " ++ requested))
      | Some providerConfig =>
          Returned
            {| providerKey := requested;
               selectedModel :=
                 orDefault
                   (orElse requestModel (optLookup capability (defaults providerConfig)))
                   (defaultModel providerConfig);
               strategy := CallerOverride |}
      end
  | None =>
      match providers with
      | [] => Threw (NativeError PlainError "No providers configured")
      | (fallbackKey, fallbackConfig) :: _ =>
          match forEachEntry capability providers 0 None with
          | Some best =>
              Returned {| providerKey := bestKey best;
                          selectedModel := bestModel best;
                          strategy := bestStrategy best |}
          | None =>
              Returned {| providerKey := fallbackKey;
                          selectedModel := defaultModel fallbackConfig;
                          strategy := Fallback |}
          end
      end
  end.

(** [normalizeChatRequest(request, providerKey, providerConfig, modelOverride)]. *)
Definition normalizeChatRequest (request : NormalizedChatRequest)
  (key : string) (providerConfig : ProviderConfig)
  (modelOverride : option string) : NormalizedChatRequest :=
  {| requestId := requestId request;
     callerTool := callerTool request;
     messages := messages request;
     provider := Some key;
     model := Some (orDefault (orElse modelOverride (model request))
                              (defaultModel providerConfig));
     temperature := temperature request;
     maxTokens := maxTokens request |}.

(** [normalizeEmbedRequest(request, providerKey, providerConfig, modelOverride)]. *)
Definition normalizeEmbedRequest (request : NormalizedEmbedRequest)
  (key : string) (providerConfig : ProviderConfig)
  (modelOverride : option string) : NormalizedEmbedRequest :=
  {| embedRequestId := embedRequestId request;
     embedCallerTool := embedCallerTool request;
     inputs := inputs request;
     embedProvider := Some key;
     embedModel := Some (orDefault (orElse modelOverride (embedModel request))
                                   (defaultModel providerConfig)) |}.

(** [attachRoutingMetadata(payload, context)]. *)
Definition attachRoutingMetadata (payload : Value) (context : RoutingContext) : Value :=
  if negb (truthy payload) || negb (isObjectType payload) then payload
  else
    let existing := coalesce (getProp payload "providerInfo") (Obj []) in
    let providerInfo :=
      setProp "routing"
        (Obj [("capability", Str (ctxCapability context));
              ("strategy", Str (strategyName (ctxStrategy context)))])
        (assign
           [("name", coalesce (getProp existing "name") (Str (ctxProvider context)));
            ("model", coalesce (getProp existing "model") (Str (ctxModel context)))]
           (ownEntries existing)) in
    Obj (setProp "providerInfo" (Obj providerInfo) (ownEntries payload)).

(** The body of the loop of [attachRoutingToStream], for one event. *)
Definition attachRoutingToEvent (context : RoutingContext)
  (event : OpenAIAdapter.ProviderStreamEvent) : OpenAIAdapter.ProviderStreamEvent :=
  match OpenAIAdapter.eventPayload event with
  | Some p =>
      if truthy p then
        {| OpenAIAdapter.eventType := OpenAIAdapter.eventType event;
           OpenAIAdapter.eventDelta := OpenAIAdapter.eventDelta event;
           OpenAIAdapter.eventPayload := Some (attachRoutingMetadata p context);
           OpenAIAdapter.eventTraceId := OpenAIAdapter.eventTraceId event |}
      else event
  | None => event
  end.

(** [attachRoutingToStream(stream, context)]: every event of the stream is
    passed on, with the routing attached; an error of the stream passes
    through. *)
Definition attachRoutingToStream (stream : OpenAIAdapter.StreamRun)
  (context : RoutingContext) : OpenAIAdapter.StreamRun :=
  {| OpenAIAdapter.emitted :=
       map (attachRoutingToEvent context) (OpenAIAdapter.emitted stream);
     OpenAIAdapter.failure := OpenAIAdapter.failure stream |}.

(** The error [executeWithRetry] raises after its loop. *)
Definition exhausted (key : string) (maxAttempts : Z)
  (lastProviderError : option Thrown) : Thrown :=
  ProviderErrorObj
    ("Provider " ++ key ++ " failed after " ++ showInt maxAttempts ++ " attempts")
    (orDefault (match lastProviderError with
                | Some e => classificationOf e
                | None => None
                end) TEMPORARY)
    None
    lastProviderError.

(** [isRetryable(error.classification)] for a provider error. *)
Definition retryableError (error : Thrown) : bool :=
  match classificationOf error with
  | Some c => isRetryable c
  | None => false
  end.

Section WithUpstream.

(** The state of everything behind the adapters (providers, network). *)
Variable Upstream : Type.

(** [ProviderAdapter], without the discovery and health methods.  A method
    acts on the upstream state; an optional method may be absent. *)
Record ProviderAdapter : Type := {
  name : string;
  supports : string -> bool;
  chat : NormalizedChatRequest -> Upstream -> Outcome ProviderResponse * Upstream;
  chatStream :
    option (NormalizedChatRequest -> Upstream -> OpenAIAdapter.StreamRun * Upstream);
  embed :
    option (NormalizedEmbedRequest -> Upstream -> Outcome ProviderResponse * Upstream)
}.

(** One call of an adapter method by the orchestrator. *)
Inductive AdapterCall : Type :=
| ChatCall (adapter : string) (request : NormalizedChatRequest)
| ChatStreamCall (adapter : string) (request : NormalizedChatRequest)
| EmbedCall (adapter : string) (request : NormalizedEmbedRequest).

(** The world a dispatch runs in: the upstream state and the log of the
    adapter calls made so far. *)
Record World : Type := {
  upstream : Upstream;
  calls : list AdapterCall
}.

(** A computation of the orchestrator. *)
Definition M (A : Type) : Type := World -> Outcome A * World.

Definition ret {A : Type} (a : A) : M A := fun w => (Returned a, w).

Definition throw {A : Type} (error : Thrown) : M A := fun w => (Threw error, w).

Definition lift {A : Type} (o : Outcome A) : M A := fun w => (o, w).

Definition bind {A B : Type} (m : M A) (k : A -> M B) : M B :=
  fun w =>
    match m w with
    | (Returned a, w') => k a w'
    | (Threw error, w') => (Threw error, w')
    | (Unsettled, w') => (Unsettled, w')
    end.

Notation "x <- m ;; k" := (bind m (fun x => k))
  (at level 61, m at next level, right associativity).

(** [adapter.chat(request)], logged. *)
Definition invokeChat (adapter : ProviderAdapter) (request : NormalizedChatRequest)
  : M ProviderResponse :=
  fun w =>
    let '(outcome, u) := chat adapter request (upstream w) in
    (outcome, {| upstream := u;
                 calls := calls w ++ [ChatCall (name adapter) request] |}).

(** [adapter.embed(request)], logged. *)
Definition invokeEmbed (adapter : ProviderAdapter)
  (method : NormalizedEmbedRequest -> Upstream -> Outcome ProviderResponse * Upstream)
  (request : NormalizedEmbedRequest) : M ProviderResponse :=
  fun w =>
    let '(outcome, u) := method request (upstream w) in
    (outcome, {| upstream := u;
                 calls := calls w ++ [EmbedCall (name adapter) request] |}).

(** [adapter.chatStream(request)], logged. *)
Definition invokeChatStream (adapter : ProviderAdapter)
  (method : NormalizedChatRequest -> Upstream -> OpenAIAdapter.StreamRun * Upstream)
  (request : NormalizedChatRequest) : M OpenAIAdapter.StreamRun :=
  fun w =>
    let '(stream, u) := method request (upstream w) in
    (Returned stream,
     {| upstream := u;
        calls := calls w ++ [ChatStreamCall (name adapter) request] |}).

(** [getRegisteredAdapter(providerKey, adapters)]. *)
Definition getRegisteredAdapter (key : string) (adapters : list ProviderAdapter)
  : Outcome ProviderAdapter :=
  match find (fun entry => String.eqb (name entry) key) adapters with
  | Some adapter => Returned adapter
  | None => Threw (NativeError PlainError ("Adapter not registered for provider: " ++ key))
  end.

(** [validateCapability(providerConfig, capability, providerKey)]; a missing
    configuration makes the property read throw. *)
Definition validateCapability (providerConfig : option ProviderConfig)
  (capability key : string) : Outcome unit :=
  match providerConfig with
  | None => Threw (NativeError TypeError "Cannot read properties of undefined")
  | Some config =>
      if negb (includes capability (capabilities config))
      then Threw (NativeError PlainError
                    ("Provider " ++ key ++ " does not declare capability: " ++ capability))
      else Returned tt
  end.

(** [selectAdapter(providerKey, providerConfig, adapters, capability)]. *)
Definition selectAdapter (key : string) (providerConfig : option ProviderConfig)
  (adapters : list ProviderAdapter) (capability : string) : Outcome ProviderAdapter :=
  match getRegisteredAdapter key adapters with
  | Returned adapter =>
      if negb (supports adapter capability)
      then Threw (NativeError PlainError
                    ("Adapter " ++ key ++ " does not support " ++ capability ++ " capability"))
      else
        match validateCapability providerConfig capability key with
        | Returned _ => Returned adapter
        | Threw error => Threw error
        | Unsettled => Unsettled
        end
  | Threw error => Threw error
  | Unsettled => Unsettled
  end.

(** The [while (attempt < maxAttempts)] loop of [executeWithRetry] and the
    [throw] after it.  [budget] bounds the number of iterations.  The
    counter [attempt] is a double in the source, exact up to [2^53] where
    [attempt += 1] stops changing it: the loop is the source's for a
    maximum of at most [2^53], and the theorems that count attempts are
    stated for such a maximum. *)
Fixpoint retryLoop {T : Type} (budget : nat) (operation : M T) (key : string)
  (maxAttempts attempt : Z) (lastProviderError : option Thrown) : M (T * Z) :=
  fun w =>
    if attempt <? maxAttempts then
      match budget with
      | O => (Unsettled, w)
      | S budget' =>
          let attempt := attempt + 1 in
          match operation w with
          | (Returned result, w') => (Returned (result, attempt), w')
          | (Threw error, w') =>
              if isProviderError error then
                if retryableError error then
                  if attempt <? maxAttempts
                  then retryLoop budget' operation key maxAttempts attempt (Some error) w'
                  else (Threw (exhausted key maxAttempts (Some error)), w')
                else (Threw error, w')
              else (Threw error, w')
          | (Unsettled, w') => (Unsettled, w')
          end
      end
    else (Threw (exhausted key maxAttempts lastProviderError), w).

(** [executeWithRetry(operation, providerKey, maxAttempts)]: the result and
    the number of attempts. *)
Definition executeWithRetry {T : Type} (operation : M T) (key : string)
  (maxAttempts : Z) : M (T * Z) :=
  retryLoop (Z.to_nat maxAttempts) operation key maxAttempts 0 None.

(** The configuration entry a dispatch reads after [selectAdapter] let it
    pass (which it does only when the entry exists). *)
Definition configured (providerConfig : option ProviderConfig) : M ProviderConfig :=
  match providerConfig with
  | Some config => ret config
  | None => throw (NativeError TypeError "Cannot read properties of undefined")
  end.

(** [dispatchChat(request)] of [createOrchestrator(config, adapters)]. *)
Definition dispatchChat (config : CallerConfig) (adapters : list ProviderAdapter)
  (request : NormalizedChatRequest) : M ProviderResponse :=
  let maxAttempts := resolveMaxAttempts config in
  routing <- lift (resolveRoutingSelection "chat" (provider request) (model request)
                                           (providers config)) ;;
  let providerConfig := lookup (providerKey routing) (providers config) in
  adapter <- lift (selectAdapter (providerKey routing) providerConfig adapters "chat") ;;
  entry <- configured providerConfig ;;
  let normalizedRequest :=
    normalizeChatRequest request (providerKey routing) entry
                         (Some (selectedModel routing)) in
  outcome <- executeWithRetry (invokeChat adapter normalizedRequest)
                              (providerKey routing) maxAttempts ;;
  let '(result, attempts) := outcome in
  let resolvedModel := orDefault (model normalizedRequest) (selectedModel routing) in
  ret {| payload :=
           attachRoutingMetadata (payload result)
             {| ctxProvider := providerKey routing;
                ctxModel := resolvedModel;
                ctxCapability := "chat";
                ctxStrategy := strategy routing |};
         traceId := traceId result;
         retryAfterMs := retryAfterMs result;
         attempts := Some attempts |}.

(** [dispatchChatStream(request)]: what the call returns or throws; the
    returned stream is the adapter's, run to its end, with the routing
    attached. *)
Definition dispatchChatStream (config : CallerConfig) (adapters : list ProviderAdapter)
  (request : NormalizedChatRequest) : M OpenAIAdapter.StreamRun :=
  routing <- lift (resolveRoutingSelection "chatStream" (provider request) (model request)
                                           (providers config)) ;;
  let providerConfig := lookup (providerKey routing) (providers config) in
  adapter <- lift (selectAdapter (providerKey routing) providerConfig adapters "chat") ;;
  match chatStream adapter with
  | None =>
      throw (NativeError PlainError
               ("Adapter " ++ providerKey routing ++ " does not support chat streaming"))
  | Some method =>
      entry <- configured providerConfig ;;
      let normalizedRequest :=
        normalizeChatRequest request (providerKey routing) entry
                             (Some (selectedModel routing)) in
      stream <- invokeChatStream adapter method normalizedRequest ;;
      ret (attachRoutingToStream stream
             {| ctxProvider := providerKey routing;
                ctxModel := orDefault (model normalizedRequest) (selectedModel routing);
                ctxCapability := "chatStream";
                ctxStrategy := strategy routing |})
  end.

(** [dispatchEmbed(request)]. *)
Definition dispatchEmbed (config : CallerConfig) (adapters : list ProviderAdapter)
  (request : NormalizedEmbedRequest) : M ProviderResponse :=
  routing <- lift (resolveRoutingSelection "embed" (embedProvider request)
                                           (embedModel request) (providers config)) ;;
  let providerConfig := lookup (providerKey routing) (providers config) in
  adapter <- lift (selectAdapter (providerKey routing) providerConfig adapters "embed") ;;
  match embed adapter with
  | None =>
      throw (NativeError PlainError
               ("Adapter " ++ providerKey routing ++ " does not support embed capability"))
  | Some method =>
      entry <- configured providerConfig ;;
      let normalizedRequest :=
        normalizeEmbedRequest request (providerKey routing) entry
                              (Some (selectedModel routing)) in
      response <- invokeEmbed adapter method normalizedRequest ;;
      let resolvedModel :=
        orDefault (embedModel normalizedRequest) (selectedModel routing) in
      ret {| payload :=
               attachRoutingMetadata (payload response)
                 {| ctxProvider := providerKey routing;
                    ctxModel := resolvedModel;
                    ctxCapability := "embed";
                    ctxStrategy := strategy routing |};
             traceId := traceId response;
             retryAfterMs := retryAfterMs response;
             attempts := Some 1 |}
  end.

(** The three dispatch entry points under one name, the value returned
    forgotten: what remains is how the call ends and what it did. *)
Inductive Dispatch : Type :=
| ChatDispatch (request : NormalizedChatRequest)
| ChatStreamDispatch (request : NormalizedChatRequest)
| EmbedDispatch (request : NormalizedEmbedRequest).

(** The capability [resolveRoutingSelection] is called with. *)
Definition routedCapability (d : Dispatch) : string :=
  match d with
  | ChatDispatch _ => "chat"
  | ChatStreamDispatch _ => "chatStream"
  | EmbedDispatch _ => "embed"
  end.

(** The capability [selectAdapter] is called with. *)
Definition checkedCapability (d : Dispatch) : string :=
  match d with
  | ChatDispatch _ => "chat"
  | ChatStreamDispatch _ => "chat"
  | EmbedDispatch _ => "embed"
  end.

(** The routing selection of a dispatch. *)
Definition dispatchRouting (config : CallerConfig) (d : Dispatch)
  : Outcome RoutingSelection :=
  match d with
  | ChatDispatch request | ChatStreamDispatch request =>
      resolveRoutingSelection (routedCapability d) (provider request) (model request)
                              (providers config)
  | EmbedDispatch request =>
      resolveRoutingSelection (routedCapability d) (embedProvider request)
                              (embedModel request) (providers config)
  end.

Definition dispatch (config : CallerConfig) (adapters : list ProviderAdapter)
  (d : Dispatch) : M unit :=
  match d with
  | ChatDispatch request =>
      _ <- dispatchChat config adapters request ;; ret tt
  | ChatStreamDispatch request =>
      _ <- dispatchChatStream config adapters request ;; ret tt
  | EmbedDispatch request =>
      _ <- dispatchEmbed config adapters request ;; ret tt
  end.

End WithUpstream.

Arguments name {Upstream} _.
Arguments supports {Upstream} _ _.
Arguments chat {Upstream} _ _ _.
Arguments chatStream {Upstream} _.
Arguments embed {Upstream} _.
Arguments upstream {Upstream} _.
Arguments calls {Upstream} _.
Arguments ret {Upstream A} a _.
Arguments throw {Upstream A} error _.
Arguments lift {Upstream A} o _.
Arguments bind {Upstream A B} m k _.
Arguments invokeChat {Upstream} adapter request _.
Arguments invokeEmbed {Upstream} adapter method request _.
Arguments invokeChatStream {Upstream} adapter method request _.
Arguments getRegisteredAdapter {Upstream} key adapters.
Arguments selectAdapter {Upstream} key providerConfig adapters capability.
Arguments retryLoop {Upstream T} budget operation key maxAttempts attempt lastProviderError _.
Arguments executeWithRetry {Upstream T} operation key maxAttempts _.
Arguments configured {Upstream} providerConfig _.
Arguments dispatchChat {Upstream} config adapters request _.
Arguments dispatchChatStream {Upstream} config adapters request _.
Arguments dispatchEmbed {Upstream} config adapters request _.
Arguments dispatch {Upstream} config adapters d _.

End Orchestrator.

(* ================================================================== *)
(** ** Scenarios *)
(* ================================================================== *)

(** Concrete inputs, in the shape the repository's tests use, on which the
    model is run. *)

Module Scenarios.

Import OpenAIAdapter.

(** JSON text is written with apostrophes for its double quotes. *)
Fixpoint dq (s : string) : string :=
  match s with
  | EmptyString => EmptyString
  | String c rest =>
      String (if Ascii.eqb c (ascii_of_nat 39) then ascii_of_nat 34 else c) (dq rest)
  end.

(** One SSE block carrying a payload: [data: <payload>\n\n]. *)
Definition sse (payload : string) : Value :=
  Str ("data: " ++ dq payload ++ String LF (String LF EmptyString)).

(** The stream of the reconstruction scenario: each chunk carries one of the
    choices [{delta:{role,content}}], [{delta:{content}}],
    [{finish_reason:'stop'}], and the sentinel ends it. *)
Definition helloStream : list Value :=
  [ sse "{'choices':[{'delta':{'role':'assistant','content':'Hel'}}]}";
    sse "{'choices':[{'delta':{'content':'lo'}}]}";
    sse "{'choices':[{'finish_reason':'stop'}]}";
    sse "[DONE]" ].

(** The same payloads with the objects at the top level of each chunk
    instead of under [choices]. *)
Definition bareStream : list Value :=
  [ sse "{'delta':{'role':'assistant','content':'Hel'}}";
    sse "{'delta':{'content':'lo'}}";
    sse "{'finish_reason':'stop'}";
    sse "[DONE]" ].

(** The stream of the adapter's own test, with an id and usage figures. *)
Definition testStream : list Value :=
  [ sse "{'id':'chatcmpl-1','choices':[{'delta':{'role':'assistant','content':'Hel'}}]}";
    sse "{'id':'chatcmpl-1','choices':[{'delta':{'content':'lo'}}]}";
    sse "{'id':'chatcmpl-1','choices':[{'finish_reason':'stop'}],'usage':{'prompt_tokens':12,'completion_tokens':8}}";
    sse "[DONE]" ].

(** A stream cut off by the token limit. *)
Definition lengthStream : list Value :=
  [ sse "{'choices':[{'delta':{'role':'assistant','content':'Hel'}}]}";
    sse "{'choices':[{'delta':{'content':'lo'},'finish_reason':'length'}]}";
    sse "[DONE]" ].

(** A stream that goes on after a choice said 'stop'. *)
Definition chattyStream : list Value :=
  [ sse "{'choices':[{'delta':{'content':'Hi'},'finish_reason':'stop'}]}";
    sse "{'choices':[{'delta':{'content':'!'}}]}";
    sse "{'choices':[{'finish_reason':'stop'}]}";
    sse "[DONE]" ].

Definition deltaEvent (r c : option string) : ProviderStreamEvent :=
  {| eventType := delta;
     eventDelta := Some {| deltaRole := r; deltaContent := c |};
     eventPayload := None;
     eventTraceId := None |}.

(** Usage objects. *)
Definition usageNegativeTotal : Value :=
  Obj [("prompt_tokens", Num 12); ("completion_tokens", Num 8); ("total_tokens", Num (-5))].

Definition usageDisagreeing : Value :=
  Obj [("prompt_tokens", Num 12); ("completion_tokens", Num 8); ("total_tokens", Num 99)].

Definition usageNoTotal : Value :=
  Obj [("prompt_tokens", Num 12); ("completion_tokens", Num 8)].

Definition usageJunk : Value :=
  Obj [("prompt_tokens", Num (-3)); ("completion_tokens", Str "many")].

Definition usageEmpty : Value := Obj [].

Import Orchestrator.

(** The configuration of the orchestrator's tests: two providers, no
    capability defaults, no scores, the default retry policy. *)
Definition entry (defaultModel : string) (capabilities : list string) : ProviderConfig :=
  {| baseUrl := "https://example.invalid";
     defaultModel := defaultModel;
     capabilities := capabilities;
     defaults := None;
     scores := None;
     notes := None |}.

Definition baseConfig : CallerConfig :=
  {| providers := [("openai", entry "gpt-4o-mini" ["chat"; "embed"]);
                   ("anthropic", entry "claude-3-haiku" ["chat"])];
     retry := None |}.

(** The same with three attempts configured. *)
Definition patientConfig : CallerConfig :=
  {| providers := providers baseConfig;
     retry := Some {| maxAttempts := Some 3%float |} |}.

(** The configuration of the scenario "capability default wins": A is
    declared first, has no chat default and a chat score of 95; B has the
    chat default [x] and a chat score of 10. *)
Definition scoredConfig : CallerConfig :=
  {| providers :=
       [("A", {| baseUrl := "https://a.invalid"; defaultModel := "a-default";
                 capabilities := ["chat"]; defaults := None;
                 scores := Some [("chat", 95%float)]; notes := None |});
        ("B", {| baseUrl := "https://b.invalid"; defaultModel := "b-default";
                 capabilities := ["chat"]; defaults := Some [("chat", "x")];
                 scores := Some [("chat", 10%float)]; notes := None |})];
     retry := None |}.

Definition chatRequest : NormalizedChatRequest :=
  {| requestId := "req-1"; callerTool := "tool";
     messages := [{| role := "user"; content := "hi" |}];
     provider := None; model := None; temperature := None; maxTokens := None |}.

Definition embedRequest : NormalizedEmbedRequest :=
  {| embedRequestId := "embed-1"; embedCallerTool := "tool";
     inputs := [TextInput "Hello world"];
     embedProvider := None; embedModel := None |}.

(** The upstream state of the stub adapters: how many calls they served. *)
Definition Served : Type := nat.

Definition okResponse (text : string) : ProviderResponse :=
  {| payload := Obj [("message", Str text)]; traceId := "trace-1";
     retryAfterMs := None; attempts := None |}.

Definition providerFailure (classification : ProviderErrorClassification)
  (message : string) : Thrown :=
  ProviderErrorObj message classification None None.

(** An adapter for [openai] whose chat always fails in the given way. *)
Definition failingAdapter (error : Thrown) : ProviderAdapter Served :=
  {| name := "openai";
     supports := fun capability => String.eqb capability "chat";
     chat := fun _ served => (Threw error, S served);
     chatStream := None;
     embed := None |}.

(** An adapter for [openai] whose embed fails once with a transient error
    and succeeds from the second call on. *)
Definition embedFlakyOnce : ProviderAdapter Served :=
  {| name := "openai";
     supports := fun capability =>
                   String.eqb capability "chat" || String.eqb capability "embed";
     chat := fun _ served => (Returned (okResponse "ok"), S served);
     chatStream := None;
     embed := Some (fun _ served =>
                      match served with
                      | O => (Threw (providerFailure TEMPORARY "transient failure"), S served)
                      | S _ => (Returned (okResponse "vectors"), S served)
                      end) |}.

(** An adapter for [openai] that advertises no capability. *)
Definition muteAdapter : ProviderAdapter Served :=
  {| name := "openai";
     supports := fun _ => false;
     chat := fun _ served => (Returned (okResponse "ok"), S served);
     chatStream := None;
     embed := None |}.

(** An adapter for [anthropic] that advertises embed, which its provider
    entry does not declare. *)
Definition overreachingAdapter : ProviderAdapter Served :=
  {| name := "anthropic";
     supports := fun _ => true;
     chat := fun _ served => (Returned (okResponse "ok"), S served);
     chatStream := None;
     embed := Some (fun _ served => (Returned (okResponse "vectors"), S served)) |}.

(** An adapter for [openai] that streams two events. *)
Definition streamingAdapter : ProviderAdapter Served :=
  {| name := "openai";
     supports := fun capability => String.eqb capability "chat";
     chat := fun _ served => (Returned (okResponse "ok"), S served);
     chatStream :=
       Some (fun _ served =>
               ({| emitted := [deltaEvent None (Some "Hel"); deltaEvent None (Some "lo")];
                   failure := None |}, S served));
     embed := None |}.

Definition idle : World Served := {| upstream := O; calls := [] |}.

(** The request of the scenarios as the adapter receives it. *)
Definition normalizedChat : NormalizedChatRequest :=
  {| requestId := "req-1"; callerTool := "tool";
     messages := [{| role := "user"; content := "hi" |}];
     provider := Some "openai"; model := Some "gpt-4o-mini";
     temperature := None; maxTokens := None |}.

Definition normalizedEmbed : NormalizedEmbedRequest :=
  {| embedRequestId := "embed-1"; embedCallerTool := "tool";
     inputs := [TextInput "Hello world"];
     embedProvider := Some "openai"; embedModel := Some "gpt-4o-mini" |}.

End Scenarios.

(* ================================================================== *)
(** ** Further notions for stating properties *)
(* ================================================================== *)

Module RoutingSpec.

Import Orchestrator.

(** [config.capabilities.includes(capability)]. *)
Definition declares (capability : string) (config : ProviderConfig) : bool :=
  includes capability (capabilities config).

(** [Boolean(config.defaults?.[capability])]. *)
Definition hasDefault (capability : string) (config : ProviderConfig) : bool :=
  truthyString (optLookup capability (defaults config)).

(** The [score] the callback of [resolveRoutingSelection] computes for an
    entry: its declared score, 0 when there is none, plus 50 when it has a
    default model for the capability. *)
Definition entryScore (capability : string) (config : ProviderConfig) : float :=
  (orDefault (optLookup capability (scores config)) 0
   + (if hasDefault capability config then 50 else 0))%float.

(** The [model] and the [strategy] it computes. *)
Definition entryModel (capability : string) (config : ProviderConfig) : string :=
  orDefault (optLookup capability (defaults config)) (defaultModel config).

Definition entryStrategy (capability : string) (config : ProviderConfig)
  : RoutingStrategy :=
  if hasDefault capability config then CapabilityDefault else Fallback.

(** The candidate the callback builds for the entry at [index]. *)
Definition candidate (capability key : string) (config : ProviderConfig) (index : Z)
  : Best :=
  {| bestKey := key; bestIndex := index; bestScore := entryScore capability config;
     bestModel := entryModel capability config;
     bestStrategy := entryStrategy capability config |}.

(** The selection made from the candidate of an entry. *)
Definition capabilitySelection (capability key : string) (config : ProviderConfig)
  : RoutingSelection :=
  {| providerKey := key; selectedModel := entryModel capability config;
     strategy := entryStrategy capability config |}.

(** [best] is a best choice among the entries [seen]: none when none of them
    declares the capability, else the candidate of one that does, whose
    score no other reaches and which no earlier one equals. *)
Definition leads (capability : string) (seen : list (string * ProviderConfig))
  (best : option Best) : Prop :=
  match best with
  | None => forall key config, In (key, config) seen -> declares capability config = false
  | Some b =>
      exists i key config,
        nth_error seen i = Some (key, config)
        /\ declares capability config = true
        /\ b = candidate capability key config (Z.of_nat i)
        /\ forall j key' config',
             nth_error seen j = Some (key', config') ->
             declares capability config' = true ->
             (entryScore capability config' <=? bestScore b)%float = true
             /\ ((entryScore capability config' =? bestScore b)%float = true ->
                 (i <= j)%nat)
  end.

(** The world after [k] calls of an operation each of which threw a
    retryable provider error; [None] when one of them did not. *)
Fixpoint afterRetryableFailures {Upstream T : Type} (operation : M Upstream T)
  (k : nat) (w : World Upstream) : option (World Upstream) :=
  match k with
  | O => Some w
  | S k' =>
      match operation w with
      | (Threw error, w') =>
          if isProviderError error && retryableError error
          then afterRetryableFailures operation k' w'
          else None
      | _ => None
      end
  end.

(** The error and the world after [k] calls of an operation each of which
    threw a retryable provider error: those of the last call; [None] when
    one of the calls did not, or when [k] is zero. *)
Fixpoint lastRetryableFailure {Upstream T : Type} (operation : M Upstream T)
  (k : nat) (w : World Upstream) : option (Thrown * World Upstream) :=
  match k with
  | O => None
  | S k' =>
      match operation w with
      | (Threw error, w') =>
          if isProviderError error && retryableError error
          then match k' with
               | O => Some (error, w')
               | S _ => lastRetryableFailure operation k' w'
               end
          else None
      | _ => None
      end
  end.

(** The names every object inherits from [Object.prototype].  A property
    read [providers[name]] finds them whether or not a provider is
    configured under [name]; the routing and discovery functions are
    modelled for the other names, where the read finds the configured
    entries only. *)
Definition inheritedNames : list string :=
  ["constructor"; "hasOwnProperty"; "isPrototypeOf"; "propertyIsEnumerable";
   "toLocaleString"; "toString"; "valueOf"; "__proto__";
   "__defineGetter__"; "__defineSetter__"; "__lookupGetter__"; "__lookupSetter__"].

Definition inherited (name : string) : bool :=
  existsb (String.eqb name) inheritedNames.

(** The provider asked for, if any, is none of the inherited names. *)
Definition ownName (requested : option string) : bool :=
  match requested with
  | Some name => negb (inherited name)
  | None => true
  end.

(** The provider a dispatch asks for. *)
Definition requestedProvider (d : Dispatch) : option string :=
  match d with
  | ChatDispatch request | ChatStreamDispatch request => provider request
  | EmbedDispatch request => embedProvider request
  end.

(** The call has settled. *)
Definition settled {A : Type} (outcome : Outcome A) : bool :=
  match outcome with Unsettled => false | _ => true end.

(** A request with another [model] asked for. *)
Definition withModel (request : NormalizedChatRequest) (m : option string)
  : NormalizedChatRequest :=
  {| requestId := requestId request;
     callerTool := callerTool request;
     messages := messages request;
     provider := provider request;
     model := m;
     temperature := temperature request;
     maxTokens := maxTokens request |}.

Definition withEmbedModel (request : NormalizedEmbedRequest) (m : option string)
  : NormalizedEmbedRequest :=
  {| embedRequestId := embedRequestId request;
     embedCallerTool := embedCallerTool request;
     inputs := inputs request;
     embedProvider := embedProvider request;
     embedModel := m |}.

(** The [routing] object [attachRoutingMetadata] writes. *)
Definition routingValue (context : RoutingContext) : Value :=
  Obj [("capability", Str (ctxCapability context));
       ("strategy", Str (strategyName (ctxStrategy context)))].

End RoutingSpec.

(** More stub adapters. *)
Module MoreScenarios.

Import Orchestrator Scenarios.

(** An adapter for [openai] whose chat fails once with a transient error and
    succeeds from the second call on. *)
Definition chatFlakyOnce : ProviderAdapter Served :=
  {| name := "openai";
     supports := fun capability => String.eqb capability "chat";
     chat := fun _ served =>
               match served with
               | O => (Threw (providerFailure TEMPORARY "transient failure"), S served)
               | S _ => (Returned (okResponse "ok"), S served)
               end;
     chatStream := None;
     embed := None |}.

(** An adapter for [openai] whose chat is throttled on the first call and
    unavailable from the second call on. *)
Definition throttledThenDown : ProviderAdapter Served :=
  {| name := "openai";
     supports := fun capability => String.eqb capability "chat";
     chat := fun _ served =>
               match served with
               | O => (Threw (providerFailure RATE_LIMIT "slow down"), S served)
               | S _ => (Threw (providerFailure TEMPORARY "unavailable"), S served)
               end;
     chatStream := None;
     embed := None |}.

(** Three providers that declare chat: the second and the third share the
    highest score. *)
Definition tiedConfig : CallerConfig :=
  {| providers :=
       [("first", {| baseUrl := "https://1.invalid"; defaultModel := "m1";
                     capabilities := ["chat"]; defaults := None;
                     scores := Some [("chat", 40%float)]; notes := None |});
        ("second", {| baseUrl := "https://2.invalid"; defaultModel := "m2";
                      capabilities := ["chat"]; defaults := Some [("chat", "m2-chat")];
                      scores := Some [("chat", 20%float)]; notes := None |});
        ("third", {| baseUrl := "https://3.invalid"; defaultModel := "m3";
                     capabilities := ["chat"; "embed"]; defaults := None;
                     scores := Some [("chat", 70%float)]; notes := None |})];
     retry := None |}.

End MoreScenarios.

(** The order of binary64 values, read in the integers: a value that is
    not NaN has a rank, and comparisons of values are comparisons of ranks.
    A finite value [m * 2^e] has the rank [m * 2^(e + 1074)] (1074 is the
    opposite of the least exponent), the infinities lie beyond all of
    them. *)
Module FloatOrder.

Definition rank (f : spec_float) : Z :=
  match f with
  | S754_zero _ => 0
  | S754_infinity s => if s then - 2 ^ 2100 else 2 ^ 2100
  | S754_nan => 0
  | S754_finite s m e =>
      if s then - (Z.pos m * 2 ^ (e + 1074)) else Z.pos m * 2 ^ (e + 1074)
  end.

Definition rankOf (x : float) : Z := rank (Prim2SF x).

End FloatOrder.

(* ================================================================== *)
(** ** adapters/openaiAdapter.ts: the normalizer on a source that can fail *)
(* ================================================================== *)

Module StreamSource.

Import OpenAIAdapter.

(** An [AsyncIterable<string>] as the [for await] of the normalizer sees
    it: the chunks its iterator delivers, and then either the end of the
    iteration or a rejection.  [FetchHttpClient.postStream], an async
    generator, rejects in this way - at the first [next()] on a status
    outside 200-299, later when the connection fails. *)
Record Source : Type := {
  delivered : list Value;
  rejection : option Thrown
}.

Section WithRuntime.

Context {RT : Runtime}.

(** [for await (const chunk of source) { ... }] on such a source: the body
    of the loop is that of [consume]; when the chunks are used up the
    iterator ends or rejects, and the loop, which has no [try] around it,
    lets the rejection pass as it is. *)
Fixpoint consumeFrom (providerName : string) (model : option string)
  (chunks : list Value) (ending : option Thrown) (st : StreamState) : StreamRun :=
  match chunks with
  | [] => {| emitted := []; failure := ending |}
  | chunk :: rest =>
      match extractDataPayload chunk with
      | None => consumeFrom providerName model rest ending st           (* continue *)
      | Some data =>
          if String.eqb data "" then consumeFrom providerName model rest ending st
          else if String.eqb data "[DONE]" then {| emitted := []; failure := None |}
          else
            match JSON_parse data with
            | None => {| emitted := []; failure := Some parseFailure |}
            | Some parsed =>
                if isNullish parsed then {| emitted := []; failure := Some nullAccess |}
                else
                  let st1 := observeChunk st parsed in
                  let '(st2, events, err) :=
                    forEachChoice providerName model (choicesOf parsed) st1 in
                  match err with
                  | Some e => {| emitted := events; failure := Some e |}
                  | None =>
                      let later := consumeFrom providerName model rest ending st2 in
                      {| emitted := events ++ emitted later; failure := failure later |}
                  end
            end
      end
  end.

(** [mapChatCompletionsStream(source, providerName, model)], run to its end
    on a source that may reject. *)
Definition mapChatCompletionsStreamFrom (source : Source) (providerName : string)
  (model : option string) : StreamRun :=
  consumeFrom providerName model (delivered source) (rejection source)
              initialStreamState.

End WithRuntime.

End StreamSource.

(** Readings of the events of a stream. *)
Module StreamSpec.

Import OpenAIAdapter.

(** The content fragment a delta event carries, empty for an event without
    one. *)
Definition deltaText (event : ProviderStreamEvent) : string :=
  match eventDelta event with
  | Some fragment => orDefault (deltaContent fragment) ""
  | None => ""
  end.

(** The content fragments of a run of events, in order, as one text. *)
Fixpoint streamedText (events : list ProviderStreamEvent) : string :=
  match events with
  | [] => ""
  | event :: rest => deltaText event ++ streamedText rest
  end.

(** [event.payload.message.content]. *)
Definition messageContent (event : ProviderStreamEvent) : Value :=
  match eventPayload event with
  | Some p => getProp (getProp p "message") "content"
  | None => Undefined
  end.

(** Every completion event among [events] carries as content the text
    [acc] followed by the fragments of the events before it. *)
Fixpoint contentsAgree (acc : string) (events : list ProviderStreamEvent) : Prop :=
  match events with
  | [] => True
  | event :: rest =>
      (eventType event = completion -> messageContent event = Str acc)
      /\ contentsAgree (acc ++ deltaText event) rest
  end.

(** The chunk is the sentinel that ends a stream. *)
Definition isSentinel (chunk : Value) : bool :=
  match extractDataPayload chunk with
  | Some data => String.eqb data "[DONE]"
  | None => false
  end.

(** The SSE block that carries [payload] on one [data:] line. *)
Definition sseBlock (payload : string) : Value :=
  Str ("data: " ++ payload ++ String LF (String LF EmptyString)).

(** The text has no line feed. *)
Fixpoint singleLine (s : string) : bool :=
  match s with
  | EmptyString => true
  | String c rest => negb (Ascii.eqb c LF) && singleLine rest
  end.

End StreamSpec.

(* ================================================================== *)
(** ** adapters/helpers.ts: URLs and HTTP errors *)
(* ================================================================== *)

Module Helpers.

(** [s.replace(/\/+$/, '')]: without its trailing slashes. *)
Fixpoint dropTrailingSlashes (s : string) : string :=
  match s with
  | EmptyString => EmptyString
  | String c rest =>
      match dropTrailingSlashes rest with
      | EmptyString => if Ascii.eqb c "/" then EmptyString else String c EmptyString
      | rest' => String c rest'
      end
  end.

(** [s.replace(/^\/+/, '')]: without its leading slashes. *)
Fixpoint dropLeadingSlashes (s : string) : string :=
  match s with
  | EmptyString => EmptyString
  | String c rest => if Ascii.eqb c "/" then dropLeadingSlashes rest else s
  end.

(** [joinUrl(baseUrl, path)]. *)
Definition joinUrl (baseUrl path : string) : string :=
  (dropTrailingSlashes baseUrl ++ "/" ++ dropLeadingSlashes path)%string.

(** [extractErrorMessage(body)]; [None] is [undefined]. *)
Definition extractErrorMessage (body : Value) : option string :=
  if negb (truthy body) then None
  else
    match body with
    | Str s => Some s
    | _ =>
        if isObjectType body then
          match getProp body "error" with
          | Str s => Some s
          | error =>
              match (if truthy error && isObjectType error
                     then asString (getProp error "message") else None) with
              | Some message => Some message
              | None => asString (getProp body "message")
              end
          end
        else None
    end.

(** The [cause] option of the [ProviderError] constructor: stored unless it
    is [undefined]. *)
Definition causeOfValue (v : Value) : option Thrown :=
  match v with Undefined => None | _ => Some (ThrownValue v) end.

Definition causeOf (error : Thrown) : option Thrown :=
  match error with ThrownValue Undefined => None | _ => Some error end.

(** [createHttpError(providerName, status, body)]. *)
Definition createHttpError (providerName : string) (status : Z) (body : Value) : Thrown :=
  let classification := mapStatusToClassification status in
  let detail := orDefault (extractErrorMessage body) ("HTTP " ++ showInt status)%string in
  ProviderErrorObj (providerName ++ " request failed: " ++ detail)%string
                   classification None (causeOfValue body).

End Helpers.

(* ================================================================== *)
(** ** adapters/httpClient.ts, adapters/types.ts: what an adapter depends on *)
(* ================================================================== *)

Module HttpClient.

(** [HttpRequestOptions], with the two fields the adapters set. *)
Record HttpRequestOptions : Type := {
  headers : list (string * string);
  body : Value
}.

(** [HttpResponse], without its headers, which no adapter reads. *)
Record HttpResponse : Type := {
  status : Z;
  responseBody : Value
}.

(** How the promise of a dependency settles. *)
Inductive Settled (A : Type) : Type :=
| Fulfilled (a : A)
| Rejected (error : Thrown).

Arguments Fulfilled {A} a.
Arguments Rejected {A} error.

(** [AdapterDependencies]: the secrets provider and the HTTP client, acting
    on the state [Net] of what lies behind them.  [postStream] is an
    optional method; its result is the list of chunks the stream
    delivers. *)
Record AdapterDependencies (Net : Type) : Type := {
  getSecret : string -> Net -> Settled (option string) * Net;
  post : string -> HttpRequestOptions -> Net -> Settled HttpResponse * Net;
  get : string -> Net -> Settled HttpResponse * Net;
  postStream :
    option (string -> HttpRequestOptions -> Net -> Settled (list Value) * Net)
}.

Arguments getSecret {Net} _ _ _.
Arguments post {Net} _ _ _ _.
Arguments get {Net} _ _ _.
Arguments postStream {Net} _.

(** [status < 200 || status >= 300]. *)
Definition notOk (status : Z) : bool := (status <? 200) || (300 <=? status).

End HttpClient.

(* ================================================================== *)
(** ** adapters/openaiAdapter.ts: requests, responses, the adapter class *)
(* ================================================================== *)

Module OpenAIClass.

Import Helpers HttpClient.

(** A message of a request as a value. *)
Definition messageValue (m : Orchestrator.ChatMessage) : Value :=
  Obj [("role", Str (Orchestrator.role m)); ("content", Str (Orchestrator.content m))].

(** [buildOpenAIRequestBody(request)]. *)
Definition buildOpenAIRequestBody (request : Orchestrator.NormalizedChatRequest) : Value :=
  Obj ([("model", ofOptString (Orchestrator.model request));
        ("messages", Arr (map messageValue (Orchestrator.messages request)))]
       ++ match Orchestrator.temperature request with
          | Some t => [("temperature", Num t)]
          | None => []
          end
       ++ match Orchestrator.maxTokens request with
          | Some n => [("max_tokens", Num n)]
          | None => []
          end).

(** An element of [request.inputs] as a value. *)
Definition inputValue (input : Orchestrator.EmbedInput) : Value :=
  match input with
  | Orchestrator.TextInput text => Str text
  | Orchestrator.VectorInput vector => Arr (map Num vector)
  end.

(** The body of an embeddings request: [{ model, input }]. *)
Definition embedRequestBody (request : Orchestrator.NormalizedEmbedRequest) : Value :=
  Obj [("model", ofOptString (Orchestrator.embedModel request));
       ("input", Arr (map inputValue (Orchestrator.inputs request)))].

(** [Array.isArray(v)]. *)
Definition isArray (v : Value) : bool :=
  match v with Arr _ => true | _ => false end.

(** The usage object of an embeddings response; [outputTokens] and
    [totalTokens] are optional properties. *)
Record EmbeddingUsage : Type := {
  embedInputTokens : float;
  embedOutputTokens : option float;
  embedTotalTokens : option float
}.

Section WithRuntime.

Context {RT : Runtime}.

(** [normalizeOpenAIResponse(responseBody, providerName)]. *)
Definition normalizeOpenAIResponse (responseBody : Value) (providerName : string)
  : Outcome Orchestrator.ProviderResponse :=
  if negb (truthy responseBody) || negb (isObjectType responseBody)
  then Threw (ProviderErrorObj "OpenAI response missing payload" TEMPORARY None None)
  else
    let firstChoice := nth 0 (OpenAIAdapter.choicesOf responseBody) Undefined in
    let message :=
      if isNullish firstChoice then Undefined else getProp firstChoice "message" in
    if negb (truthy message)
    then Threw (ProviderErrorObj "OpenAI response missing completion message"
                                 TEMPORARY None None)
    else
      Returned
        {| Orchestrator.payload :=
             Obj [("message", message);
                  ("usage",
                   OpenAIAdapter.usageValue
                     (OpenAIAdapter.normalizeChatUsage (getProp responseBody "usage")));
                  ("providerInfo",
                   Obj [("name", Str providerName);
                        ("model", getProp responseBody "model")])];
           Orchestrator.traceId := orDefault (asString (getProp responseBody "id")) "";
           Orchestrator.retryAfterMs := None;
           Orchestrator.attempts := None |}.

(** [normalizeEmbeddingUsage(raw)]. *)
Definition normalizeEmbeddingUsage (raw : Value) : EmbeddingUsage :=
  let base := OpenAIAdapter.usageBase raw in
  let input := OpenAIAdapter.rawInput base in
  let output := orElse (OpenAIAdapter.toNumber (getProp base "completion_tokens"))
                       (OpenAIAdapter.toNumber (getProp base "output_tokens")) in
  let total := OpenAIAdapter.toNumber (getProp base "total_tokens") in
  let derivedTotal :=
    orElse total
           (match output with
            | Some o => Some (input + o)%float
            | None => None
            end) in
  {| embedInputTokens := OpenAIAdapter.clampNonNegative input;
     embedOutputTokens := option_map OpenAIAdapter.clampNonNegative output;
     embedTotalTokens := option_map OpenAIAdapter.clampNonNegative derivedTotal |}.

Definition embeddingUsageValue (u : EmbeddingUsage) : Value :=
  Obj ([("inputTokens", Num (embedInputTokens u))]
       ++ match embedOutputTokens u with
          | Some o => [("outputTokens", Num o)]
          | None => []
          end
       ++ match embedTotalTokens u with
          | Some t => [("totalTokens", Num t)]
          | None => []
          end).

(** The callback of [data.map(...)] in [normalizeEmbeddingsResponse], over
    the entries in order: the first entry without an embedding array
    throws. *)
Fixpoint embeddingsOf (data : list Value) : Outcome (list Value) :=
  match data with
  | [] => Returned []
  | entry :: rest =>
      if negb (truthy entry) || negb (isObjectType entry)
         || negb (isArray (getProp entry "embedding"))
      then Threw (ProviderErrorObj "OpenAI embeddings response missing embedding vector"
                                   TEMPORARY None None)
      else
        match embeddingsOf rest with
        | Returned vectors => Returned (getProp entry "embedding" :: vectors)
        | Threw error => Threw error
        | Unsettled => Unsettled
        end
  end.

(** [normalizeEmbeddingsResponse(body, traceId, providerName, model)]. *)
Definition normalizeEmbeddingsResponse (body : Value) (traceId providerName : string)
  (model : option string) : Outcome Orchestrator.ProviderResponse :=
  if negb (truthy body) || negb (isObjectType body)
  then Threw (ProviderErrorObj "OpenAI embeddings response malformed" TEMPORARY None None)
  else
    let data := match getProp body "data" with Arr items => items | _ => [] end in
    match embeddingsOf data with
    | Returned embeddings =>
        Returned
          {| Orchestrator.payload :=
               Obj [("vectors", Arr embeddings);
                    ("usage",
                     embeddingUsageValue (normalizeEmbeddingUsage (getProp body "usage")));
                    ("providerInfo",
                     Obj [("name", Str providerName); ("model", ofOptString model)])];
             Orchestrator.traceId := traceId;
             Orchestrator.retryAfterMs := None;
             Orchestrator.attempts := None |}
    | Threw error => Threw error
    | Unsettled => Unsettled
    end.

Section WithNet.

Variable Net : Type.

(** The fields of an [OpenAIAdapter]: its provider entry and its
    dependencies.  Its name is [openai]. *)
Variable providerConfig : ProviderConfig.
Variable deps : AdapterDependencies Net.

Definition keyMissing : Thrown :=
  ProviderErrorObj "OpenAI API key not configured" CONFIG None None.

(** The headers of every request. *)
Definition requestHeaders (apiKey : string) : list (string * string) :=
  [("Authorization", ("Bearer " ++ apiKey)%string);
   ("Content-Type", "application/json")].

(** The [catch] clause around a request: a provider error is thrown on,
    anything else is wrapped. *)
Definition rethrow (message : string) (error : Thrown) : Thrown :=
  if isProviderError error then error
  else ProviderErrorObj message TEMPORARY None (causeOf error).

(** [chat(request)]. *)
Definition chat (request : Orchestrator.NormalizedChatRequest) (net : Net)
  : Outcome Orchestrator.ProviderResponse * Net :=
  match getSecret deps "OPENAI_API_KEY" net with
  | (Rejected error, net1) => (Threw error, net1)
  | (Fulfilled secret, net1) =>
      match (if truthyString secret then secret else None) with
      | None => (Threw keyMissing, net1)
      | Some apiKey =>
          let url := joinUrl (baseUrl providerConfig) "chat/completions" in
          match post deps url {| headers := requestHeaders apiKey;
                                 body := buildOpenAIRequestBody request |} net1 with
          | (Rejected error, net2) => (Threw (rethrow "OpenAI request failed" error), net2)
          | (Fulfilled httpResponse, net2) =>
              if notOk (status httpResponse)
              then (Threw (createHttpError "openai" (status httpResponse)
                                           (responseBody httpResponse)), net2)
              else (normalizeOpenAIResponse (responseBody httpResponse) "openai", net2)
          end
      end
  end.

(** A generator that throws before it yields. *)
Definition failed (error : Thrown) : OpenAIAdapter.StreamRun :=
  {| OpenAIAdapter.emitted := []; OpenAIAdapter.failure := Some error |}.

(** [chatStream(request)], run to its end. *)
Definition chatStream (request : Orchestrator.NormalizedChatRequest) (net : Net)
  : OpenAIAdapter.StreamRun * Net :=
  match getSecret deps "OPENAI_API_KEY" net with
  | (Rejected error, net1) => (failed error, net1)
  | (Fulfilled secret, net1) =>
      match (if truthyString secret then secret else None) with
      | None => (failed keyMissing, net1)
      | Some apiKey =>
          match postStream deps with
          | None =>
              (failed (ProviderErrorObj "HTTP client does not support streaming"
                                        CONFIG None None), net1)
          | Some method =>
              let url := joinUrl (baseUrl providerConfig) "chat/completions" in
              let body :=
                Obj (setProp "stream" (Bool true)
                             (ownEntries (buildOpenAIRequestBody request))) in
              match method url {| headers := requestHeaders apiKey; body := body |} net1 with
              | (Rejected error, net2) =>
                  (failed (rethrow "OpenAI streaming request failed" error), net2)
              | (Fulfilled source, net2) =>
                  (OpenAIAdapter.mapChatCompletionsStream source "openai"
                     (Orchestrator.model request), net2)
              end
          end
      end
  end.

(** [embed(request)]. *)
Definition embed (request : Orchestrator.NormalizedEmbedRequest) (net : Net)
  : Outcome Orchestrator.ProviderResponse * Net :=
  match getSecret deps "OPENAI_API_KEY" net with
  | (Rejected error, net1) => (Threw error, net1)
  | (Fulfilled secret, net1) =>
      match (if truthyString secret then secret else None) with
      | None => (Threw keyMissing, net1)
      | Some apiKey =>
          let url := joinUrl (baseUrl providerConfig) "embeddings" in
          match post deps url {| headers := requestHeaders apiKey;
                                 body := embedRequestBody request |} net1 with
          | (Rejected error, net2) =>
              (Threw (rethrow "OpenAI embeddings request failed" error), net2)
          | (Fulfilled httpResponse, net2) =>
              if notOk (status httpResponse)
              then (Threw (createHttpError "openai" (status httpResponse)
                                           (responseBody httpResponse)), net2)
              else (normalizeEmbeddingsResponse (responseBody httpResponse)
                      (Orchestrator.embedRequestId request) "openai"
                      (Orchestrator.embedModel request), net2)
          end
      end
  end.

(** The adapter object, as the orchestrator sees it ([supports] is that of
    [BaseProviderAdapter]: membership in the declared capabilities). *)
Definition adapter : Orchestrator.ProviderAdapter Net :=
  {| Orchestrator.name := "openai";
     Orchestrator.supports := fun capability =>
                                Orchestrator.includes capability (capabilities providerConfig);
     Orchestrator.chat := chat;
     Orchestrator.chatStream := Some chatStream;
     Orchestrator.embed := Some embed |}.

End WithNet.

End WithRuntime.

Arguments chat {RT Net} providerConfig deps request net.
Arguments chatStream {RT Net} providerConfig deps request net.
Arguments embed {RT Net} providerConfig deps request net.
Arguments adapter {RT Net} providerConfig deps.

End OpenAIClass.

(* ================================================================== *)
(** ** transport.ts: how a provider error is answered *)
(* ================================================================== *)

Module Transport.

(** [mapProviderErrorToStatus(error)]: the HTTP status of the gateway's
    answer. *)
Definition mapProviderErrorToStatus (error : Thrown) : Z :=
  match classificationOf error with
  | Some RATE_LIMIT => 429
  | Some AUTH => 502
  | Some PERMANENT => 422
  | Some CONFIG => 500
  | Some TEMPORARY => 503
  | None => 503
  end.

(** [normalizeProviderMessage(error)]: the message the client is shown. *)
Definition normalizeProviderMessage (error : Thrown) : string :=
  match classificationOf error with
  | Some RATE_LIMIT => "Provider rate limited the request."
  | Some AUTH => "Provider authentication failed."
  | Some TEMPORARY => "Provider encountered a temporary error."
  | Some PERMANENT => "Provider rejected the request."
  | Some CONFIG => "Provider configuration error."
  | None => "Provider error."
  end.

End Transport.

(** An upstream that is a wire: the requests sent so far, each answered by a
    fixed rule. *)
Module WireScenario.

Import HttpClient.

Definition Wire : Type := list (string * HttpRequestOptions).

(** Dependencies that hold the given secret and answer every request by
    [respond], recording it. *)
Definition answering (secret : option string)
  (respond : string -> HttpRequestOptions -> HttpResponse) : AdapterDependencies Wire :=
  {| getSecret := fun _ wire => (Fulfilled secret, wire);
     post := fun url options wire => (Fulfilled (respond url options), wire ++ [(url, options)]);
     get := fun url wire =>
              (Fulfilled (respond url {| headers := []; body := Undefined |}),
               wire ++ [(url, {| headers := []; body := Undefined |})]);
     postStream := None |}.

(** The status the gateway answers with when the upstream answered a chat
    request with [status], not a success. *)
Definition gatewayStatus (status : Z) : Z :=
  if (status =? 401) || (status =? 403) then 502
  else if status =? 429 then 429
  else if 500 <=? status then 503
  else if 400 <=? status then 422
  else 503.

(** Whether such an answer makes the orchestrator try again. *)
Definition retriedStatus (status : Z) : bool :=
  (status =? 429) || (500 <=? status) || (status <? 400).

End WireScenario.

(** Notions for stating the properties of the helpers. *)
Module HelpersSpec.

(** A run of [n] slashes. *)
Fixpoint slashes (n : nat) : string :=
  match n with
  | O => EmptyString
  | S n' => String "/" (slashes n')
  end.

(** The text ends with a slash. *)
Fixpoint endsWithSlash (s : string) : bool :=
  match s with
  | EmptyString => false
  | String c EmptyString => Ascii.eqb c "/"
  | String _ rest => endsWithSlash rest
  end.

End HelpersSpec.

(** Concrete wires. *)
Module WireRuns.

Import Orchestrator Scenarios HttpClient OpenAIClass WireScenario.

Definition openaiEntry : ProviderConfig := entry "gpt-4o-mini" ["chat"; "embed"].

(** The routing of the scenarios' requests in [baseConfig]. *)
Definition toOpenai : RoutingSelection :=
  {| providerKey := "openai"; selectedModel := "gpt-4o-mini"; strategy := Fallback |}.

(** An upstream that answers every request with the given status and
    body. *)
Definition fixedAnswer (code : Z) (answer : Value) : AdapterDependencies Wire :=
  answering (Some "sk-test") (fun _ _ => {| status := code; responseBody := answer |}).

(** Dependencies without a key. *)
Definition keyless : AdapterDependencies Wire :=
  answering None (fun _ _ => {| status := 200; responseBody := Undefined |}).

(** A chat completion as the upstream sends it. *)
Definition chatAnswer : Value :=
  Obj [("id", Str "chatcmpl-1");
       ("model", Str "gpt-4o-mini");
       ("choices",
        Arr [Obj [("message", Obj [("role", Str "assistant"); ("content", Str "Hello")])]]);
       ("usage", Obj [("prompt_tokens", Num 12); ("completion_tokens", Num 8)])].

(** Dependencies whose HTTP client streams the given chunks. *)
Definition streamingDeps (chunks : list Value) : AdapterDependencies Wire :=
  {| getSecret := fun _ wire => (Fulfilled (Some "sk-test"), wire);
     post := fun url options wire =>
               (Fulfilled {| status := 200; responseBody := chatAnswer |},
                wire ++ [(url, options)]);
     get := fun url wire =>
              (Fulfilled {| status := 200; responseBody := Undefined |},
               wire ++ [(url, {| headers := []; body := Undefined |})]);
     postStream := Some (fun url options wire =>
                           (Fulfilled chunks, wire ++ [(url, options)])) |}.

Definition quiet : World Wire := {| upstream := []; calls := [] |}.

(** A stream whose second chunk is cut short. *)
Definition brokenStream : list Value :=
  [ sse "{'choices':[{'delta':{'content':'Hi'}}]}";
    sse "{'choices':[{'delta':" ].

(** A stream whose connection fails after its first chunk. *)
Definition droppedStream : StreamSource.Source :=
  {| StreamSource.delivered := [ sse "{'choices':[{'delta':{'content':'Hi'}}]}" ];
     StreamSource.rejection := Some (NativeError PlainError "terminated") |}.

End WireRuns.

(* ================================================================== *)
(** ** orchestrator.ts: model discovery and provider health *)
(* ================================================================== *)

Module Discovery.

Import Orchestrator.

(** [ProviderHealthStatus]. *)
Inductive ProviderHealthStatus : Type := ok | degraded | failed.

(** An element of [capabilityCoverage]. *)
Record Coverage : Type := {
  capability : string;
  coverageStatus : ProviderHealthStatus
}.

(** [ProviderHealth]. *)
Record ProviderHealth : Type := {
  status : ProviderHealthStatus;
  details : option string;
  capabilityCoverage : option (list Coverage)
}.

(** [ModelDescriptor]; its optional [defaults] and [scores] are named
    [modelDefaults] and [modelScores] here. *)
Record ModelDescriptor : Type := {
  id : string;
  ready : bool;
  description : option string;
  modelDefaults : option (list string);
  modelScores : option (list (string * float))
}.

(** [map.set(k, v)] on a [Map] in insertion order. *)
Fixpoint mapSet {A : Type} (k : string) (v : A) (m : list (string * A))
  : list (string * A) :=
  match m with
  | [] => [(k, v)]
  | (k', v') :: rest =>
      if String.eqb k' k then (k', v) :: rest else (k', v') :: mapSet k v rest
  end.

(** One iteration of the loop that fills [defaultsByModel]: the key is
    created with an empty list when it is new, then the capability is
    pushed on the list stored under it. *)
Definition recordDefault (defaultsByModel : list (string * list string))
  (entry : string * string) : list (string * list string) :=
  let '(capability, modelId) := entry in
  let created :=
    match lookup modelId defaultsByModel with
    | None => mapSet modelId [] defaultsByModel
    | Some _ => defaultsByModel
    end in
  mapSet modelId (orDefault (lookup modelId created) [] ++ [capability]) created.

(** [enrichModelMetadata(models, providerConfig)]. *)
Definition enrichModelMetadata (models : list ModelDescriptor)
  (providerConfig : ProviderConfig) : list ModelDescriptor :=
  let defaultsByModel :=
    fold_left recordDefault (orDefault (defaults providerConfig) []) [] in
  map (fun model =>
         {| id := id model;
            ready := ready model;
            description := description model;
            modelDefaults :=
              match lookup (id model) defaultsByModel with
              | Some capabilityDefaults => Some capabilityDefaults
              | None => modelDefaults model
              end;
            modelScores :=
              match scores providerConfig with
              | Some configured => Some configured
              | None => modelScores model
              end |})
      models.

(** [buildCapabilityCoverage(providerConfig, baseStatus)]. *)
Definition buildCapabilityCoverage (providerConfig : ProviderConfig)
  (baseStatus : ProviderHealthStatus) : list Coverage :=
  map (fun declared => {| capability := declared; coverageStatus := baseStatus |})
      (capabilities providerConfig).

(** [resolveProviderKey(request, providers)]; of the request only
    [provider] is read.  (As everywhere, [providers[key]] finds the
    configured entries only.) *)
Definition resolveProviderKey (requestProvider : option string)
  (providers : list (string * ProviderConfig)) : Outcome string :=
  match orElse requestProvider (option_map fst (hd_error providers)) with
  | None => Threw (NativeError PlainError "No providers configured")
  | Some providerKey =>
      if String.eqb providerKey ""
      then Threw (NativeError PlainError "No providers configured")
      else
        match lookup providerKey providers with
        | None => Threw (NativeError PlainError ("Unknown provider: " ++ providerKey))
        | Some _ => Returned providerKey
        end
  end.

Section WithUpstream.

Variable Upstream : Type.

(** A [ProviderAdapter] with its discovery and health methods, both
    optional. *)
Record DiscoveryAdapter : Type := {
  dispatching : ProviderAdapter Upstream;
  listModelsMethod : option (Upstream -> Outcome (list ModelDescriptor) * Upstream);
  checkHealthMethod : option (Upstream -> Outcome ProviderHealth * Upstream)
}.

(** [getRegisteredAdapter(providerKey, adapters)] on such adapters. *)
Definition getRegisteredAdapter (key : string) (adapters : list DiscoveryAdapter)
  : Outcome DiscoveryAdapter :=
  match find (fun entry => String.eqb (name (dispatching entry)) key) adapters with
  | Some adapter => Returned adapter
  | None => Threw (NativeError PlainError ("Adapter not registered for provider: " ++ key))
  end.

(** [listModels(options)] of [createOrchestrator(config, adapters)]: the
    provider key and the enriched models. *)
Definition listModels (config : CallerConfig) (adapters : list DiscoveryAdapter)
  (requestProvider : option string) (u : Upstream)
  : Outcome (string * list ModelDescriptor) * Upstream :=
  match resolveProviderKey requestProvider (providers config) with
  | Returned providerKey =>
      match getRegisteredAdapter providerKey adapters with
      | Returned adapter =>
          match listModelsMethod adapter with
          | None =>
              (Threw (NativeError PlainError
                        ("Adapter " ++ providerKey ++ " does not support model discovery")), u)
          | Some method =>
              match method u with
              | (Returned models, u') =>
                  match lookup providerKey (providers config) with
                  | Some providerConfig =>
                      (Returned (providerKey, enrichModelMetadata models providerConfig), u')
                  | None =>
                      (Threw (NativeError TypeError "Cannot read properties of undefined"), u')
                  end
              | (Threw error, u') => (Threw error, u')
              | (Unsettled, u') => (Unsettled, u')
              end
          end
      | Threw error => (Threw error, u)
      | Unsettled => (Unsettled, u)
      end
  | Threw error => (Threw error, u)
  | Unsettled => (Unsettled, u)
  end.

(** [checkProviderHealth(providerKey)]. *)
Definition checkProviderHealth (config : CallerConfig) (adapters : list DiscoveryAdapter)
  (providerKey : string) (u : Upstream) : Outcome ProviderHealth * Upstream :=
  match lookup providerKey (providers config) with
  | None => (Threw (NativeError PlainError ("Unknown provider: " ++ providerKey)), u)
  | Some providerConfig =>
      match getRegisteredAdapter providerKey adapters with
      | Returned adapter =>
          match checkHealthMethod adapter with
          | Some method =>
              match method u with
              | (Returned health, u') =>
                  (Returned
                     match capabilityCoverage health with
                     | Some _ => health
                     | None =>
                         {| status := status health;
                            details := details health;
                            capabilityCoverage :=
                              Some (buildCapabilityCoverage providerConfig (status health)) |}
                     end, u')
              | (Threw error, u') => (Threw error, u')
              | (Unsettled, u') => (Unsettled, u')
              end
          | None =>
              (Returned {| status := ok;
                           details := Some "Health probe not implemented";
                           capabilityCoverage :=
                             Some (buildCapabilityCoverage providerConfig ok) |}, u)
          end
      | Threw error => (Threw error, u)
      | Unsettled => (Unsettled, u)
      end
  end.

End WithUpstream.

Arguments dispatching {Upstream} _.
Arguments listModelsMethod {Upstream} _.
Arguments checkHealthMethod {Upstream} _.
Arguments getRegisteredAdapter {Upstream} key adapters.
Arguments listModels {Upstream} config adapters requestProvider u.
Arguments checkProviderHealth {Upstream} config adapters providerKey u.

End Discovery.

(* ================================================================== *)
(** ** adapters/lmstudioAdapter.ts *)
(* ================================================================== *)

Module LMStudio.

Import Helpers HttpClient.

Section WithRuntime.

Context {RT : Runtime}.

(** [String(v)] for a thrown value that is no [Error]. *)
Variable String_of : Value -> string.

Variable Net : Type.

(** The fields of an [LMStudioAdapter]: its provider entry, its
    dependencies and its name. *)
Variable providerConfig : ProviderConfig.
Variable deps : AdapterDependencies Net.
Variable adapterName : string.

Definition requestHeaders : list (string * string) :=
  [("Content-Type", "application/json")].

Definition rethrow (message : string) (error : Thrown) : Thrown :=
  if isProviderError error then error
  else ProviderErrorObj message TEMPORARY None (causeOf error).

(** [chat(request)]. *)
Definition chat (request : Orchestrator.NormalizedChatRequest) (net : Net)
  : Outcome Orchestrator.ProviderResponse * Net :=
  let url := joinUrl (baseUrl providerConfig) "chat/completions" in
  match post deps url {| headers := requestHeaders;
                         body := OpenAIClass.buildOpenAIRequestBody request |} net with
  | (Rejected error, net') => (Threw (rethrow "LMStudio request failed" error), net')
  | (Fulfilled httpResponse, net') =>
      if notOk (HttpClient.status httpResponse)
      then (Threw (createHttpError "lmstudio" (HttpClient.status httpResponse)
                                   (responseBody httpResponse)), net')
      else (OpenAIClass.normalizeOpenAIResponse (responseBody httpResponse) adapterName, net')
  end.

(** [chatStream(request)], run to its end. *)
Definition chatStream (request : Orchestrator.NormalizedChatRequest) (net : Net)
  : OpenAIAdapter.StreamRun * Net :=
  match postStream deps with
  | None =>
      (OpenAIClass.failed (ProviderErrorObj "HTTP client does not support streaming"
                                            CONFIG None None), net)
  | Some method =>
      let url := joinUrl (baseUrl providerConfig) "chat/completions" in
      let body :=
        Obj (setProp "stream" (Bool true)
                     (ownEntries (OpenAIClass.buildOpenAIRequestBody request))) in
      match method url {| headers := requestHeaders; body := body |} net with
      | (Rejected error, net') =>
          (OpenAIClass.failed (rethrow "LMStudio streaming request failed" error), net')
      | (Fulfilled source, net') =>
          (OpenAIAdapter.mapChatCompletionsStream source adapterName
             (Orchestrator.model request), net')
      end
  end.

(** [embed(request)]. *)
Definition embed (request : Orchestrator.NormalizedEmbedRequest) (net : Net)
  : Outcome Orchestrator.ProviderResponse * Net :=
  let url := joinUrl (baseUrl providerConfig) "embeddings" in
  match post deps url {| headers := requestHeaders;
                         body := OpenAIClass.embedRequestBody request |} net with
  | (Rejected error, net') =>
      (Threw (rethrow "LMStudio embeddings request failed" error), net')
  | (Fulfilled httpResponse, net') =>
      if notOk (HttpClient.status httpResponse)
      then (Threw (createHttpError "lmstudio" (HttpClient.status httpResponse)
                                   (responseBody httpResponse)), net')
      else (OpenAIClass.normalizeEmbeddingsResponse (responseBody httpResponse)
              (Orchestrator.embedRequestId request) adapterName
              (Orchestrator.embedModel request), net')
  end.

(** [fetchDiscovery()]. *)
Definition fetchDiscovery (net : Net) : Outcome HttpResponse * Net :=
  match get deps (joinUrl (baseUrl providerConfig) "models") net with
  | (Rejected error, net') =>
      (Threw (rethrow "LMStudio discovery request failed" error), net')
  | (Fulfilled response, net') => (Returned response, net')
  end.

(** The body of the loop of [normalizeModelList], for one entry: the
    descriptor pushed, if any. *)
Definition modelOfEntry (entry : Value) : option Discovery.ModelDescriptor :=
  if negb (truthy entry) || negb (isObjectType entry) then None
  else
    match (if truthyString (asString (getProp entry "id"))
           then asString (getProp entry "id") else None) with
    | None => None
    | Some modelId =>
        let description := asString (getProp entry "description") in
        Some {| Discovery.id := modelId;
                Discovery.ready :=
                  match getProp entry "ready" with
                  | Undefined => true
                  | declared => truthy declared
                  end;
                Discovery.description :=
                  if truthyString description then description else None;
                Discovery.modelDefaults := None;
                Discovery.modelScores := None |}
    end.

(** [normalizeModelList(payload)]. *)
Definition normalizeModelList (payload : Value) : list Discovery.ModelDescriptor :=
  if negb (truthy payload) || negb (isObjectType payload) then []
  else
    let data := match getProp payload "data" with Arr items => items | _ => [] end in
    flat_map (fun entry => match modelOfEntry entry with
                           | Some model => [model]
                           | None => []
                           end) data.

(** [listModels()]. *)
Definition listModels (net : Net) : Outcome (list Discovery.ModelDescriptor) * Net :=
  match fetchDiscovery net with
  | (Returned response, net') =>
      if notOk (HttpClient.status response)
      then (Threw (ProviderErrorObj
                     ("LMStudio discovery request failed with status "
                      ++ showInt (HttpClient.status response))
                     (if 500 <=? HttpClient.status response then TEMPORARY else CONFIG)
                     None None), net')
      else (Returned (normalizeModelList (responseBody response)), net')
  | (Threw error, net') => (Threw error, net')
  | (Unsettled, net') => (Unsettled, net')
  end.

(** [error instanceof Error ? error.message : String(error)]. *)
Definition describe (error : Thrown) : string :=
  match error with
  | ProviderErrorObj message _ _ _ => message
  | NativeError _ message => message
  | ThrownValue v => String_of v
  end.

(** [checkHealth()]. *)
Definition checkHealth (net : Net) : Outcome Discovery.ProviderHealth * Net :=
  match listModels net with
  | (Returned models, net') =>
      (Returned
         match models with
         | [] => {| Discovery.status := Discovery.degraded;
                    Discovery.details := Some "LMStudio reported zero models";
                    Discovery.capabilityCoverage := None |}
         | _ => {| Discovery.status := Discovery.ok;
                   Discovery.details := None;
                   Discovery.capabilityCoverage := None |}
         end, net')
  | (Threw error, net') =>
      (Returned
         (if isProviderError error then
            {| Discovery.status :=
                 match classificationOf error with
                 | Some CONFIG => Discovery.failed
                 | _ => Discovery.degraded
                 end;
               Discovery.details := Some (describe error);
               Discovery.capabilityCoverage := None |}
          else
            {| Discovery.status := Discovery.failed;
               Discovery.details := Some (describe error);
               Discovery.capabilityCoverage := None |}), net')
  | (Unsettled, net') => (Unsettled, net')
  end.

(** The adapter object. *)
Definition adapter : Discovery.DiscoveryAdapter Net :=
  {| Discovery.dispatching :=
       {| Orchestrator.name := adapterName;
          Orchestrator.supports :=
            fun declared => Orchestrator.includes declared (capabilities providerConfig);
          Orchestrator.chat := chat;
          Orchestrator.chatStream := Some chatStream;
          Orchestrator.embed := Some embed |};
     Discovery.listModelsMethod := Some listModels;
     Discovery.checkHealthMethod := Some checkHealth |}.

End WithRuntime.

Arguments adapter {RT} String_of {Net} providerConfig deps adapterName.
Arguments listModels {Net} providerConfig deps net.
Arguments checkHealth String_of {Net} providerConfig deps net.

End LMStudio.

(** Notions for stating the properties of discovery and health. *)
Module DiscoverySpec.

Import Discovery.

(** The capabilities whose default model is [modelId], in the order of the
    configuration. *)
Definition capabilitiesDefaultingTo (modelId : string)
  (entries : list (string * string)) : list string :=
  map fst (filter (fun entry => String.eqb (snd entry) modelId) entries).

(** The health status an LM Studio adapter derives from the answer to its
    discovery request. *)
Definition probeStatus (answer : HttpClient.Settled HttpClient.HttpResponse)
  : ProviderHealthStatus :=
  match answer with
  | HttpClient.Fulfilled response =>
      if HttpClient.notOk (HttpClient.status response)
      then (if 500 <=? HttpClient.status response then degraded else failed)
      else
        match LMStudio.normalizeModelList (HttpClient.responseBody response) with
        | [] => degraded
        | _ => ok
        end
  | HttpClient.Rejected error =>
      match classificationOf error with
      | Some CONFIG => failed
      | _ => degraded
      end
  end.

End DiscoverySpec.

(* ================================================================== *)
(** ** transport.ts: the health report *)
(* ================================================================== *)

Module Health.

Import Discovery.

(** [HealthComponent]. *)
Record HealthComponent : Type := {
  name : string;
  status : ProviderHealthStatus;
  timestamp : string;
  details : option string;
  capabilityCoverage : option (list Coverage)
}.

Section WithUpstream.

Variable Upstream : Type.

(** [orchestrator.checkProviderHealth]. *)
Variable checkProviderHealth :
  string -> Upstream -> Outcome ProviderHealth * Upstream.

(** The loop of [buildHealthComponents] over the provider names: the
    components pushed.  A probe that throws gives a failed component. *)
Fixpoint probeProviders (providerNames : list string) (timestamp : string)
  (u : Upstream) : Outcome (list HealthComponent) * Upstream :=
  match providerNames with
  | [] => (Returned [], u)
  | providerName :: rest =>
      match checkProviderHealth providerName u with
      | (Unsettled, u') => (Unsettled, u')
      | (probe, u') =>
          let component :=
            match probe with
            | Returned health =>
                {| name := "provider:" ++ providerName;
                   status := Discovery.status health;
                   timestamp := timestamp;
                   details := if truthyString (Discovery.details health)
                              then Discovery.details health else None;
                   capabilityCoverage := Discovery.capabilityCoverage health |}
            | _ =>
                {| name := "provider:" ++ providerName;
                   status := failed;
                   timestamp := timestamp;
                   details := Some "Health probe failed";
                   capabilityCoverage := None |}
            end in
          match probeProviders rest timestamp u' with
          | (Returned components, u'') => (Returned (component :: components), u'')
          | other => other
          end
      end
  end.

(** [buildHealthComponents(config, orchestrator, logger, timestamp)]. *)
Definition buildHealthComponents (config : CallerConfig) (timestamp : string)
  (u : Upstream) : Outcome (list HealthComponent) * Upstream :=
  match probeProviders (map fst (providers config)) timestamp u with
  | (Returned components, u') =>
      (Returned ({| name := "transport"; status := ok; timestamp := timestamp;
                    details := None; capabilityCoverage := None |}
                 :: {| name := "orchestrator"; status := ok; timestamp := timestamp;
                       details := None; capabilityCoverage := None |}
                 :: components), u')
  | other => other
  end.

End WithUpstream.

Definition isFailed (s : ProviderHealthStatus) : bool :=
  match s with failed => true | _ => false end.

Definition isDegraded (s : ProviderHealthStatus) : bool :=
  match s with degraded => true | _ => false end.

(** [deriveOverallStatus(components)]. *)
Definition deriveOverallStatus (components : list HealthComponent)
  : ProviderHealthStatus :=
  if existsb (fun component => isFailed (status component)) components then failed
  else if existsb (fun component => isDegraded (status component)) components
       then degraded
       else ok.

Arguments probeProviders {Upstream} checkProviderHealth providerNames timestamp u.
Arguments buildHealthComponents {Upstream} checkProviderHealth config timestamp u.

(** *** Notions for stating its properties *)

(** How bad a status is. *)
Definition severity (s : ProviderHealthStatus) : nat :=
  match s with ok => 0 | degraded => 1 | failed => 2 end.

(** The worst of the statuses, [ok] when there is none. *)
Fixpoint worst (statuses : list ProviderHealthStatus) : ProviderHealthStatus :=
  match statuses with
  | [] => ok
  | s :: rest => if (severity (worst rest) <? severity s)%nat then s else worst rest
  end.

(** The outcomes of the probes of the providers, one after the other. *)
Fixpoint probeOutcomes {Upstream : Type}
  (checkProviderHealth : string -> Upstream -> Outcome ProviderHealth * Upstream)
  (providerNames : list string) (u : Upstream) : list (Outcome ProviderHealth) :=
  match providerNames with
  | [] => []
  | providerName :: rest =>
      fst (checkProviderHealth providerName u)
      :: probeOutcomes checkProviderHealth rest (snd (checkProviderHealth providerName u))
  end.

(** The status reported for a probe. *)
Definition reportedStatus (probe : Outcome ProviderHealth) : ProviderHealthStatus :=
  match probe with
  | Returned health => Discovery.status health
  | _ => failed
  end.

End Health.

(* ================================================================== *)
(** ** transport.ts: what is written to a streaming client *)
(* ================================================================== *)

Module Sanitizer.

Import OpenAIAdapter.

Definition MAX_STREAM_DELTA_CHARS : nat := 4000.

(** A character the class [[\x00-\x08\x0B\x0C\x0E-\x1F\x7F]] matches. *)
Definition isControlChar (c : ascii) : bool :=
  let n := nat_of_ascii c in
  (n <=? 8)%nat || (n =? 11)%nat || (n =? 12)%nat
  || ((14 <=? n)%nat && (n <=? 31)%nat) || (n =? 127)%nat.

(** [s.replace(CONTROL_CHARS_REGEX, '')]. *)
Fixpoint stripControlChars (s : string) : string :=
  match s with
  | EmptyString => EmptyString
  | String c rest =>
      if isControlChar c then stripControlChars rest
      else String c (stripControlChars rest)
  end.

(** Whether the replacement callback runs: some character matches. *)
Fixpoint hasControlChar (s : string) : bool :=
  match s with
  | EmptyString => false
  | String c rest => isControlChar c || hasControlChar rest
  end.

(** [s.slice(0, n)]. *)
Fixpoint take (n : nat) (s : string) : string :=
  match n, s with
  | O, _ => EmptyString
  | S n', String c rest => String c (take n' rest)
  | S _, EmptyString => EmptyString
  end.

(** The result of [sanitizeContent]. *)
Record Sanitized : Type := {
  value : string;
  modified : bool
}.

(** [sanitizeContent(value, logger, context)], without its log records. *)
Definition sanitizeContent (content : string) : Sanitized :=
  let stripped := stripControlChars content in
  if (MAX_STREAM_DELTA_CHARS <? String.length stripped)%nat
  then {| value := take MAX_STREAM_DELTA_CHARS stripped; modified := true |}
  else {| value := stripped; modified := hasControlChar content |}.

(** [event.payload?.message?.content]. *)
Definition payloadContent (payload : option Value) : Value :=
  match payload with
  | None => Undefined
  | Some p =>
      if isNullish p then Undefined
      else
        let message := getProp p "message" in
        if isNullish message then Undefined else getProp message "content"
  end.

(** [event.delta?.content ?? event.payload?.message?.content]. *)
Definition eventContent (event : ProviderStreamEvent) : Value :=
  match eventDelta event with
  | Some fragment =>
      match deltaContent fragment with
      | Some text => Str text
      | None => payloadContent (eventPayload event)
      end
  | None => payloadContent (eventPayload event)
  end.

(** [isPlainTextEvent(event)]. *)
Definition isPlainTextEvent (event : ProviderStreamEvent) : bool :=
  match eventContent event with
  | Str content =>
      let sanitized := stripControlChars content in
      if (String.length sanitized =? 0)%nat then false
      else
        let binaryRatio :=
          (ofZ (Z.of_nat (String.length content) - Z.of_nat (String.length sanitized))
           / ofZ (Z.of_nat (String.length content)))%float in
        (binaryRatio <? 0x1.999999999999ap-3)%float    (* the literal 0.2 *)
  | _ => false
  end.

(** The [if (event.payload) { ... }] block of [sanitizeStreamEvent]: the
    copy of the payload, its message content sanitized when it is a
    string. *)
Definition sanitizePayload (p : Value) : Value :=
  if truthy p then
    let message := getProp p "message" in
    match (if isNullish message then Undefined else getProp message "content") with
    | Str content =>
        Obj (setProp "message"
               (Obj (setProp "content" (Str (value (sanitizeContent content)))
                             (ownEntries message)))
               (ownEntries p))
    | _ => Obj (ownEntries p)
    end
  else p.

(** [sanitizeStreamEvent(event, logger, context)], without its log
    records; [None] is [null]. *)
Definition sanitizeStreamEvent (event : ProviderStreamEvent)
  : option ProviderStreamEvent :=
  if negb (isPlainTextEvent event) then None
  else
    Some {| eventType := eventType event;
            eventDelta :=
              match eventDelta event with
              | Some fragment =>
                  Some {| deltaRole := deltaRole fragment;
                          deltaContent :=
                            option_map (fun text => value (sanitizeContent text))
                                       (deltaContent fragment) |}
              | None => None
              end;
            eventPayload := option_map sanitizePayload (eventPayload event);
            eventTraceId := eventTraceId event |}.

End Sanitizer.

(** A local LM Studio provider. *)
Module LocalRuns.

Import Orchestrator Scenarios HttpClient WireScenario.

Definition lmstudioEntry : ProviderConfig :=
  {| baseUrl := "http://localhost:1234/v1/";
     defaultModel := "qwen";
     capabilities := ["chat"; "embed"];
     defaults := Some [("chat", "qwen"); ("embed", "nomic"); ("chatStream", "qwen")];
     scores := None;
     notes := None |}.

Definition localConfig : CallerConfig :=
  {| providers := [("lmstudio", lmstudioEntry)]; retry := None |}.

(** The model list LM Studio answers with: one entry has no id. *)
Definition modelList : Value :=
  Obj [("data",
        Arr [Obj [("id", Str "qwen")];
             Obj [("id", Str "nomic"); ("ready", Bool false)];
             Obj [("object", Str "model")];
             Obj [("id", Str "llama"); ("description", Str "general")]])].

Definition localDeps (code : Z) (answer : Value) : AdapterDependencies Wire :=
  answering None (fun _ _ => {| status := code; responseBody := answer |}).

Definition localAdapter `{Runtime} (code : Z) (answer : Value)
  : Discovery.DiscoveryAdapter Wire :=
  LMStudio.adapter (fun _ => "thrown value") lmstudioEntry (localDeps code answer)
                   "lmstudio".

End LocalRuns.

(* ================================================================== *)
(** ** adapters/anthropicAdapter.ts *)
(* ================================================================== *)

Module Anthropic.

Import Helpers HttpClient.

(** [buildAnthropicRequestBody(request)]. *)
Definition buildAnthropicRequestBody (request : Orchestrator.NormalizedChatRequest)
  : Value :=
  Obj ([("model", ofOptString (Orchestrator.model request));
        ("messages",
         Arr (map OpenAIClass.messageValue (Orchestrator.messages request)))]
       ++ match Orchestrator.temperature request with
          | Some t => [("temperature", Num t)]
          | None => []
          end
       ++ match Orchestrator.maxTokens request with
          | Some n => [("max_tokens", Num n)]
          | None => []
          end).

(** [clampNonNegative(value)] of this file. *)
Definition clampNonNegative (value : float) : float :=
  if negb (isFinite value) || (value <=? 0)%float then 0%float else Math_round value.

Section WithParseFloat.

(** [Number.parseFloat(s)]. *)
Variable Number_parseFloat : string -> float.

(** [toNumber(value)] of this file. *)
Definition toNumber (value : Value) : option float :=
  match value with
  | Num x => if isFinite x then Some x else None
  | Str s =>
      let parsed := Number_parseFloat s in
      if isFinite parsed then Some parsed else None
  | _ => None
  end.

(** [normalizeAnthropicUsage(raw)]. *)
Definition normalizeAnthropicUsage (raw : Value) : OpenAIAdapter.ChatUsage :=
  let base := if truthy raw && isObjectType raw then raw else Obj [] in
  let input := orDefault (toNumber (getProp base "input_tokens")) 0%float in
  let output := orDefault (toNumber (getProp base "output_tokens")) 0%float in
  let total := toNumber (getProp base "total_tokens") in
  {| OpenAIAdapter.inputTokens := clampNonNegative input;
     OpenAIAdapter.outputTokens := clampNonNegative output;
     OpenAIAdapter.totalTokens := option_map clampNonNegative total |}.

(** [content.find((entry) => entry?.type === 'text')]. *)
Definition isTextBlock (entry : Value) : bool :=
  if isNullish entry then false
  else match getProp entry "type" with
       | Str kind => String.eqb kind "text"
       | _ => false
       end.

(** [normalizeAnthropicResponse(responseBody, providerName)]. *)
Definition normalizeAnthropicResponse (responseBody : Value) (providerName : string)
  : Outcome Orchestrator.ProviderResponse :=
  if negb (truthy responseBody) || negb (isObjectType responseBody)
  then Threw (ProviderErrorObj "Anthropic response missing payload" TEMPORARY None None)
  else
    let content :=
      match getProp responseBody "content" with Arr items => items | _ => [] end in
    let text :=
      match find isTextBlock content with
      | Some firstTextBlock => getProp firstTextBlock "text"
      | None => Undefined
      end in
    match text with
    | Str completion =>
        Returned
          {| Orchestrator.payload :=
               Obj [("message",
                     Obj [("role", Str "assistant"); ("content", Str completion)]);
                    ("usage",
                     OpenAIAdapter.usageValue
                       (normalizeAnthropicUsage (getProp responseBody "usage")));
                    ("providerInfo",
                     Obj [("name", Str providerName);
                          ("model", getProp responseBody "model")])];
             Orchestrator.traceId := orDefault (asString (getProp responseBody "id")) "";
             Orchestrator.retryAfterMs := None;
             Orchestrator.attempts := None |}
    | _ => Threw (ProviderErrorObj "Anthropic response missing completion text"
                                   TEMPORARY None None)
    end.

Variable Net : Type.
Variable providerConfig : ProviderConfig.
Variable deps : AdapterDependencies Net.

(** [chat(request)]. *)
Definition chat (request : Orchestrator.NormalizedChatRequest) (net : Net)
  : Outcome Orchestrator.ProviderResponse * Net :=
  match getSecret deps "ANTHROPIC_API_KEY" net with
  | (Rejected error, net1) => (Threw error, net1)
  | (Fulfilled secret, net1) =>
      match (if truthyString secret then secret else None) with
      | None =>
          (Threw (ProviderErrorObj "Anthropic API key not configured" CONFIG None None),
           net1)
      | Some apiKey =>
          let url := joinUrl (baseUrl providerConfig) "messages" in
          let headers := [("x-api-key", apiKey);
                          ("anthropic-version", "2023-06-01");
                          ("Content-Type", "application/json")] in
          match post deps url {| headers := headers;
                                 body := buildAnthropicRequestBody request |} net1 with
          | (Rejected error, net2) =>
              (Threw (if isProviderError error then error
                      else ProviderErrorObj "Anthropic request failed" TEMPORARY None
                                            (causeOf error)), net2)
          | (Fulfilled httpResponse, net2) =>
              if notOk (status httpResponse)
              then (Threw (createHttpError "anthropic" (status httpResponse)
                                           (responseBody httpResponse)), net2)
              else (normalizeAnthropicResponse (responseBody httpResponse) "anthropic",
                    net2)
          end
      end
  end.

(** The adapter object: it has neither streaming nor embeddings. *)
Definition adapter : Orchestrator.ProviderAdapter Net :=
  {| Orchestrator.name := "anthropic";
     Orchestrator.supports :=
       fun declared => Orchestrator.includes declared (capabilities providerConfig);
     Orchestrator.chat := chat;
     Orchestrator.chatStream := None;
     Orchestrator.embed := None |}.

End WithParseFloat.

End Anthropic.

(* ================================================================== *)
(** ** adapters/index.ts: the adapters of a configuration *)
(* ================================================================== *)

Module Factory.

Import HttpClient.

(** [c.toLowerCase()] on a code unit below 256. *)
Definition lowerChar (c : ascii) : ascii :=
  let n := nat_of_ascii c in
  if ((65 <=? n)%nat && (n <=? 90)%nat)
     || ((192 <=? n)%nat && (n <=? 222)%nat && negb (n =? 215)%nat)
  then ascii_of_nat (n + 32)
  else c.

(** [s.toLowerCase()]. *)
Fixpoint toLowerCase (s : string) : string :=
  match s with
  | EmptyString => EmptyString
  | String c rest => String (lowerChar c) (toLowerCase rest)
  end.

Section WithDependencies.

Context {RT : Runtime}.
Variable Number_parseFloat : string -> float.
Variable String_of : Value -> string.
Variable Net : Type.
Variable deps : AdapterDependencies Net.

(** [new UnsupportedProviderAdapter(providerKey, providerConfig)]. *)
Definition unsupportedAdapter (providerKey : string) (providerConfig : ProviderConfig)
  : Orchestrator.ProviderAdapter Net :=
  {| Orchestrator.name := providerKey;
     Orchestrator.supports :=
       fun declared => Orchestrator.includes declared (capabilities providerConfig);
     Orchestrator.chat :=
       fun _ net =>
         (Threw (ProviderErrorObj ("Provider " ++ providerKey ++ " adapter not registered")
                                  CONFIG None None), net);
     Orchestrator.chatStream := None;
     Orchestrator.embed := None |}.

(** An adapter without discovery and health methods. *)
Definition plain (adapter : Orchestrator.ProviderAdapter Net)
  : Discovery.DiscoveryAdapter Net :=
  {| Discovery.dispatching := adapter;
     Discovery.listModelsMethod := None;
     Discovery.checkHealthMethod := None |}.

(** [createAdapter(providerKey, providerConfig, deps)]. *)
Definition createAdapter (providerKey : string) (providerConfig : ProviderConfig)
  : Discovery.DiscoveryAdapter Net :=
  if String.eqb providerKey "openai"
  then plain (OpenAIClass.adapter providerConfig deps)
  else if String.eqb providerKey "anthropic"
  then plain (Anthropic.adapter Number_parseFloat Net providerConfig deps)
  else if String.eqb providerKey "lmstudio"
  then LMStudio.adapter String_of providerConfig deps providerKey
  else if startsWith "lmstudio" (toLowerCase providerKey)
  then LMStudio.adapter String_of providerConfig deps providerKey
  else plain (unsupportedAdapter providerKey providerConfig).

(** [createProviderAdapters(config, deps)]. *)
Definition createProviderAdapters (config : CallerConfig)
  : list (Discovery.DiscoveryAdapter Net) :=
  map (fun entry => createAdapter (fst entry) (snd entry)) (providers config).

(** The same adapters as [createOrchestrator] uses them for dispatching. *)
Definition dispatchingAdapters (config : CallerConfig)
  : list (Orchestrator.ProviderAdapter Net) :=
  map Discovery.dispatching (createProviderAdapters config).

End WithDependencies.

End Factory.

(** A configuration with a provider no adapter exists for. *)
Module FactoryRuns.

Import Orchestrator Scenarios HttpClient WireScenario Factory.

Definition mixedConfig : CallerConfig :=
  {| providers := [("openai", entry "gpt-4o-mini" ["chat"; "embed"]);
                   ("mistral", entry "mistral-small" ["chat"])];
     retry := Some {| maxAttempts := Some 5%float |} |}.

Definition toMistral : NormalizedChatRequest :=
  {| requestId := "req-1"; callerTool := "tool";
     messages := [{| role := "user"; content := "hi" |}];
     provider := Some "mistral"; model := None; temperature := None; maxTokens := None |}.

(** The adapters the factory makes for it, over a wire that answers 200. *)
Definition mixedAdapters `{Runtime} : list (ProviderAdapter Wire) :=
  dispatchingAdapters (fun _ => nan) (fun _ => "thrown value") Wire
    (answering (Some "sk-test") (fun _ _ => {| status := 200; responseBody := Undefined |}))
    mixedConfig.

End FactoryRuns.

(* ================================================================== *)
(** * Properties *)
(* ================================================================== *)

(** ** Numbers *)

(** [x < y] implies [x <= y] on binary64 values. *)
Lemma float_ltb_leb :
  forall x y : float, (x <? y)%float = true -> (x <=? y)%float = true.
Proof.
  intros x y. rewrite ltb_spec, leb_spec. unfold SFltb, SFleb.
  destruct (SFcompare (Prim2SF x) (Prim2SF y)) as [ [ | | ] | ];
    intro H; try discriminate; reflexivity.
Qed.

(** An infinite value is not finite. *)
Lemma infinity_not_finite :
  forall (x : float) (s : bool), Prim2SF x = S754_infinity s -> isFinite x = false.
Proof.
  intros x s E. unfold isFinite, is_finite, is_infinity.
  rewrite eqb_spec, abs_spec, E. cbn. rewrite orb_true_r. reflexivity.
Qed.

(** A mantissa of [d] binary digits is at least [2^(d-1)]. *)
Lemma digits2_pos_lower :
  forall m : positive, 2 ^ (Z.pos (digits2_pos m) - 1) <= Z.pos m.
Proof.
  induction m as [ p IH | p IH | ]; cbn [digits2_pos].
  - rewrite Pos2Z.inj_succ.
    replace (Z.succ (Z.pos (digits2_pos p)) - 1) with (Z.succ (Z.pos (digits2_pos p) - 1)) by lia.
    rewrite Z.pow_succ_r by lia. lia.
  - rewrite Pos2Z.inj_succ.
    replace (Z.succ (Z.pos (digits2_pos p)) - 1) with (Z.succ (Z.pos (digits2_pos p) - 1)) by lia.
    rewrite Z.pow_succ_r by lia. lia.
  - cbn. lia.
Qed.

(** [Math.floor] of a finite number that is at least 1 is at least 1. *)
Lemma Math_floor_at_least_one :
  forall x : float,
    isFinite x = true -> (1 <=? x)%float = true -> 1 <= Math_floor x.
Proof.
  intros x Hfin Hle. rewrite leb_spec in Hle.
  pose proof (Prim2SF_valid x) as Hvalid.
  unfold Math_floor. destruct (Prim2SF x) as [ s | s | | s m e ] eqn:E.
  - vm_compute in Hle. destruct s; discriminate.
  - rewrite (infinity_not_finite x s E) in Hfin. discriminate.
  - vm_compute in Hle. discriminate.
  - change (Prim2SF 1) with (S754_finite false 4503599627370496 (-52)) in Hle.
    unfold SFleb, SFcompare in Hle.
    destruct s; [ discriminate | ].
    cbn [signedMantissa].
    destruct (-52 ?= e) eqn:C; [ | | discriminate ].
    + (* same exponent as 1: the mantissa is at least 2^52 *)
      apply Z.compare_eq_iff in C. subst e. cbn [Z.leb Z.opp].
      assert (Hm : 2 ^ 52 <= Z.pos m).
      { change (Pos.compare_cont Eq 4503599627370496 m)
          with (Pos.compare 4503599627370496 m) in Hle.
        change (2 ^ 52) with (Z.pos 4503599627370496).
        destruct (Pos.compare_spec 4503599627370496 m); try discriminate; lia. }
      rewrite Z.shiftr_div_pow2 by lia.
      apply Z.div_le_lower_bound; lia.
    + (* a larger exponent *)
      assert (Hlow : -52 < e) by (apply Z.compare_lt_iff; exact C).
      destruct (Z.leb_spec 0 e) as [Hnonneg | Hneg].
      * assert (0 < 2 ^ e) by (apply Z.pow_pos_nonneg; lia). nia.
      * cbn [valid_binary] in Hvalid. unfold bounded, canonical_mantissa, fexp in Hvalid.
        apply andb_prop in Hvalid as [Hcanon _].
        apply Z.eqb_eq in Hcanon.
        unfold SpecFloat.emin, prec, emax in Hcanon.
        change IntDef.Z.max with Z.max in Hcanon.
        change IntDef.Z.sub with Z.sub in Hcanon.
        change IntDef.Z.add with Z.add in Hcanon.
        assert (Hd : Z.pos (digits2_pos m) = 53) by lia.
        pose proof (digits2_pos_lower m) as Hm. rewrite Hd in Hm.
        rewrite Z.shiftr_div_pow2 by lia.
        apply Z.div_le_lower_bound; [ apply Z.pow_pos_nonneg; lia | ].
        rewrite Z.mul_1_r.
        apply Z.le_trans with (2 ^ 52); [ | exact Hm ].
        apply Z.pow_le_mono_r; lia.
Qed.

(** A mantissa of [d] binary digits is below [2^d]. *)
Lemma digits2_pos_upper :
  forall m : positive, Z.pos m < 2 ^ Z.pos (digits2_pos m).
Proof.
  induction m as [ p IH | p IH | ]; cbn [digits2_pos].
  - rewrite Pos2Z.inj_succ, Z.pow_succ_r by lia. lia.
  - rewrite Pos2Z.inj_succ, Z.pow_succ_r by lia. lia.
  - cbn. lia.
Qed.

(** Appending [k] zero bits to a mantissa. *)
Lemma iter_xO_value :
  forall k m, Z.pos (Pos.iter xO m k) = Z.pos m * 2 ^ Z.pos k.
Proof.
  intros k m. induction k as [ | k IH ] using Pos.peano_ind.
  - cbn. lia.
  - rewrite Pos.iter_succ, Pos2Z.inj_succ, Z.pow_succ_r by lia.
    rewrite Pos2Z.inj_xO, IH. lia.
Qed.

(** ... and its number of digits. *)
Lemma iter_xO_digits :
  forall k m, Z.pos (digits2_pos (Pos.iter xO m k)) = Z.pos (digits2_pos m) + Z.pos k.
Proof.
  intros k m. induction k as [ | k IH ] using Pos.peano_ind.
  - cbn [Pos.iter digits2_pos]. change PosDef.Pos.succ with Pos.succ. lia.
  - rewrite Pos.iter_succ. cbn [digits2_pos]. change PosDef.Pos.succ with Pos.succ.
    rewrite Pos2Z.inj_succ, IH. lia.
Qed.

(** A mantissa of exactly 53 digits with an exponent in range is its own
    rounding. *)
Lemma binary_round_aux_exact :
  forall m e,
    Z.pos (digits2_pos m) = 53 -> -1074 <= e <= 971 ->
    binary_round_aux prec emax false (Z.pos m) e loc_Exact = S754_finite false m e.
Proof.
  intros m e Hd He.
  unfold binary_round_aux, shr_fexp, fexp, SpecFloat.emin, prec, emax.
  cbn [Zdigits2 shr_record_of_loc].
  change IntDef.Z.max with Z.max. 
  replace (Z.max (Z.pos (digits2_pos m) + e - 53) (3 - 1024 - 53) - e) with 0 by lia.
  cbn [shr shr_m loc_of_shr_record round_nearest_even Zdigits2 shr_record_of_loc].
  replace (Z.max (Z.pos (digits2_pos m) + e - 53) (3 - 1024 - 53) - e) with 0 by lia.
  cbn [shr shr_m].
  destruct (Z.leb_spec e (1024 - 53)); [ reflexivity | lia ].
Qed.

(** An integer below [2^53] is a binary64 value: its decomposition. *)
Lemma binary_normalize_integer :
  forall p,
    Z.pos p < 2 ^ 53 ->
    exists m e,
      binary_normalize prec emax (Z.pos p) 0 false = S754_finite false m e
      /\ Z.pos (digits2_pos m) = 53
      /\ -52 <= e <= 0
      /\ Z.pos m = Z.pos p * 2 ^ (- e).
Proof.
  intros p Hp.
  pose proof (digits2_pos_lower p) as Hlow.
  assert (Hd : Z.pos (digits2_pos p) <= 53).
  { destruct (Z.le_gt_cases (Z.pos (digits2_pos p)) 53) as [ H | H ]; [ exact H | ].
    exfalso. assert (2 ^ 53 <= 2 ^ (Z.pos (digits2_pos p) - 1))
      by (apply Z.pow_le_mono_r; lia). lia. }
  assert (Hfexp : fexp prec emax (Z.pos (digits2_pos p) + 0) = Z.pos (digits2_pos p) - 53).
  { unfold fexp, SpecFloat.emin, prec, emax. change IntDef.Z.max with Z.max. lia. }
  cbn [binary_normalize]. unfold binary_round, shl_align. rewrite Hfexp, Z.sub_0_r.
  destruct (Z.pos (digits2_pos p) - 53) as [ | k | k ] eqn:Hk; [ | lia | ].
  - exists p, 0. rewrite (binary_round_aux_exact p 0) by lia.
    repeat split; lia.
  - exists (Pos.iter xO p k), (Z.neg k).
    change (PosDef.Pos.iter xO p k) with (Pos.iter xO p k).
    assert (Hdigits : Z.pos (digits2_pos (Pos.iter xO p k)) = 53)
      by (rewrite iter_xO_digits; lia).
    rewrite (binary_round_aux_exact _ _ Hdigits) by lia.
    split; [ reflexivity | split; [ exact Hdigits | split; [ lia | ] ] ].
    rewrite iter_xO_value. reflexivity.
Qed.

(** A value with a finite decomposition is finite. *)
Lemma finite_isFinite :
  forall (x : float) s m e, Prim2SF x = S754_finite s m e -> isFinite x = true.
Proof.
  intros x s m e E. unfold isFinite, is_finite, is_nan, is_infinity.
  rewrite !eqb_spec, abs_spec, E. unfold SFeqb, SFabs, SFcompare.
  change (Prim2SF infinity) with (S754_infinity false).
  rewrite Z.compare_refl.
  change (PosDef.Pos.compare_cont Eq m m) with (Pos.compare m m).
  rewrite Pos.compare_refl. destruct s; reflexivity.
Qed.

(** An integer from 1 to [2^53] is exactly a binary64 value: finite, at
    least 1, and its own integer part. *)
Lemma ofZ_integer :
  forall n,
    1 <= n <= 2 ^ 53 ->
    isFinite (ofZ n) = true
    /\ (1 <=? ofZ n)%float = true
    /\ Math_floor (ofZ n) = n.
Proof.
  intros n Hn.
  destruct (Z.eq_dec n (2 ^ 53)) as [ -> | Hne ]; [ vm_compute; repeat split | ].
  destruct n as [ | p | p ]; [ lia | | lia ].
  destruct (binary_normalize_integer p) as (m & e & Hnorm & Hd & He & Hm); [ lia | ].
  assert (Hvalid : valid_binary (S754_finite false m e) = true).
  { cbn [SpecFloat.valid_binary]. unfold bounded, canonical_mantissa, fexp, SpecFloat.emin, prec, emax.
    change IntDef.Z.max with Z.max. rewrite Hd.
    apply andb_true_intro. split; [ apply Z.eqb_eq | apply Z.leb_le ]; lia. }
  assert (Hprim : Prim2SF (ofZ (Z.pos p)) = S754_finite false m e).
  { unfold ofZ. rewrite Hnorm. apply Prim2SF_SF2Prim. exact Hvalid. }
  split; [ apply (finite_isFinite _ _ _ _ Hprim) | split ].
  - rewrite leb_spec, Hprim.
    change (Prim2SF 1) with (S754_finite false 4503599627370496 (-52)).
    unfold SFleb, SFcompare.
    destruct (Z.compare_spec (-52) e) as [ Heq | Hlt | Hgt ]; [ | reflexivity | lia ].
    subst e. change (PosDef.Pos.compare_cont Eq 4503599627370496 m)
      with (Pos.compare 4503599627370496 m).
    assert (Hge : 2 ^ 52 <= Z.pos m).
    { rewrite Hm. change (- -52) with 52. lia. }
    change (2 ^ 52) with (Z.pos 4503599627370496) in Hge.
    destruct (Pos.compare_spec 4503599627370496 m) as [ _ | _ | Hlt ];
      [ reflexivity | reflexivity | exfalso ].
    apply Pos2Z.pos_lt_pos in Hlt.
    apply (Z.lt_irrefl (Z.pos m)). apply Z.lt_le_trans with (1 := Hlt). exact Hge.
  - unfold Math_floor. rewrite Hprim. cbn [signedMantissa].
    destruct (Z.leb_spec 0 e) as [ Hnonneg | Hneg ].
    + assert (e = 0) by lia. subst e. cbn in Hm. lia.
    + rewrite Z.shiftr_div_pow2 by lia. rewrite Hm.
      apply Z.div_mul. apply Z.pow_nonzero; lia.
Qed.

(** [Math.round] and [Math.floor] at a few points: ties go up. *)
Example Math_round_samples :
  map Math_round [2.5; 3.5; 0.25; 20; -2.5; 1.75]%float = [3; 4; 0; 20; -2; 2]%float.
Proof. reflexivity. Qed.

Example Math_floor_samples :
  map Math_floor [2; 2.5; 3.75; 1; 1024.5]%float = [2; 2; 3; 1; 1024].
Proof. reflexivity. Qed.

(** The reference [JSON.parse] and [Number] on small inputs. *)
Example parse_samples :
  RefRuntime.parse (Scenarios.dq "{'a':[1,2.5,true,null,'x'],'b':{'c':-3}}")
  = Some (Obj [("a", Arr [Num 1; Num 2.5; Bool true; Null; Str "x"]);
               ("b", Obj [("c", Num (-3))])])
  /\ RefRuntime.parse "[DONE]" = None
  /\ RefRuntime.parse "{" = None
  /\ RefRuntime.parse "null" = Some Null.
Proof. vm_compute. repeat split. Qed.

Example number_samples :
  map RefRuntime.number [" 12 "; "-7.25"; ""; "1e3"]
  = [12; -7.25; 0; 1000]%float
  /\ isNaN (RefRuntime.number "twelve") = true.
Proof. vm_compute. split; reflexivity. Qed.

(** An SSE block and its data payload. *)
Example extractDataPayload_samples :
  OpenAIAdapter.extractDataPayload (Scenarios.sse "[DONE]") = Some "[DONE]"
  /\ OpenAIAdapter.extractDataPayload (Str ": keep-alive") = None
  /\ OpenAIAdapter.extractDataPayload (Num 1) = None.
Proof. vm_compute. repeat split. Qed.

(** ** Status classification *)

(** C5.  For every integer status [n], [mapStatusToClassification] answers
    AUTH exactly for 401 and 403, RATE_LIMIT exactly for 429, TEMPORARY for
    every [n >= 500], PERMANENT for every other [n] in [400, 500), and
    TEMPORARY for every status below 400. *)
Theorem mapStatusToClassification_table :
  forall n : Z,
    (mapStatusToClassification n = AUTH <-> n = 401 \/ n = 403)
    /\ (mapStatusToClassification n = RATE_LIMIT <-> n = 429)
    /\ (500 <= n -> mapStatusToClassification n = TEMPORARY)
    /\ (400 <= n < 500 -> n <> 401 -> n <> 403 -> n <> 429 ->
        mapStatusToClassification n = PERMANENT)
    /\ (n < 400 -> mapStatusToClassification n = TEMPORARY).
Proof.
  intro n. unfold mapStatusToClassification.
  destruct (Z.eqb_spec n 401) as [E1 | E1];
    destruct (Z.eqb_spec n 403) as [E3 | E3];
    destruct (Z.eqb_spec n 429) as [E9 | E9];
    destruct (Z.leb_spec 500 n) as [L5 | L5];
    destruct (Z.leb_spec 400 n) as [L4 | L4];
    cbn [orb];
    repeat split; intros; try discriminate; try lia; try reflexivity;
    try (left; assumption); try (right; assumption);
    match goal with
    | H : _ \/ _ |- _ => destruct H; lia
    | _ => idtac
    end.
Qed.

(** The classification at the statuses an upstream commonly answers. *)
Example mapStatusToClassification_samples :
  map mapStatusToClassification [200; 302; 400; 401; 403; 404; 429; 499; 500; 503; -1]
  = [TEMPORARY; TEMPORARY; PERMANENT; AUTH; AUTH; PERMANENT; RATE_LIMIT;
     PERMANENT; TEMPORARY; TEMPORARY; TEMPORARY].
Proof. reflexivity. Qed.

(** ** Routing selection *)

Section Routing.

Import Orchestrator.

(** C2 (as amended).  Two providers declare chat; A, declared first, has no
    chat default and a chat score of 95; B has the chat default [x] and a
    chat score of 10.  A request without a provider override selects A, with
    A's bare default model and strategy fallback: A scores 95, B scores
    10 + 50 = 60. *)
Theorem higher_score_beats_default_bonus :
  forall keyA keyB A B requestProvider requestModel,
    truthyString requestProvider = false ->
    includes "chat" (capabilities A) = true ->
    includes "chat" (capabilities B) = true ->
    optLookup "chat" (defaults A) = None ->
    optLookup "chat" (scores A) = Some 95%float ->
    optLookup "chat" (defaults B) = Some "x" ->
    optLookup "chat" (scores B) = Some 10%float ->
    resolveRoutingSelection "chat" requestProvider requestModel [(keyA, A); (keyB, B)]
    = Returned {| providerKey := keyA;
                  selectedModel := defaultModel A;
                  strategy := Fallback |}.
Proof.
  intros keyA keyB A B requestProvider requestModel
         Hnone HcapA HcapB HdefA HscoreA HdefB HscoreB.
  unfold resolveRoutingSelection. rewrite Hnone.
  cbn [forEachEntry]. unfold considerEntry.
  rewrite HcapA, HcapB, HdefA, HscoreA, HdefB, HscoreB.
  cbn [negb truthyString orDefault bestScore bestIndex].
  change (truthyString (Some "x")) with true. cbv iota.
  change ((95 + 0 <? 10 + 50)%float) with false.
  change ((10 + 50 =? 95 + 0)%float) with false.
  reflexivity.
Qed.

End Routing.

(** ** Usage normalization *)

Section Usage.

Import OpenAIAdapter.

Context {RT : Runtime}.

(** [toNumber] yields finite numbers only. *)
Lemma toNumber_finite :
  forall value x, toNumber value = Some x -> isFinite x = true.
Proof.
  intros value x. unfold toNumber.
  destruct value as [ | | b | y | s | items | fields ]; try discriminate.
  - destruct (isFinite y) eqn:E; [ | discriminate ].
    intro H. injection H as <-. exact E.
  - destruct (0 <? String.length (trim s))%nat; [ | discriminate ].
    destruct (negb (isNaN (Number_ofString s)) && isFinite (Number_ofString s)) eqn:E;
      [ | discriminate ].
    intro H. injection H as <-. apply andb_prop in E as [_ E]. exact E.
Qed.

(** A count that is not positive is clamped to zero. *)
Lemma clampNonNegative_nonpositive :
  forall x, (x <=? 0)%float = true -> clampNonNegative x = 0%float.
Proof.
  intros x H. unfold clampNonNegative. rewrite H.
  destruct (isFinite x); reflexivity.
Qed.

(** A finite positive integral number is left as it is. *)
Lemma clampNonNegative_integral :
  forall x,
    isFinite x = true -> (x <=? 0)%float = false -> Math_round x = x ->
    clampNonNegative x = x.
Proof.
  intros x Hfin Hpos Hint. unfold clampNonNegative.
  rewrite Hfin, Hpos. exact Hint.
Qed.

(** C8 (as amended).  The input (output) count is the first of
    [prompt_tokens], [input_tokens] ([completion_tokens], [output_tokens])
    that is numeric; it is reported as 0 when it is negative, and when
    neither field is numeric.  A numeric total supplied by upstream decides
    [totalTokens] whatever input + output is: it is clamped at 0 and rounded,
    hence reported as it is when it is a positive integer.  Without a
    numeric total, and with both counts numeric, [totalTokens] is their sum,
    clamped and rounded. *)
Theorem usage_normalization :
  forall raw : Value,
    let base := usageBase raw in
    let usage := normalizeChatUsage raw in
    ((rawInput base <? 0)%float = true -> inputTokens usage = 0%float)
    /\ ((rawOutput base <? 0)%float = true -> outputTokens usage = 0%float)
    /\ (toNumber (getProp base "prompt_tokens") = None ->
        toNumber (getProp base "input_tokens") = None ->
        inputTokens usage = 0%float)
    /\ (toNumber (getProp base "completion_tokens") = None ->
        toNumber (getProp base "output_tokens") = None ->
        outputTokens usage = 0%float)
    /\ (forall total,
           toNumber (getProp base "total_tokens") = Some total ->
           totalTokens usage = Some (clampNonNegative total)
           /\ ((total <? 0)%float = true -> totalTokens usage = Some 0%float)
           /\ ((total <=? 0)%float = false -> Math_round total = total ->
               totalTokens usage = Some total))
    /\ (forall input output,
           toNumber (getProp base "total_tokens") = None ->
           orElse (toNumber (getProp base "prompt_tokens"))
                  (toNumber (getProp base "input_tokens")) = Some input ->
           orElse (toNumber (getProp base "completion_tokens"))
                  (toNumber (getProp base "output_tokens")) = Some output ->
           totalTokens usage = Some (clampNonNegative (input + output)%float)).
Proof.
  intros raw base usage. subst usage. unfold normalizeChatUsage. fold base.
  cbn [inputTokens outputTokens totalTokens].
  repeat split.
  - intro H. apply clampNonNegative_nonpositive, float_ltb_leb, H.
  - intro H. apply clampNonNegative_nonpositive, float_ltb_leb, H.
  - intros H1 H2. unfold rawInput. rewrite H1, H2. reflexivity.
  - intros H1 H2. unfold rawOutput. rewrite H1, H2. reflexivity.
  - rewrite H. reflexivity.
  - intro Hneg. rewrite H. cbn [orElse option_map].
    rewrite clampNonNegative_nonpositive by (apply float_ltb_leb, Hneg). reflexivity.
  - intros Hpos Hint. rewrite H. cbn [orElse option_map].
    rewrite clampNonNegative_integral; try assumption; [ reflexivity | ].
    apply (toNumber_finite _ _ H).
  - intros input output Htotal Hin Hout. rewrite Htotal.
    unfold rawInput, rawOutput. rewrite Hin, Hout. cbn [orElse orDefault].
    assert (Hfi : isFinite input = true).
    { destruct (toNumber (getProp base "prompt_tokens")) eqn:E; cbn [orElse] in Hin.
      - injection Hin as <-. apply (toNumber_finite _ _ E).
      - apply (toNumber_finite _ _ Hin). }
    assert (Hfo : isFinite output = true).
    { destruct (toNumber (getProp base "completion_tokens")) eqn:E; cbn [orElse] in Hout.
      - injection Hout as <-. apply (toNumber_finite _ _ E).
      - apply (toNumber_finite _ _ Hout). }
    rewrite Hfi, Hfo. reflexivity.
Qed.

(** Whatever the counts, a total is always reported: with no numeric total
    from upstream it is derived from the counts, a missing count being 0. *)
Remark totalTokens_always_reported :
  forall raw, totalTokens (normalizeChatUsage raw) <> None.
Proof.
  intro raw. unfold normalizeChatUsage. cbn [totalTokens].
  destruct (toNumber (getProp (usageBase raw) "total_tokens")) as [ total | ];
    cbn [orElse option_map]; [ discriminate | ].
  assert (Hfin : forall a b : option float,
             (forall x, a = Some x -> isFinite x = true) ->
             (forall x, b = Some x -> isFinite x = true) ->
             isFinite (orDefault (orElse a b) 0%float) = true).
  { intros [ x | ] [ y | ] Ha Hb; cbn; auto. }
  unfold rawInput, rawOutput.
  rewrite !Hfin by (intros x Hx; apply (toNumber_finite _ _ Hx)).
  discriminate.
Qed.

End Usage.

(** ** The stream normalizer *)

Section StreamNormalizer.

Import OpenAIAdapter.

Context {RT : Runtime}.

Variable providerName : string.
Variable model : option string.

(** A delta block yields at most one event, a delta, and whether it does
    depends on the choice alone. *)
Lemma applyDelta_types :
  forall st choice,
    map eventType (snd (applyDelta st choice))
    = if hasFragment choice then [delta] else [].
Proof.
  intros st choice. unfold applyDelta, hasFragment.
  destruct (truthy (getProp choice "delta")); cbn [andb snd]; [ | reflexivity ].
  destruct (truthyString (asString (getProp (getProp choice "delta") "role"))
            || truthyString (asString (getProp (getProp choice "delta") "content")));
    reflexivity.
Qed.

(** A finish block yields a completion event exactly on 'stop'. *)
Lemma applyFinish_types :
  forall st choice,
    map eventType (applyFinish providerName model st choice)
    = if isStop choice then [completion] else [].
Proof.
  intros st choice. unfold applyFinish, isStop.
  destruct (getProp choice "finish_reason"); try reflexivity.
  destruct (String.eqb s "stop"); reflexivity.
Qed.

(** The inner loop goes through the choices before the first [null] one,
    and fails exactly when there is one. *)
Lemma forEachChoice_types :
  forall choices st,
    map eventType (snd (fst (forEachChoice providerName model choices st)))
    = flat_map choiceEventTypes (fst (untilNull choices))
    /\ (snd (forEachChoice providerName model choices st) = None
        <-> snd (untilNull choices) = false).
Proof.
  induction choices as [ | choice rest IH ]; intro st.
  - cbn. split; [ reflexivity | split; reflexivity ].
  - cbn [forEachChoice untilNull].
    destruct (isNullish choice).
    + cbn. split; [ reflexivity | split; discriminate ].
    + pose proof (applyDelta_types st choice) as Hd.
      destruct (applyDelta st choice) as [st1 deltas]. cbn [snd] in Hd.
      specialize (IH st1).
      destruct (forEachChoice providerName model rest st1) as [[st2 later] err].
      destruct (untilNull rest) as [before stopped].
      cbn [fst snd flat_map] in *.
      destruct IH as [IHt IHe]. split; [ | exact IHe ].
      rewrite !map_app, Hd, applyFinish_types, IHt.
      unfold choiceEventTypes. rewrite <- app_assoc. reflexivity.
Qed.

(** The event types of a whole run are those of the consumed choices, in
    order. *)
Lemma consume_types :
  forall source st,
    map eventType (emitted (consume providerName model source st))
    = flat_map choiceEventTypes (consumedChoices source).
Proof.
  induction source as [ | chunk rest IH ]; intro st; [ reflexivity | ].
  cbn [consume consumedChoices].
  destruct (extractDataPayload chunk) as [data | ]; [ | apply IH ].
  destruct (String.eqb data ""); [ apply IH | ].
  destruct (String.eqb data "[DONE]"); [ reflexivity | ].
  destruct (JSON_parse data) as [parsed | ]; [ | reflexivity ].
  destruct (isNullish parsed); [ reflexivity | ].
  pose proof (forEachChoice_types (choicesOf parsed) (observeChunk st parsed)) as [Ht He].
  destruct (forEachChoice providerName model (choicesOf parsed) (observeChunk st parsed))
    as [[st2 events] err].
  destruct (untilNull (choicesOf parsed)) as [before stopped].
  cbn [fst snd] in *.
  destruct err as [e | ].
  - destruct stopped; [ exact Ht | ].
    destruct He as [_ He]. specialize (He eq_refl). discriminate.
  - destruct stopped.
    + destruct He as [He _]. specialize (He eq_refl). discriminate.
    + cbn [emitted]. rewrite map_app, flat_map_app, Ht, IH. reflexivity.
Qed.

(** The choices gone through before a [null] one are choices of the list. *)
Lemma untilNull_incl :
  forall choices choice, In choice (fst (untilNull choices)) -> In choice choices.
Proof.
  induction choices as [ | first rest IH ]; intros choice Hin; [ exact Hin | ].
  cbn [untilNull] in Hin. destruct (isNullish first); [ contradiction | ].
  destruct (untilNull rest) as [before stopped]. cbn [fst In] in *.
  destruct Hin as [ <- | Hin ]; [ left; reflexivity | right; apply IH, Hin ].
Qed.

(** Every consumed choice is a choice of the payload of some chunk of the
    source. *)
Lemma consumedChoices_from_source :
  forall source choice,
    In choice (consumedChoices source) ->
    exists chunk data parsed,
      In chunk source
      /\ extractDataPayload chunk = Some data
      /\ JSON_parse data = Some parsed
      /\ In choice (choicesOf parsed).
Proof.
  induction source as [ | chunk rest IH ]; intros choice Hin; [ contradiction | ].
  assert (Hrest : In choice (consumedChoices rest) ->
                  exists chunk' data parsed,
                    In chunk' (chunk :: rest)
                    /\ extractDataPayload chunk' = Some data
                    /\ JSON_parse data = Some parsed
                    /\ In choice (choicesOf parsed)).
  { intro H. destruct (IH choice H) as (c & d & p & Hc & Hd & Hp & Hch).
    exists c, d, p. repeat split; try assumption. right. exact Hc. }
  cbn [consumedChoices] in Hin.
  destruct (extractDataPayload chunk) as [ data | ] eqn:Hdata; [ | auto ].
  destruct (String.eqb data ""); [ auto | ].
  destruct (String.eqb data "[DONE]"); [ contradiction | ].
  destruct (JSON_parse data) as [ parsed | ] eqn:Hparsed; [ | contradiction ].
  destruct (isNullish parsed); [ contradiction | ].
  pose proof (untilNull_incl (choicesOf parsed) choice) as Hincl.
  destruct (untilNull (choicesOf parsed)) as [before stopped]. cbn [fst] in Hincl.
  assert (Hhere : In choice before ->
                  exists chunk' data' parsed',
                    In chunk' (chunk :: rest)
                    /\ extractDataPayload chunk' = Some data'
                    /\ JSON_parse data' = Some parsed'
                    /\ In choice (choicesOf parsed')).
  { intro H. exists chunk, data, parsed. repeat split; auto. left. reflexivity. }
  destruct stopped; [ auto | ].
  apply in_app_or in Hin as [ H | H ]; auto.
Qed.

(** Completion events are counted on the event types. *)
Lemma completions_by_type :
  forall events,
    filter isCompletionType (map eventType events)
    = map eventType (filter isCompletion events).
Proof.
  induction events as [ | event rest IH ]; [ reflexivity | ].
  cbn [map filter]. unfold isCompletion at 1.
  destruct (isCompletionType (eventType event)); cbn [map]; rewrite IH; reflexivity.
Qed.

(** Each 'stop' choice accounts for one completion type, other choices for
    none. *)
Lemma completion_types_of_choices :
  forall choices,
    List.length (filter isCompletionType (flat_map choiceEventTypes choices))
    = List.length (filter isStop choices).
Proof.
  induction choices as [ | choice rest IH ]; [ reflexivity | ].
  cbn [flat_map filter]. rewrite filter_app, length_app, IH.
  unfold choiceEventTypes.
  destruct (hasFragment choice), (isStop choice); reflexivity.
Qed.

(** The number of completion events of a run. *)
Lemma completions_counted :
  forall source st,
    List.length (filter isCompletion (emitted (consume providerName model source st)))
    = List.length (filter isStop (consumedChoices source)).
Proof.
  intros source st.
  rewrite <- completion_types_of_choices, <- (consume_types source st).
  rewrite completions_by_type, length_map. reflexivity.
Qed.

(** Choices without 'stop' give delta types only. *)
Lemma no_stop_no_completion_type :
  forall choices,
    forallb (fun c => negb (isStop c)) choices = true ->
    forallb (fun t => negb (isCompletionType t)) (flat_map choiceEventTypes choices) = true.
Proof.
  induction choices as [ | choice rest IH ]; intro H; [ reflexivity | ].
  cbn [forallb] in H. apply andb_prop in H as [Hc Hr].
  cbn [flat_map]. rewrite forallb_app, (IH Hr), andb_true_r.
  unfold choiceEventTypes. apply negb_true_iff in Hc. rewrite Hc.
  destruct (hasFragment choice); reflexivity.
Qed.

(** A list of events none of which is a completion, followed by one event,
    has its completion events last. *)
Lemma completionIsLast_snoc :
  forall deltas final,
    forallb (fun e => negb (isCompletion e)) deltas = true ->
    completionIsLast (deltas ++ [final]) = true.
Proof.
  induction deltas as [ | d rest IH ]; intros final H.
  - cbn. destruct (isCompletion final); reflexivity.
  - cbn [forallb] in H. apply andb_prop in H as [Hd Hr].
    cbn [app completionIsLast]. apply negb_true_iff in Hd. rewrite Hd.
    cbn [andb]. apply IH. exact Hr.
Qed.

(** [forallb] on the types of events. *)
Lemma forallb_types :
  forall events,
    forallb (fun t => negb (isCompletionType t)) (map eventType events)
    = forallb (fun e => negb (isCompletion e)) events.
Proof.
  induction events as [ | e rest IH ]; [ reflexivity | ].
  cbn [map forallb]. rewrite IH. reflexivity.
Qed.

(** C7 (as amended).  A run emits exactly one completion event for every
    consumed choice whose [finish_reason] is 'stop' - it does not stop at the
    first one; and when the only such choice is the last choice consumed,
    exactly one completion event is emitted and it is the last event. *)
Theorem completion_per_stop_choice :
  forall source,
    let run := mapChatCompletionsStream source providerName model in
    List.length (filter isCompletion (emitted run))
    = List.length (filter isStop (consumedChoices source))
    /\ (forall before last,
           consumedChoices source = before ++ [last] ->
           forallb (fun c => negb (isStop c)) before = true ->
           isStop last = true ->
           exists deltas final,
             emitted run = deltas ++ [final]
             /\ isCompletion final = true
             /\ forallb (fun e => negb (isCompletion e)) deltas = true
             /\ completionIsLast (emitted run) = true).
Proof.
  intros source run. split.
  - apply completions_counted.
  - intros before last Hsplit Hbefore Hlast.
    pose proof (consume_types source initialStreamState) as Ht.
    fold (mapChatCompletionsStream source providerName model) in Ht. fold run in Ht.
    rewrite Hsplit, flat_map_app in Ht. cbn [flat_map] in Ht.
    rewrite app_nil_r in Ht. unfold choiceEventTypes at 2 in Ht.
    rewrite Hlast in Ht.
    rewrite app_assoc in Ht.
    apply map_eq_app in Ht as (deltas & tail & Hrun & Hdeltas & Htail).
    destruct tail as [ | final [ | extra more ] ]; try discriminate.
    cbn [map] in Htail. injection Htail as Hfinal.
    assert (Hnone : forallb (fun e => negb (isCompletion e)) deltas = true).
    { rewrite <- forallb_types, Hdeltas, forallb_app.
      rewrite (no_stop_no_completion_type before Hbefore).
      destruct (hasFragment last); reflexivity. }
    exists deltas, final. repeat split.
    + exact Hrun.
    + unfold isCompletion. rewrite Hfinal. reflexivity.
    + exact Hnone.
    + rewrite Hrun. apply completionIsLast_snoc. exact Hnone.
Qed.

(** C10.  A completion event is emitted only upon a choice whose
    [finish_reason] is the string 'stop': a stream none of whose chunks
    carries such a choice - whatever other marker they carry, and whatever
    deltas were accumulated - runs to its end without a completion event. *)
Theorem completion_only_on_stop :
  forall source,
    (forall chunk data parsed choice,
        In chunk source ->
        extractDataPayload chunk = Some data ->
        JSON_parse data = Some parsed ->
        In choice (choicesOf parsed) ->
        isStop choice = false) ->
    filter isCompletion (emitted (mapChatCompletionsStream source providerName model)) = [].
Proof.
  intros source Hnone.
  apply length_zero_iff_nil.
  unfold mapChatCompletionsStream. rewrite completions_counted.
  apply length_zero_iff_nil.
  assert (Hconsumed : forall choice, In choice (consumedChoices source) ->
                                     isStop choice = false).
  { intros choice Hin.
    destruct (consumedChoices_from_source source choice Hin)
      as (chunk & data & parsed & Hc & Hd & Hp & Hch).
    exact (Hnone chunk data parsed choice Hc Hd Hp Hch). }
  induction (consumedChoices source) as [ | choice rest IH ]; [ reflexivity | ].
  cbn [filter]. rewrite (Hconsumed choice (or_introl eq_refl)).
  apply IH. intros c Hc. apply Hconsumed. right. exact Hc.
Qed.

End StreamNormalizer.

(** ** The orchestrator *)

Section OrchestratorFacts.

Import Orchestrator.

Variable Upstream : Type.

(** The configured maximum is at least one attempt, whatever the
    configuration says. *)
Lemma resolveMaxAttempts_at_least_one :
  forall config, 1 <= resolveMaxAttempts config.
Proof.
  intro config. unfold resolveMaxAttempts.
  destruct (retry config) as [ r | ]; [ | lia ].
  destruct (maxAttempts r) as [ configured | ]; [ | lia ].
  destruct (isFinite configured && (1 <=? configured)%float) eqn:E; [ | lia ].
  apply andb_prop in E as [Hfin Hle].
  apply Math_floor_at_least_one; assumption.
Qed.

(** A configured [retry.maxAttempts] that is an integer from 1 to [2^53]
    is the maximum. *)
Lemma resolveMaxAttempts_configured :
  forall config r N,
    retry config = Some r ->
    maxAttempts r = Some (ofZ N) ->
    1 <= N <= 2 ^ 53 ->
    resolveMaxAttempts config = N.
Proof.
  intros config r N Hretry Hmax HN. unfold resolveMaxAttempts. rewrite Hretry, Hmax.
  destruct (ofZ_integer N HN) as (Hfin & Hle & Hfloor).
  rewrite Hfin, Hle. exact Hfloor.
Qed.

(** Without a configured maximum there are two attempts. *)
Lemma resolveMaxAttempts_default :
  forall config,
    (forall r, retry config = Some r -> maxAttempts r = None) ->
    resolveMaxAttempts config = 2.
Proof.
  intros config Hnone. unfold resolveMaxAttempts.
  destruct (retry config) as [ r | ]; [ | reflexivity ].
  rewrite (Hnone r eq_refl). reflexivity.
Qed.

(** [selectAdapter] lets a dispatch pass only with an adapter registered
    under the key, advertising the capability, and a provider entry that
    declares it. *)
Lemma selectAdapter_returned :
  forall key providerConfig (adapters : list (ProviderAdapter Upstream)) capability adapter,
    selectAdapter key providerConfig adapters capability = Returned adapter ->
    getRegisteredAdapter key adapters = Returned adapter
    /\ supports adapter capability = true
    /\ exists entry, providerConfig = Some entry
                     /\ includes capability (capabilities entry) = true.
Proof.
  intros key providerConfig adapters capability adapter. unfold selectAdapter.
  destruct (getRegisteredAdapter key adapters) as [ found | | ]; try discriminate.
  destruct (supports found capability) eqn:Hs; cbn [negb]; try discriminate.
  unfold validateCapability.
  destruct providerConfig as [ entry | ]; try discriminate.
  destruct (includes capability (capabilities entry)) eqn:Hi; cbn [negb]; try discriminate.
  intro H. injection H as ->. repeat split; try assumption.
  exists entry. split; [ reflexivity | assumption ].
Qed.

(** When the adapter does not advertise the capability, or the provider
    entry does not declare it, [selectAdapter] throws a plain [Error]. *)
Lemma selectAdapter_mismatch :
  forall key providerConfig (adapters : list (ProviderAdapter Upstream)) capability adapter,
    getRegisteredAdapter key adapters = Returned adapter ->
    (supports adapter capability = false
     \/ exists entry, providerConfig = Some entry
                      /\ includes capability (capabilities entry) = false) ->
    exists message,
      selectAdapter key providerConfig adapters capability
      = Threw (NativeError PlainError message).
Proof.
  intros key providerConfig adapters capability adapter Hreg Hmis.
  unfold selectAdapter. rewrite Hreg.
  destruct (supports adapter capability) eqn:Hs; cbn [negb].
  - destruct Hmis as [ Hno | (entry & -> & Hno) ]; [ discriminate | ].
    cbn [validateCapability]. rewrite Hno. cbn [negb]. eexists. reflexivity.
  - eexists. reflexivity.
Qed.

Section RetryLoop.

Variable T : Type.
Variable operation : M Upstream T.
Variable key : string.
Variable maxAttempts : Z.

(** The operation is one adapter call that always throws a retryable
    provider error. *)
Variable call : AdapterCall.
Hypothesis always_retryable :
  forall w : World Upstream,
    exists error u,
      operation w = (Threw error, {| upstream := u; calls := calls w ++ [call] |})
      /\ isProviderError error = true
      /\ retryableError error = true.

(** From attempt number [attempt] on, the loop calls the operation once per
    remaining attempt and then raises the exhaustion error, whose cause is
    the error of the last call. *)
Lemma retryLoop_exhausts :
  forall budget attempt last (w : World Upstream),
    0 <= attempt < maxAttempts ->
    (Z.to_nat (maxAttempts - attempt) <= budget)%nat ->
    exists error before u,
      retryLoop budget operation key maxAttempts attempt last w
      = (Threw (exhausted key maxAttempts (Some error)),
         {| upstream := u;
            calls := calls w ++ repeat call (Z.to_nat (maxAttempts - attempt)) |})
      /\ fst (operation before) = Threw error
      /\ upstream (snd (operation before)) = u
      /\ isProviderError error = true
      /\ retryableError error = true.
Proof.
  induction budget as [ | budget IH ]; intros attempt last w Hrange Hbudget.
  - lia.
  - cbn [retryLoop].
    assert (Hlt : (attempt <? maxAttempts) = true) by (apply Z.ltb_lt; lia).
    rewrite Hlt.
    destruct (always_retryable w) as (error & u & Hop & Hprov & Hretry).
    rewrite Hop, Hprov, Hretry.
    destruct (Z.ltb_spec (attempt + 1) maxAttempts) as [Hmore | Hlast].
    + destruct (IH (attempt + 1) (Some error)
                   {| upstream := u; calls := calls w ++ [call] |})
        as (error' & before & u' & Hloop & Hfrom & Hstate & Hprov' & Hretry');
        [ lia | lia | ].
      exists error', before, u'. rewrite Hloop. cbn [calls].
      repeat split; try assumption.
      replace (Z.to_nat (maxAttempts - attempt))
        with (S (Z.to_nat (maxAttempts - (attempt + 1)))) by lia.
      cbn [repeat]. rewrite <- app_assoc. reflexivity.
    + exists error, w, u. rewrite Hop. cbn [fst snd upstream].
      replace (Z.to_nat (maxAttempts - attempt)) with 1%nat by lia.
      repeat split; try assumption.
Qed.

End RetryLoop.

(** A failure that is not a retryable provider error ends the loop at
    once: thrown as it is, after that one call. *)
Lemma retryLoop_not_retried :
  forall (T : Type) (operation : M Upstream T) key maxAttempts budget last
         (w w' : World Upstream) error,
    0 < maxAttempts ->
    operation w = (Threw error, w') ->
    isProviderError error && retryableError error = false ->
    retryLoop (S budget) operation key maxAttempts 0 last w = (Threw error, w').
Proof.
  intros T operation key maxAttempts budget last w w' error Hpos Hop Hno.
  cbn [retryLoop].
  assert (Hlt : (0 <? maxAttempts) = true) by (apply Z.ltb_lt; lia).
  rewrite Hlt, Hop.
  destruct (isProviderError error); [ | reflexivity ].
  cbn [andb] in Hno. rewrite Hno. reflexivity.
Qed.

(** The loop settles whenever the operation does: the budget
    [executeWithRetry] gives it is never used up. *)
Lemma retryLoop_settles :
  forall (T : Type) (operation : M Upstream T) key maxAttempts,
    (forall w, fst (operation w) <> Unsettled) ->
    forall budget attempt last (w : World Upstream),
      (Z.to_nat (maxAttempts - attempt) <= budget)%nat ->
      fst (retryLoop budget operation key maxAttempts attempt last w) <> Unsettled.
Proof.
  intros T operation key maxAttempts Hop.
  induction budget as [ | budget IH ]; intros attempt last w Hbudget.
  - cbn [retryLoop].
    destruct (Z.ltb_spec attempt maxAttempts); [ lia | discriminate ].
  - cbn [retryLoop].
    destruct (Z.ltb_spec attempt maxAttempts); [ | discriminate ].
    specialize (Hop w).
    destruct (operation w) as [ [ result | error | ] w' ]; cbn [fst] in *;
      [ discriminate | | contradiction ].
    destruct (isProviderError error); [ | discriminate ].
    destruct (retryableError error); [ | discriminate ].
    destruct (Z.ltb_spec (attempt + 1) maxAttempts); [ | discriminate ].
    apply IH. lia.
Qed.

Lemma executeWithRetry_settles :
  forall (T : Type) (operation : M Upstream T) key maxAttempts (w : World Upstream),
    (forall w', fst (operation w') <> Unsettled) ->
    fst (executeWithRetry operation key maxAttempts w) <> Unsettled.
Proof.
  intros T operation key maxAttempts w Hop. unfold executeWithRetry.
  apply retryLoop_settles; [ exact Hop | ]. rewrite Z.sub_0_r. lia.
Qed.

(** C3.  With [retry.maxAttempts] configured as the integer [N], from 1 to
    [2^53] (up to which the attempt counter of the source, a double, is
    exact), and an adapter whose chat always throws a TEMPORARY provider
    error, [dispatchChat] calls chat exactly [N] times and then raises a
    provider error that carries the classification of the last failure (its
    cause) and a message naming the provider key and [N]. *)
Theorem dispatchChat_retry_exhaustion :
  forall config (adapters : list (ProviderAdapter Upstream)) request routing adapter
         (w : World Upstream) r N,
    retry config = Some r ->
    maxAttempts r = Some (ofZ N) ->
    1 <= N <= 2 ^ 53 ->
    resolveRoutingSelection "chat" (provider request) (model request) (providers config)
    = Returned routing ->
    selectAdapter (providerKey routing) (lookup (providerKey routing) (providers config))
                  adapters "chat" = Returned adapter ->
    (forall req u, exists message hint cause u',
        chat adapter req u = (Threw (ProviderErrorObj message TEMPORARY hint cause), u')) ->
    exists last normalizedRequest before after,
      dispatchChat config adapters request w
      = (Threw (ProviderErrorObj
                  ("Provider " ++ providerKey routing ++ " failed after "
                   ++ showInt N ++ " attempts")
                  TEMPORARY None (Some last)),
         {| upstream := after;
            calls := calls w
                     ++ repeat (ChatCall (name adapter) normalizedRequest) (Z.to_nat N) |})
      /\ chat adapter normalizedRequest before = (Threw last, after)
      /\ classificationOf last = Some TEMPORARY.
Proof.
  intros config adapters request routing adapter w r N Hretry Hmax Hrange
         Hroute Hselect Hfails.
  pose proof (resolveMaxAttempts_configured config r N Hretry Hmax Hrange) as HN.
  destruct (selectAdapter_returned _ _ _ _ _ Hselect) as (_ & _ & entry & Hentry & _).
  assert (Hpos : 1 <= N) by lia.
  set (normalizedRequest :=
         normalizeChatRequest request (providerKey routing) entry
                              (Some (selectedModel routing))).
  assert (Hretryable :
            forall w0 : World Upstream,
              exists error u,
                invokeChat adapter normalizedRequest w0
                = (Threw error,
                   {| upstream := u;
                      calls := calls w0 ++ [ChatCall (name adapter) normalizedRequest] |})
                /\ isProviderError error = true
                /\ retryableError error = true).
  { intro w0. destruct (Hfails normalizedRequest (upstream w0))
      as (message & hint & cause & u' & Hcall).
    exists (ProviderErrorObj message TEMPORARY hint cause), u'.
    unfold invokeChat. rewrite Hcall. repeat split. }
  destruct (retryLoop_exhausts _ (invokeChat adapter normalizedRequest)
              (providerKey routing) N _ Hretryable (Z.to_nat N) 0 None w)
    as (last & before & after & Hloop & Hfrom & Hstate & _ & _).
  - lia.
  - rewrite Z.sub_0_r. lia.
  - rewrite Z.sub_0_r in Hloop.
    unfold invokeChat in Hfrom, Hstate.
    destruct (Hfails normalizedRequest (upstream before))
      as (message & hint & cause & u' & Hcall).
    rewrite Hcall in Hfrom, Hstate. cbn [fst snd upstream] in Hfrom, Hstate.
    injection Hfrom as <-. subst u'.
    exists (ProviderErrorObj message TEMPORARY hint cause), normalizedRequest,
           (upstream before), after.
    split; [ | split; [ exact Hcall | reflexivity ] ].
    unfold dispatchChat, bind, lift. rewrite Hroute, Hselect, Hentry.
    cbn [configured ret]. unfold executeWithRetry. rewrite HN.
    fold normalizedRequest. rewrite Hloop. reflexivity.
Qed.

(** C4.  A chat failure that is a PERMANENT, AUTH or CONFIG provider error,
    or that is no provider error at all, is not retried: [dispatchChat]
    calls the adapter once and throws that same error, whatever maximum is
    configured. *)
Theorem dispatchChat_no_retry :
  forall config (adapters : list (ProviderAdapter Upstream)) request routing adapter
         entry (w : World Upstream) error after,
    resolveRoutingSelection "chat" (provider request) (model request) (providers config)
    = Returned routing ->
    selectAdapter (providerKey routing) (lookup (providerKey routing) (providers config))
                  adapters "chat" = Returned adapter ->
    lookup (providerKey routing) (providers config) = Some entry ->
    chat adapter
         (normalizeChatRequest request (providerKey routing) entry
                               (Some (selectedModel routing)))
         (upstream w) = (Threw error, after) ->
    (isProviderError error = false
     \/ classificationOf error = Some PERMANENT
     \/ classificationOf error = Some AUTH
     \/ classificationOf error = Some CONFIG) ->
    dispatchChat config adapters request w
    = (Threw error,
       {| upstream := after;
          calls := calls w
                   ++ [ChatCall (name adapter)
                         (normalizeChatRequest request (providerKey routing) entry
                                               (Some (selectedModel routing)))] |}).
Proof.
  intros config adapters request routing adapter entry w error after
         Hroute Hselect Hentry Hcall Hclass.
  pose proof (resolveMaxAttempts_at_least_one config) as Hpos.
  unfold dispatchChat, bind, lift. rewrite Hroute, Hselect, Hentry.
  cbn [configured ret]. unfold executeWithRetry.
  destruct (Z.to_nat (resolveMaxAttempts config)) as [ | budget ] eqn:Hbudget; [ lia | ].
  rewrite retryLoop_not_retried
    with (error := error)
         (w' := {| upstream := after;
                   calls := calls w
                            ++ [ChatCall (name adapter)
                                  (normalizeChatRequest request (providerKey routing) entry
                                     (Some (selectedModel routing)))] |}).
  - reflexivity.
  - lia.
  - unfold invokeChat. rewrite Hcall. reflexivity.
  - unfold retryableError.
    destruct Hclass as [ Hno | [ Hc | [ Hc | Hc ] ] ];
      [ rewrite Hno; reflexivity | rewrite Hc .. ]; apply andb_false_r.
Qed.

(** C1 (as amended).  [dispatchEmbed] is not wrapped in the retry loop: it
    calls the adapter's embed exactly once; an error thrown by that call,
    retryable or not, is thrown on as it is, whatever maximum is
    configured; and a response is returned with [attempts = 1]. *)
Theorem dispatchEmbed_single_attempt :
  forall config (adapters : list (ProviderAdapter Upstream)) request routing adapter
         method entry (w : World Upstream),
    resolveRoutingSelection "embed" (embedProvider request) (embedModel request)
                            (providers config) = Returned routing ->
    selectAdapter (providerKey routing) (lookup (providerKey routing) (providers config))
                  adapters "embed" = Returned adapter ->
    embed adapter = Some method ->
    lookup (providerKey routing) (providers config) = Some entry ->
    let normalizedRequest :=
      normalizeEmbedRequest request (providerKey routing) entry
                            (Some (selectedModel routing)) in
    let after := snd (method normalizedRequest (upstream w)) in
    snd (dispatchEmbed config adapters request w)
    = {| upstream := after;
         calls := calls w ++ [EmbedCall (name adapter) normalizedRequest] |}
    /\ (forall error,
           fst (method normalizedRequest (upstream w)) = Threw error ->
           fst (dispatchEmbed config adapters request w) = Threw error)
    /\ (forall response,
           fst (method normalizedRequest (upstream w)) = Returned response ->
           exists result,
             fst (dispatchEmbed config adapters request w) = Returned result
             /\ attempts result = Some 1
             /\ traceId result = traceId response).
Proof.
  intros config adapters request routing adapter method entry w
         Hroute Hselect Hmethod Hentry normalizedRequest after.
  unfold dispatchEmbed, bind, lift. rewrite Hroute, Hselect, Hmethod, Hentry.
  cbn [configured ret]. unfold invokeEmbed. fold normalizedRequest.
  subst after.
  destruct (method normalizedRequest (upstream w)) as [ [ response | error | ] u ];
    cbn [fst snd]; repeat split; intros; try discriminate.
  - eexists. split; [ reflexivity | ]. cbn [attempts traceId].
    match goal with H : Returned _ = Returned _ |- _ => injection H as <- end.
    split; reflexivity.
  - assumption.
Qed.

(** C9 (as amended).  When the adapter registered under the chosen key does
    not advertise the capability the orchestrator checks, or the provider
    entry does not declare it, the dispatch fails at once with a plain
    [Error] - not a provider error, so without a classification - and the
    world is as before: no adapter method was called, nothing was retried.
    The capability checked is chat for chat and streaming dispatches, embed
    for embed dispatches. *)
Theorem capability_mismatch_fails_locally :
  forall config (adapters : list (ProviderAdapter Upstream)) d routing adapter
         (w : World Upstream),
    dispatchRouting config d = Returned routing ->
    getRegisteredAdapter (providerKey routing) adapters = Returned adapter ->
    (supports adapter (checkedCapability d) = false
     \/ exists entry,
          lookup (providerKey routing) (providers config) = Some entry
          /\ includes (checkedCapability d) (capabilities entry) = false) ->
    exists message,
      dispatch config adapters d w = (Threw (NativeError PlainError message), w)
      /\ classificationOf (NativeError PlainError message) = None.
Proof.
  intros config adapters d routing adapter w Hroute Hreg Hmis.
  destruct (selectAdapter_mismatch _ _ _ _ _ Hreg Hmis) as (message & Hselect).
  exists message. split; [ | reflexivity ].
  destruct d as [ request | request | request ];
    cbn [dispatch dispatchRouting routedCapability checkedCapability] in *;
    unfold dispatchChat, dispatchChatStream, dispatchEmbed, bind, lift;
    rewrite Hroute, Hselect; reflexivity.
Qed.

End OrchestratorFacts.

(** ** The scenarios, run *)

Section Runs.

Import OpenAIAdapter Orchestrator Scenarios.

#[local] Existing Instance RefRuntime.runtime.

(** C6.  On the chunks that carry the choices
    [{delta:{role:'assistant',content:'Hel'}}], [{delta:{content:'lo'}}] and
    [{finish_reason:'stop'}], followed by the sentinel, the normalizer emits
    two delta events with contents Hel and lo, then one completion event
    whose message has content Hello and role assistant, and nothing else: the
    sentinel gives no event, and ends the stream whatever follows it. *)
Theorem hello_stream_reconstruction :
  forall (providerName : string) (model : option string) (rest : list Value),
    mapChatCompletionsStream (helloStream ++ rest) providerName model
    = {| emitted :=
           [ deltaEvent (Some "assistant") (Some "Hel");
             deltaEvent None (Some "lo");
             {| eventType := completion;
                eventDelta := None;
                eventPayload :=
                  Some (Obj [("message",
                              Obj [("role", Str "assistant");
                                   ("content", Str "Hello")]);
                             ("usage",
                              Obj [("inputTokens", Num 0);
                                   ("outputTokens", Num 0);
                                   ("totalTokens", Num 0)]);
                             ("providerInfo",
                              Obj [("name", Str providerName);
                                   ("model", ofOptString model)])]);
                eventTraceId := None |} ];
         failure := None |}.
Proof.
  intros providerName model rest. vm_compute. reflexivity.
Qed.

(** The stream of the adapter's own test gives the events the test
    expects. *)
Example test_stream_events :
  mapChatCompletionsStream testStream "openai" (Some "gpt-4o-mini")
  = {| emitted :=
         [ {| eventType := delta;
              eventDelta := Some {| deltaRole := Some "assistant";
                                    deltaContent := Some "Hel" |};
              eventPayload := None;
              eventTraceId := Some "chatcmpl-1" |};
           {| eventType := delta;
              eventDelta := Some {| deltaRole := None; deltaContent := Some "lo" |};
              eventPayload := None;
              eventTraceId := Some "chatcmpl-1" |};
           {| eventType := completion;
              eventDelta := None;
              eventPayload :=
                Some (Obj [("message",
                            Obj [("role", Str "assistant"); ("content", Str "Hello")]);
                           ("usage",
                            Obj [("inputTokens", Num 12);
                                 ("outputTokens", Num 8);
                                 ("totalTokens", Num 20)]);
                           ("providerInfo",
                            Obj [("name", Str "openai");
                                 ("model", Str "gpt-4o-mini")])]);
              eventTraceId := Some "chatcmpl-1" |} ];
       failure := None |}.
Proof. vm_compute. reflexivity. Qed.

(** The normalizer reads deltas and finish reasons under [choices] only:
    the same objects at the top level of the payloads give no event. *)
Example bare_payloads_give_no_event :
  mapChatCompletionsStream bareStream "openai" None
  = {| emitted := []; failure := None |}.
Proof. vm_compute. reflexivity. Qed.

(** C7, counterexample.  After a choice said 'stop', a later delta and a
    later 'stop' still give events: a delta event follows a completion
    event, and there are two completion events. *)
Example chatty_stream_goes_on :
  map eventType (emitted (mapChatCompletionsStream chattyStream "openai" None))
  = [delta; completion; delta; completion]
  /\ failure (mapChatCompletionsStream chattyStream "openai" None) = None
  /\ completionIsLast (emitted (mapChatCompletionsStream chattyStream "openai" None))
     = false.
Proof. vm_compute. repeat split. Qed.

(** C7, witness: the reconstruction scenario. *)
Lemma completion_per_stop_choice_witness :
  List.length (filter isCompletion
                 (emitted (mapChatCompletionsStream helloStream "openai" None)))
  = 1%nat
  /\ completionIsLast (emitted (mapChatCompletionsStream helloStream "openai" None))
     = true.
Proof.
  destruct (completion_per_stop_choice "openai" None helloStream) as [Hcount Hlast].
  split.
  - rewrite Hcount. vm_compute. reflexivity.
  - destruct (Hlast
                [ Obj [("delta", Obj [("role", Str "assistant"); ("content", Str "Hel")])];
                  Obj [("delta", Obj [("content", Str "lo")])] ]
                (Obj [("finish_reason", Str "stop")]))
      as (deltas & final & _ & _ & _ & H).
    + vm_compute. reflexivity.
    + vm_compute. reflexivity.
    + vm_compute. reflexivity.
    + exact H.
Defined.

(** C10, witness: a stream cut off with [finish_reason] 'length' emits its
    two deltas and no completion event. *)
Lemma completion_only_on_stop_witness :
  filter isCompletion
    (emitted (mapChatCompletionsStream lengthStream "openai" None)) = []
  /\ List.length (emitted (mapChatCompletionsStream lengthStream "openai" None))
     = 2%nat.
Proof.
  split; [ | vm_compute; reflexivity ].
  apply (completion_only_on_stop "openai" None lengthStream).
  intros chunk data parsed choice Hchunk Hdata Hparsed Hchoice.
  cbn [lengthStream In] in Hchunk.
  destruct Hchunk as [ <- | [ <- | [ <- | [] ] ] ];
    vm_compute in Hdata; injection Hdata as <-;
    vm_compute in Hparsed; try discriminate; injection Hparsed as <-;
    vm_compute in Hchoice; destruct Hchoice as [ <- | [] ]; reflexivity.
Defined.

(** C8, counterexample.  A negative total from upstream is reported as 0,
    not as it is; and with no total and no counts at all a total is still
    reported, 0, not left out. *)
Example usage_total_clamped_and_never_omitted :
  normalizeChatUsage usageNegativeTotal
  = {| inputTokens := 12; outputTokens := 8; totalTokens := Some 0%float |}
  /\ getProp usageNegativeTotal "total_tokens" = Num (-5)
  /\ normalizeChatUsage usageEmpty
     = {| inputTokens := 0; outputTokens := 0; totalTokens := Some 0%float |}.
Proof. vm_compute. repeat split. Qed.

(** C8, witness: a total that disagrees with input + output is kept; a
    negative and a non-numeric count become 0; absent a total, 12 + 8 gives
    20. *)
Lemma usage_normalization_witness :
  totalTokens (normalizeChatUsage usageDisagreeing) = Some 99%float
  /\ inputTokens (normalizeChatUsage usageJunk) = 0%float
  /\ outputTokens (normalizeChatUsage usageJunk) = 0%float
  /\ totalTokens (normalizeChatUsage usageNoTotal) = Some 20%float.
Proof.
  destruct (usage_normalization usageDisagreeing) as (_ & _ & _ & _ & Htotal & _).
  destruct (usage_normalization usageJunk) as (Hin & _ & _ & Hout & _).
  destruct (usage_normalization usageNoTotal) as (_ & _ & _ & _ & _ & Hsum).
  split; [ | split; [ | split ] ].
  - destruct (Htotal 99%float) as (_ & _ & Hkept); [ reflexivity | ].
    apply Hkept; reflexivity.
  - apply Hin. reflexivity.
  - apply Hout; reflexivity.
  - apply (Hsum 12%float 8%float); reflexivity.
Defined.

(** C2, counterexample.  In the scenario's configuration the request is
    routed to A, not to B. *)
Example scored_config_routes_to_A :
  resolveRoutingSelection "chat" None None (providers scoredConfig)
  = Returned {| providerKey := "A"; selectedModel := "a-default"; strategy := Fallback |}.
Proof. vm_compute. reflexivity. Qed.

(** C2, witness. *)
Lemma higher_score_beats_default_bonus_witness :
  resolveRoutingSelection "chat" (provider chatRequest) (model chatRequest)
                          (providers scoredConfig)
  = Returned {| providerKey := "A"; selectedModel := "a-default"; strategy := Fallback |}.
Proof.
  apply (higher_score_beats_default_bonus "A" "B"); reflexivity.
Defined.

(** C3, witness: three attempts configured, a provider that always fails
    with TEMPORARY. *)
Lemma dispatchChat_retry_exhaustion_witness :
  exists last normalizedRequest before after,
    dispatchChat patientConfig [failingAdapter (providerFailure TEMPORARY "network blip")]
                 chatRequest idle
    = (Threw (ProviderErrorObj "Provider openai failed after 3 attempts"
                               TEMPORARY None (Some last)),
       {| upstream := after;
          calls := repeat (ChatCall "openai" normalizedRequest) 3 |})
    /\ chat (failingAdapter (providerFailure TEMPORARY "network blip"))
            normalizedRequest before = (Threw last, after)
    /\ classificationOf last = Some TEMPORARY.
Proof.
  refine (dispatchChat_retry_exhaustion Served
            patientConfig [failingAdapter (providerFailure TEMPORARY "network blip")]
            chatRequest
            {| providerKey := "openai"; selectedModel := "gpt-4o-mini"; strategy := Fallback |}
            (failingAdapter (providerFailure TEMPORARY "network blip")) idle
            {| maxAttempts := Some 3%float |} 3
            eq_refl eq_refl _ eq_refl eq_refl _).
  - lia.
  - intros req u. exists "network blip", None, None, (S u). reflexivity.
Defined.

(** The exhaustion scenario, computed: three calls, then the error. *)
Example patient_config_three_calls :
  dispatchChat patientConfig [failingAdapter (providerFailure TEMPORARY "network blip")]
               chatRequest idle
  = (Threw (ProviderErrorObj "Provider openai failed after 3 attempts" TEMPORARY None
              (Some (providerFailure TEMPORARY "network blip"))),
     {| upstream := 3%nat; calls := repeat (ChatCall "openai" normalizedChat) 3 |}).
Proof. vm_compute. reflexivity. Qed.

(** C4, witness: a PERMANENT failure with three attempts configured. *)
Lemma dispatchChat_no_retry_witness :
  dispatchChat patientConfig [failingAdapter (providerFailure PERMANENT "validation failed")]
               chatRequest idle
  = (Threw (providerFailure PERMANENT "validation failed"),
     {| upstream := 1%nat; calls := [ChatCall "openai" normalizedChat] |}).
Proof.
  apply (dispatchChat_no_retry Served
           patientConfig [failingAdapter (providerFailure PERMANENT "validation failed")]
           chatRequest
           {| providerKey := "openai"; selectedModel := "gpt-4o-mini"; strategy := Fallback |}
           (failingAdapter (providerFailure PERMANENT "validation failed"))
           (entry "gpt-4o-mini" ["chat"; "embed"]) idle).
  - reflexivity.
  - reflexivity.
  - reflexivity.
  - reflexivity.
  - right. left. reflexivity.
Defined.

(** A thrown value that is no provider error is not retried either. *)
Example plain_error_not_retried :
  dispatchChat patientConfig [failingAdapter (NativeError PlainError "No response configured")]
               chatRequest idle
  = (Threw (NativeError PlainError "No response configured"),
     {| upstream := 1%nat; calls := [ChatCall "openai" normalizedChat] |}).
Proof. vm_compute. reflexivity. Qed.

(** C1, counterexample.  With the default maximum of two attempts, an embed
    call that fails once with a TEMPORARY error - and would succeed if it
    were called again - makes [dispatchEmbed] throw that error after one
    call. *)
Example embed_failure_not_retried :
  resolveMaxAttempts baseConfig = 2
  /\ dispatchEmbed baseConfig [embedFlakyOnce] embedRequest idle
     = (Threw (providerFailure TEMPORARY "transient failure"),
        {| upstream := 1%nat; calls := [EmbedCall "openai" normalizedEmbed] |})
  /\ (exists method,
         embed embedFlakyOnce = Some method
         /\ fst (method normalizedEmbed 1%nat) = Returned (okResponse "vectors")).
Proof.
  split; [ reflexivity | split ].
  - vm_compute. reflexivity.
  - eexists. split; reflexivity.
Qed.

(** C1, witness. *)
Lemma dispatchEmbed_single_attempt_witness :
  snd (dispatchEmbed baseConfig [embedFlakyOnce] embedRequest idle)
  = {| upstream := 1%nat; calls := [EmbedCall "openai" normalizedEmbed] |}
  /\ fst (dispatchEmbed baseConfig [embedFlakyOnce] embedRequest idle)
     = Threw (providerFailure TEMPORARY "transient failure").
Proof.
  destruct (dispatchEmbed_single_attempt Served
              baseConfig [embedFlakyOnce] embedRequest
              {| providerKey := "openai"; selectedModel := "gpt-4o-mini"; strategy := Fallback |}
              embedFlakyOnce
              (fun _ served =>
                 match served with
                 | O => (Threw (providerFailure TEMPORARY "transient failure"), S served)
                 | S _ => (Returned (okResponse "vectors"), S served)
                 end)
              (entry "gpt-4o-mini" ["chat"; "embed"]) idle
              eq_refl eq_refl eq_refl eq_refl)
    as (Hworld & Hthrown & _).
  split.
  - exact Hworld.
  - apply Hthrown. reflexivity.
Defined.

(** C9, counterexample.  The error of a capability mismatch is a plain
    [Error] without a classification, be it the adapter that does not
    advertise the capability or the provider entry that does not declare it;
    and a streaming dispatch goes through although the provider entry does
    not declare chatStream. *)
Example capability_mismatch_is_not_CONFIG :
  dispatchChat baseConfig [muteAdapter] chatRequest idle
  = (Threw (NativeError PlainError "Adapter openai does not support chat capability"), idle)
  /\ classificationOf
       (NativeError PlainError "Adapter openai does not support chat capability") = None
  /\ fst (dispatchEmbed baseConfig [overreachingAdapter]
            {| embedRequestId := "embed-2"; embedCallerTool := "tool";
               inputs := [TextInput "Hello"];
               embedProvider := Some "anthropic"; embedModel := None |} idle)
     = Threw (NativeError PlainError "Provider anthropic does not declare capability: embed")
  /\ includes "chatStream" (capabilities (entry "gpt-4o-mini" ["chat"; "embed"])) = false
  /\ dispatchChatStream baseConfig [streamingAdapter] chatRequest idle
     = (Returned {| emitted := [deltaEvent None (Some "Hel"); deltaEvent None (Some "lo")];
                    failure := None |},
        {| upstream := 1%nat; calls := [ChatStreamCall "openai" normalizedChat] |}).
Proof. vm_compute. repeat split. Qed.

(** C9, witness: an adapter that advertises nothing. *)
Lemma capability_mismatch_fails_locally_witness :
  exists message,
    dispatch baseConfig [muteAdapter] (ChatDispatch chatRequest) idle
    = (Threw (NativeError PlainError message), idle)
    /\ classificationOf (NativeError PlainError message) = None.
Proof.
  apply (capability_mismatch_fails_locally Served
           baseConfig [muteAdapter] (ChatDispatch chatRequest)
           {| providerKey := "openai"; selectedModel := "gpt-4o-mini"; strategy := Fallback |}
           muteAdapter idle).
  - reflexivity.
  - reflexivity.
  - left. reflexivity.
Defined.

End Runs.

(* ================================================================== *)
(** * Further properties *)
(* ================================================================== *)

(** ** Routing without an override *)

Section RoutingFacts.

Import Orchestrator RoutingSpec.

Variable capability : string.

(** The callback either keeps [best] or replaces it by the candidate of the
    entry, and it replaces nothing by an entry that does not declare the
    capability. *)
Lemma considerEntry_cases :
  forall best key config index,
    considerEntry capability best key config index = best
    \/ (declares capability config = true
        /\ considerEntry capability best key config index
           = Some (candidate capability key config index)).
Proof.
  intros best key config index. unfold considerEntry.
  fold (declares capability config).
  destruct (declares capability config); cbn [negb]; [ | left; reflexivity ].
  fold (hasDefault capability config).
  destruct best as [ b | ]; [ | right; split; reflexivity ].
  match goal with |- context [if ?c then Some _ else Some b] => destruct c end;
    [ right; split; reflexivity | left; reflexivity ].
Qed.

(** An entry that declares the capability never leaves [best] empty. *)
Lemma considerEntry_declared :
  forall best key config index,
    declares capability config = true ->
    considerEntry capability best key config index <> None.
Proof.
  intros best key config index Hd. unfold considerEntry.
  fold (declares capability config). rewrite Hd. cbn [negb].
  destruct best as [ b | ]; [ | discriminate ].
  match goal with |- context [if ?c then Some _ else Some b] => destruct c end;
    discriminate.
Qed.

(** What the loop over the entries leaves in [best]. *)
Lemma forEachEntry_result :
  forall entries index best,
    match forEachEntry capability entries index best with
    | Some b =>
        Some b = best
        \/ exists key config i,
             In (key, config) entries
             /\ declares capability config = true
             /\ b = candidate capability key config i
    | None =>
        best = None
        /\ forall key config, In (key, config) entries ->
                              declares capability config = false
    end.
Proof.
  induction entries as [ | [key config] rest IH ]; intros index best.
  - cbn. destruct best; [ left; reflexivity | split; [ reflexivity | contradiction ] ].
  - cbn [forEachEntry].
    specialize (IH (index + 1) (considerEntry capability best key config index)).
    destruct (forEachEntry capability rest (index + 1)
                (considerEntry capability best key config index)) as [ b | ].
    + destruct IH as [ Hkeep | (k & c & i & Hin & Hd & Hb) ].
      * destruct (considerEntry_cases best key config index) as [ Hsame | [Hd Hnew] ].
        -- left. rewrite Hkeep. exact Hsame.
        -- right. exists key, config, index. repeat split.
           ++ left. reflexivity.
           ++ exact Hd.
           ++ rewrite Hnew in Hkeep. injection Hkeep as ->. reflexivity.
      * right. exists k, c, i. repeat split; try assumption. right. exact Hin.
    + destruct IH as [Hnone Hrest]. split.
      * destruct (considerEntry_cases best key config index) as [ Hsame | [_ Hnew] ].
        -- rewrite <- Hsame. exact Hnone.
        -- rewrite Hnew in Hnone. discriminate.
      * intros k c [ Heq | Hin ]; [ | apply (Hrest k c Hin) ].
        injection Heq as <- <-.
        destruct (declares capability config) eqn:Hd; [ | reflexivity ].
        exfalso. apply (considerEntry_declared best key config index Hd). exact Hnone.
Qed.

(** X1.  Without a provider override and with at least one provider
    configured, routing always yields a selection, and it names a configured
    provider.  When some provider declares the capability, the selected one
    does, with its capability default as model and the strategy
    capability-default when it has one, else its bare default model and
    fallback.  When none declares it, the selection is the first configured
    provider with its bare default model and the strategy fallback. *)
Theorem capability_routing_selects_configured :
  forall requestProvider requestModel providers,
    truthyString requestProvider = false ->
    providers <> [] ->
    exists key config,
      In (key, config) providers
      /\ resolveRoutingSelection capability requestProvider requestModel providers
         = Returned
             (if declares capability config
              then capabilitySelection capability key config
              else {| providerKey := key; selectedModel := defaultModel config;
                      strategy := Fallback |})
      /\ (declares capability config = false ->
          hd_error providers = Some (key, config)
          /\ forall k c, In (k, c) providers -> declares capability c = false).
Proof.
  intros requestProvider requestModel providers Hnone Hne.
  unfold resolveRoutingSelection. rewrite Hnone.
  destruct providers as [ | [firstKey firstConfig] rest ]; [ contradiction | ].
  pose proof (forEachEntry_result ((firstKey, firstConfig) :: rest) 0 None) as H.
  destruct (forEachEntry capability ((firstKey, firstConfig) :: rest) 0 None) as [ b | ].
  - destruct H as [ H | (key & config & i & Hin & Hd & ->) ]; [ discriminate | ].
    exists key, config. rewrite Hd. repeat split; try assumption; discriminate.
  - destruct H as [_ Hall]. exists firstKey, firstConfig.
    rewrite (Hall firstKey firstConfig (or_introl eq_refl)).
    repeat split; try assumption. left. reflexivity.
Qed.

End RoutingFacts.

(** ** The order of numbers *)

Section FloatOrderFacts.

Import FloatOrder.

(** What validity says of a finite value: the exponent range, the size of
    the mantissa, and that only the least exponent has short mantissas. *)
Lemma bounded_facts :
  forall m e,
    bounded prec emax m e = true ->
    -1074 <= e <= 971
    /\ Z.pos m < 2 ^ 53
    /\ (-1074 < e -> 2 ^ 52 <= Z.pos m).
Proof.
  intros m e H. unfold bounded, canonical_mantissa, fexp in H.
  apply andb_prop in H as [Hcanon Hmax].
  apply Z.eqb_eq in Hcanon. apply Z.leb_le in Hmax.
  unfold SpecFloat.emin, prec, emax in *.
  change IntDef.Z.max with Z.max in Hcanon.
  change IntDef.Z.sub with Z.sub in *.
  change IntDef.Z.add with Z.add in Hcanon.
  pose proof (digits2_pos_upper m) as Hup.
  pose proof (digits2_pos_lower m) as Hlow.
  assert (Hd : Z.pos (digits2_pos m) <= 53) by lia.
  split; [ lia | split ].
  - apply Z.lt_le_trans with (2 ^ Z.pos (digits2_pos m)); [ exact Hup | ].
    apply Z.pow_le_mono_r; lia.
  - intro He. assert (Hd' : Z.pos (digits2_pos m) = 53) by lia.
    rewrite Hd' in Hlow. exact Hlow.
Qed.

(** The magnitude of a finite value, as a rank, is positive and below that
    of the infinities. *)
Lemma finite_rank_bounds :
  forall m e,
    bounded prec emax m e = true ->
    0 < Z.pos m * 2 ^ (e + 1074) < 2 ^ 2100.
Proof.
  intros m e H. destruct (bounded_facts m e H) as (He & Hm & _).
  assert (Hpow : 0 < 2 ^ (e + 1074)) by (apply Z.pow_pos_nonneg; lia).
  split; [ lia | ].
  apply Z.lt_le_trans with (2 ^ 53 * 2 ^ (e + 1074)).
  - apply Z.mul_lt_mono_pos_r; assumption.
  - rewrite <- Z.pow_add_r by lia. apply Z.pow_le_mono_r; lia.
Qed.

(** Magnitudes of finite values compare as their exponents, then their
    mantissas. *)
Lemma finite_rank_compare :
  forall m1 e1 m2 e2,
    bounded prec emax m1 e1 = true ->
    bounded prec emax m2 e2 = true ->
    (Z.pos m1 * 2 ^ (e1 + 1074) ?= Z.pos m2 * 2 ^ (e2 + 1074))
    = match e1 ?= e2 with
      | Lt => Lt
      | Gt => Gt
      | Eq => Pos.compare_cont Eq m1 m2
      end.
Proof.
  assert (Hlt : forall m1 e1 m2 e2,
             bounded prec emax m1 e1 = true ->
             bounded prec emax m2 e2 = true ->
             e1 < e2 ->
             Z.pos m1 * 2 ^ (e1 + 1074) < Z.pos m2 * 2 ^ (e2 + 1074)).
  { intros m1 e1 m2 e2 H1 H2 He.
    destruct (bounded_facts m1 e1 H1) as (He1 & Hm1 & _).
    destruct (bounded_facts m2 e2 H2) as (He2 & _ & Hm2).
    assert (Hp1 : 0 < 2 ^ (e1 + 1074)) by (apply Z.pow_pos_nonneg; lia).
    apply Z.lt_le_trans with (2 ^ 53 * 2 ^ (e1 + 1074)).
    - apply Z.mul_lt_mono_pos_r; assumption.
    - apply Z.le_trans with (2 ^ 52 * 2 ^ (e2 + 1074)).
      + rewrite <- !Z.pow_add_r by lia. apply Z.pow_le_mono_r; lia.
      + apply Z.mul_le_mono_nonneg_r; [ apply Z.pow_nonneg; lia | apply Hm2; lia ]. }
  intros m1 e1 m2 e2 H1 H2.
  destruct (Z.compare_spec e1 e2) as [ -> | He | He ].
  - destruct (bounded_facts m2 e2 H2) as (He2 & _ & _).
    assert (Hp : 0 < 2 ^ (e2 + 1074)) by (apply Z.pow_pos_nonneg; lia).
    change (Pos.compare_cont Eq m1 m2) with (Z.pos m1 ?= Z.pos m2).
    destruct (Z.compare_spec (Z.pos m1) (Z.pos m2)) as [ Hm | Hm | Hm ].
    + rewrite Hm. apply Z.compare_refl.
    + apply Z.compare_lt_iff. apply Z.mul_lt_mono_pos_r; assumption.
    + apply Z.compare_gt_iff. apply Z.mul_lt_mono_pos_r; assumption.
  - apply Z.compare_lt_iff. apply Hlt; assumption.
  - apply Z.compare_gt_iff. apply Hlt; assumption.
Qed.

Ltac order_by_rank :=
  assert (0 < 2 ^ 2100) by (apply Z.pow_pos_nonneg; lia);
  f_equal;
  try (symmetry;
       first [ apply Z.compare_refl
             | apply Z.compare_lt_iff; lia
             | apply Z.compare_gt_iff; lia ]).

(** Comparing two valid values, neither NaN, is comparing their ranks. *)
Lemma SFcompare_rank :
  forall a b,
    valid_binary a = true ->
    valid_binary b = true ->
    a <> S754_nan -> b <> S754_nan ->
    SFcompare a b = Some (rank a ?= rank b).
Proof.
  intros a b Ha Hb Hna Hnb.
  destruct a as [ sa | sa | | sa ma ea ]; [ | | contradiction | ];
    (destruct b as [ sb | sb | | sb mb eb ]; [ | | contradiction | ]);
    cbn [valid_binary] in Ha, Hb; cbn [SFcompare rank]; clear Hna Hnb.
  - reflexivity.
  - destruct sb; order_by_rank.
  - pose proof (finite_rank_bounds mb eb Hb) as H. destruct sb; order_by_rank.
  - destruct sa; order_by_rank.
  - destruct sa, sb; order_by_rank.
  - pose proof (finite_rank_bounds mb eb Hb) as H. destruct sa, sb; order_by_rank.
  - pose proof (finite_rank_bounds ma ea Ha) as H. destruct sa; order_by_rank.
  - pose proof (finite_rank_bounds ma ea Ha) as H. destruct sa, sb; order_by_rank.
  - pose proof (finite_rank_bounds ma ea Ha) as H1.
    pose proof (finite_rank_bounds mb eb Hb) as H2.
    pose proof (finite_rank_compare ma ea mb eb Ha Hb) as Hc.
    pose proof (finite_rank_compare mb eb ma ea Hb Ha) as Hc'.
    destruct sa, sb; f_equal.
    + rewrite Z.compare_opp, Hc'. rewrite (Z.compare_antisym eb ea).
      destruct (eb ?= ea); cbn [CompOpp]; try reflexivity.
      rewrite Pos.compare_cont_antisym. reflexivity.
    + symmetry. apply Z.compare_lt_iff. lia.
    + symmetry. apply Z.compare_gt_iff. lia.
    + symmetry. exact Hc.
Qed.

(** A value is NaN exactly when its decomposition is. *)
Lemma isNaN_false :
  forall x : float, isNaN x = false -> Prim2SF x <> S754_nan.
Proof.
  intros x H E. unfold isNaN, is_nan in H. rewrite eqb_spec, E in H. discriminate.
Qed.

(** The comparisons of two numbers, neither NaN, in terms of ranks. *)
Lemma float_compare_rank :
  forall x y : float,
    isNaN x = false -> isNaN y = false ->
    (x <? y)%float = (rankOf x <? rankOf y)
    /\ (x <=? y)%float = (rankOf x <=? rankOf y)
    /\ (x =? y)%float = (rankOf x =? rankOf y).
Proof.
  intros x y Hx Hy.
  rewrite ltb_spec, leb_spec, eqb_spec. unfold SFltb, SFleb, SFeqb, rankOf.
  rewrite (SFcompare_rank _ _ (Prim2SF_valid x) (Prim2SF_valid y)
             (isNaN_false x Hx) (isNaN_false y Hy)).
  destruct (Z.ltb_spec (rank (Prim2SF x)) (rank (Prim2SF y))),
           (Z.leb_spec (rank (Prim2SF x)) (rank (Prim2SF y))),
           (Z.eqb_spec (rank (Prim2SF x)) (rank (Prim2SF y))),
           (Z.compare_spec (rank (Prim2SF x)) (rank (Prim2SF y)));
    try lia; repeat split.
Qed.

End FloatOrderFacts.

(** ** Routing by score *)

Section ScoreFacts.

Import Orchestrator RoutingSpec FloatOrder.

Variable capability : string.

(** The callback keeps [best] a best choice among the entries seen. *)
Lemma considerEntry_leads :
  forall seen best key config,
    (forall k c, In (k, c) (seen ++ [(key, config)]) ->
                 declares capability c = true ->
                 isNaN (entryScore capability c) = false) ->
    leads capability seen best ->
    leads capability (seen ++ [(key, config)])
          (considerEntry capability best key config (Z.of_nat (List.length seen))).
Proof.
  intros seen best key config Hnan Hbest.
  assert (Hnew : forall j key' config',
             nth_error (seen ++ [(key, config)]) j = Some (key', config') ->
             (j < List.length seen)%nat /\ nth_error seen j = Some (key', config')
             \/ j = List.length seen /\ key' = key /\ config' = config).
  { intros j key' config' Hj.
    destruct (Nat.lt_ge_cases j (List.length seen)) as [ Hlt | Hge ].
    - left. rewrite nth_error_app1 in Hj by exact Hlt. split; assumption.
    - right. rewrite nth_error_app2 in Hj by exact Hge.
      destruct (j - List.length seen)%nat as [ | d ] eqn:Hd; cbn in Hj.
      + injection Hj as <- <-. repeat split. lia.
      + destruct d; discriminate. }
  unfold considerEntry. fold (declares capability config).
  destruct (declares capability config) eqn:Hd; cbn [negb].
  - (* the entry declares the capability *)
    fold (hasDefault capability config).
    fold (entryScore capability config) (entryModel capability config)
         (entryStrategy capability config).
    fold (candidate capability key config (Z.of_nat (List.length seen))).
    assert (Hscore : isNaN (entryScore capability config) = false).
    { apply (Hnan key config); [ | exact Hd ].
      apply in_or_app. right. left. reflexivity. }
    assert (Hself : forall x : float,
               isNaN x = false -> (x <=? x)%float = true).
    { intros x Hx. destruct (float_compare_rank x x Hx Hx) as (_ & -> & _).
      apply Z.leb_refl. }
    assert (Hhere : nth_error (seen ++ [(key, config)]) (List.length seen)
                    = Some (key, config)).
    { rewrite nth_error_app2 by lia. rewrite Nat.sub_diag. reflexivity. }
    destruct best as [ b | ].
    + destruct Hbest as (i & k & c & Hi & Hc & Hb & Hmax).
      assert (Hilt : (i < List.length seen)%nat).
      { apply nth_error_Some. rewrite Hi. discriminate. }
      assert (Hbnan : isNaN (bestScore b) = false).
      { rewrite Hb. cbn [candidate bestScore]. apply (Hnan k c); [ | exact Hc ].
        apply in_or_app. left. apply (nth_error_In _ _ Hi). }
      destruct (float_compare_rank (bestScore b) (entryScore capability config)
                  Hbnan Hscore) as (Hlt & _ & _).
      assert (Hlate : (Z.of_nat (List.length seen) <? bestIndex b) = false).
      { rewrite Hb. cbn [candidate bestIndex]. apply Z.ltb_ge. lia. }
      rewrite Hlate, andb_false_r, orb_false_r, Hlt.
      destruct (Z.ltb_spec (rankOf (bestScore b)) (rankOf (entryScore capability config)))
        as [ Hwins | Hkeeps ].
      * (* a strictly higher score replaces the best *)
        exists (List.length seen), key, config.
        split; [ exact Hhere | split; [ exact Hd | split; [ reflexivity | ] ] ].
        intros j key' config' Hj Hd'. cbn [candidate bestScore].
        destruct (Hnew j key' config' Hj) as [ [Hjlt Hold] | (-> & -> & ->) ].
        -- destruct (Hmax j key' config' Hold Hd') as [Hle _].
           assert (Hnan' : isNaN (entryScore capability config') = false).
           { apply (Hnan key' config'); [ | exact Hd' ].
             apply in_or_app. left. apply (nth_error_In _ _ Hold). }
           destruct (float_compare_rank (entryScore capability config') (bestScore b)
                       Hnan' Hbnan) as (_ & Hle' & _).
           rewrite Hle' in Hle. apply Z.leb_le in Hle.
           destruct (float_compare_rank (entryScore capability config')
                       (entryScore capability config) Hnan' Hscore) as (_ & -> & ->).
           split; [ apply Z.leb_le; lia | ].
           intro Heq. apply Z.eqb_eq in Heq. lia.
        -- split; [ apply Hself; exact Hscore | intros _; lia ].
      * (* the best stays *)
        exists i, k, c.
        split; [ rewrite nth_error_app1 by exact Hilt; exact Hi | ].
        split; [ exact Hc | split; [ exact Hb | ] ].
        intros j key' config' Hj Hd'.
        destruct (Hnew j key' config' Hj) as [ [Hjlt Hold] | (-> & -> & ->) ].
        -- apply (Hmax j key' config' Hold Hd').
        -- destruct (float_compare_rank (entryScore capability config) (bestScore b)
                       Hscore Hbnan) as (_ & -> & _).
           split; [ apply Z.leb_le; lia | intros _; lia ].
    + (* the first entry that declares the capability *)
      exists (List.length seen), key, config.
      split; [ exact Hhere | split; [ exact Hd | split; [ reflexivity | ] ] ].
      intros j key' config' Hj Hd'. cbn [candidate bestScore].
      destruct (Hnew j key' config' Hj) as [ [Hjlt Hold] | (-> & -> & ->) ].
      * cbn [leads] in Hbest.
        rewrite (Hbest key' config' (nth_error_In _ _ Hold)) in Hd'. discriminate.
      * split; [ apply Hself; exact Hscore | intros _; lia ].
  - (* the entry does not declare it: skipped *)
    destruct best as [ b | ]; cbn [leads] in *.
    + destruct Hbest as (i & k & c & Hi & Hc & Hb & Hmax).
      assert (Hilt : (i < List.length seen)%nat).
      { apply nth_error_Some. rewrite Hi. discriminate. }
      exists i, k, c.
      split; [ rewrite nth_error_app1 by exact Hilt; exact Hi | ].
      split; [ exact Hc | split; [ exact Hb | ] ].
      intros j key' config' Hj Hd'.
      destruct (Hnew j key' config' Hj) as [ [Hjlt Hold] | (-> & -> & ->) ].
      * apply (Hmax j key' config' Hold Hd').
      * rewrite Hd in Hd'. discriminate.
    + intros k c Hin. apply in_app_or in Hin as [ Hin | [ Heq | [] ] ].
      * apply (Hbest k c Hin).
      * injection Heq as <- <-. exact Hd.
Qed.

(** So does the loop over the entries. *)
Lemma forEachEntry_leads :
  forall entries seen best,
    (forall k c, In (k, c) (seen ++ entries) ->
                 declares capability c = true ->
                 isNaN (entryScore capability c) = false) ->
    leads capability seen best ->
    leads capability (seen ++ entries)
          (forEachEntry capability entries (Z.of_nat (List.length seen)) best).
Proof.
  induction entries as [ | [key config] rest IH ]; intros seen best Hnan Hbest.
  - rewrite app_nil_r. exact Hbest.
  - cbn [forEachEntry].
    replace (seen ++ (key, config) :: rest) with ((seen ++ [(key, config)]) ++ rest)
      in * by (rewrite <- app_assoc; reflexivity).
    replace (Z.of_nat (List.length seen) + 1)
      with (Z.of_nat (List.length (seen ++ [(key, config)])))
      by (rewrite length_app; cbn [List.length]; lia).
    apply IH; [ exact Hnan | ].
    apply considerEntry_leads; [ | exact Hbest ].
    intros k c Hin Hd. apply (Hnan k c); [ | exact Hd ].
    apply in_or_app. left. exact Hin.
Qed.

(** X2.  Without a provider override, among the configured providers that
    declare the capability the one routed to has the highest score (its
    declared score, 0 by default, plus 50 when it has a default model for
    the capability), and of those with that score it is the one configured
    first - provided no such score is NaN, which no JSON configuration
    gives. *)
Theorem highest_score_wins :
  forall requestProvider requestModel providers,
    truthyString requestProvider = false ->
    (forall key config,
        In (key, config) providers ->
        declares capability config = true ->
        isNaN (entryScore capability config) = false) ->
    (exists key config,
        In (key, config) providers /\ declares capability config = true) ->
    exists i key config,
      nth_error providers i = Some (key, config)
      /\ declares capability config = true
      /\ resolveRoutingSelection capability requestProvider requestModel providers
         = Returned (capabilitySelection capability key config)
      /\ forall j key' config',
           nth_error providers j = Some (key', config') ->
           declares capability config' = true ->
           (entryScore capability config' <=? entryScore capability config)%float = true
           /\ ((entryScore capability config' =? entryScore capability config)%float = true ->
               (i <= j)%nat).
Proof.
  intros requestProvider requestModel providers Hnone Hnan (key0 & config0 & Hin0 & Hd0).
  unfold resolveRoutingSelection. rewrite Hnone.
  destruct providers as [ | [firstKey firstConfig] rest ]; [ contradiction | ].
  pose proof (forEachEntry_leads ((firstKey, firstConfig) :: rest) [] None Hnan) as H.
  cbn [app List.length Z.of_nat] in H.
  destruct (forEachEntry capability ((firstKey, firstConfig) :: rest) 0 None) as [ b | ].
  - destruct H as (i & key & config & Hi & Hd & -> & Hmax).
    + intros k c [].
    + exists i, key, config. repeat split; try assumption; apply (Hmax j key' config'); assumption.
  - cbn [leads] in H. rewrite (H (fun k c Hin => match Hin with end) key0 config0 Hin0) in Hd0.
    discriminate.
Qed.

End ScoreFacts.

(** ** The dispatch entry points, whatever the adapters do *)

Section DispatchFacts.

Import Orchestrator RoutingSpec.

Variable Upstream : Type.

(** The adapter found under a key has that key as its name. *)
Lemma getRegisteredAdapter_name :
  forall key (adapters : list (ProviderAdapter Upstream)) adapter,
    getRegisteredAdapter key adapters = Returned adapter ->
    name adapter = key.
Proof.
  intros key adapters adapter. unfold getRegisteredAdapter.
  destruct (find (fun entry => String.eqb (name entry) key) adapters) as [ found | ] eqn:Hfind;
    [ | discriminate ].
  intro H. injection H as <-.
  apply find_some in Hfind as [_ Heq]. apply String.eqb_eq. exact Heq.
Qed.

(** A caller override that passes routing is the provider routed to. *)
Lemma override_is_selected :
  forall capability requestProvider requestModel providers routing,
    resolveRoutingSelection capability requestProvider requestModel providers
    = Returned routing ->
    truthyString requestProvider = true ->
    requestProvider = Some (providerKey routing)
    /\ strategy routing = CallerOverride.
Proof.
  intros capability requestProvider requestModel providers routing.
  unfold resolveRoutingSelection. intros H Htruthy. rewrite Htruthy in H.
  destruct requestProvider as [ requested | ]; [ | discriminate ].
  destruct (lookup requested providers); [ | discriminate ].
  injection H as <-. split; reflexivity.
Qed.

(** The loop calls the operation at most once per remaining attempt, and a
    result comes with the number of the attempt that gave it. *)
Lemma retryLoop_calls :
  forall (T : Type) (operation : M Upstream T) key maxAttempts call,
    (forall w, calls (snd (operation w)) = calls w ++ [call]) ->
    forall budget attempt last (w : World Upstream),
      exists n,
        calls (snd (retryLoop budget operation key maxAttempts attempt last w))
        = calls w ++ repeat call n
        /\ Z.of_nat n <= Z.max 0 (maxAttempts - attempt)
        /\ (attempt < maxAttempts -> (0 < budget)%nat -> (1 <= n)%nat)
        /\ forall result attempts,
             fst (retryLoop budget operation key maxAttempts attempt last w)
             = Returned (result, attempts) ->
             (1 <= n)%nat /\ attempts = attempt + Z.of_nat n.
Proof.
  intros T operation key maxAttempts call Hlog.
  assert (Hnone : forall w : World Upstream, calls w = calls w ++ repeat call 0).
  { intro w. cbn [repeat]. rewrite app_nil_r. reflexivity. }
  induction budget as [ | budget IH ]; intros attempt last w; cbn [retryLoop].
  - exists 0%nat.
    destruct (attempt <? maxAttempts); cbn [fst snd];
      (split; [ apply Hnone | split; [ lia | split; [ lia | intros; discriminate ] ] ]).
  - destruct (Z.ltb_spec attempt maxAttempts) as [ Hlt | Hge ];
      [ | exists 0%nat; cbn [fst snd];
          split; [ apply Hnone | split; [ lia | split; [ lia | intros; discriminate ] ] ] ].
    pose proof (Hlog w) as Hcall.
    destruct (operation w) as [ [ result | error | ] w' ] eqn:Hop; cbn [snd] in Hcall.
    + exists 1%nat. cbn [fst snd repeat].
      split; [ exact Hcall | split; [ lia | split; [ lia | ] ] ].
      intros r a H. injection H as <- <-. split; lia.
    + assert (Hone : forall thrown : Thrown,
                 exists n,
                   calls (snd (@Threw (T * Z) thrown, w')) = calls w ++ repeat call n
                   /\ Z.of_nat n <= Z.max 0 (maxAttempts - attempt)
                   /\ (attempt < maxAttempts -> (0 < S budget)%nat -> (1 <= n)%nat)
                   /\ forall (result : T) (attempts : Z),
                        fst (@Threw (T * Z) thrown, w') = Returned (result, attempts) ->
                        (1 <= n)%nat /\ attempts = attempt + Z.of_nat n).
      { intro thrown. exists 1%nat. cbn [fst snd repeat].
        split; [ exact Hcall | split; [ lia | split; [ lia | intros; discriminate ] ] ]. }
      destruct (isProviderError error); [ | apply Hone ].
      destruct (retryableError error); [ | apply Hone ].
      destruct (Z.ltb_spec (attempt + 1) maxAttempts) as [ Hmore | Hlast ];
        [ | apply Hone ].
      destruct (IH (attempt + 1) (Some error) w') as (n & Hcalls & Hbound & _ & Hres).
      exists (S n). split; [ | split; [ | split ] ].
      * rewrite Hcalls, Hcall, <- app_assoc. reflexivity.
      * lia.
      * lia.
      * intros r a H. destruct (Hres r a H) as [Hn Ha]. split; lia.
    + exists 1%nat. cbn [fst snd repeat].
      split; [ exact Hcall | split; [ lia | split; [ lia | intros; discriminate ] ] ].
Qed.

(** X3.  Whatever the adapters and the request, with a maximum of attempts
    of at most [2^53] (up to which the source's counter is exact), a chat
    dispatch only ever adds to the log calls of the chat method of one
    adapter with one normalized request, at most as many as the configured
    maximum of attempts.  A response comes from the last of at least one
    such call and reports their number as its attempts.  The adapter called
    is the one registered under a configured provider key, the request
    names that key, and a provider the caller asked for is that key.  Once
    routing and the selection of the adapter have passed, the adapter is
    called at least once. *)
Theorem dispatchChat_calls_bounded :
  forall config (adapters : list (ProviderAdapter Upstream)) request (w : World Upstream),
    resolveMaxAttempts config <= 2 ^ 53 ->
    exists n key normalizedRequest,
      calls (snd (dispatchChat config adapters request w))
      = calls w ++ repeat (ChatCall key normalizedRequest) n
      /\ Z.of_nat n <= resolveMaxAttempts config
      /\ (forall result,
             fst (dispatchChat config adapters request w) = Returned result ->
             (1 <= n)%nat /\ attempts result = Some (Z.of_nat n))
      /\ ((1 <= n)%nat ->
          provider normalizedRequest = Some key
          /\ lookup key (providers config) <> None
          /\ (truthyString (provider request) = true -> provider request = Some key))
      /\ (forall routing adapter,
             resolveRoutingSelection "chat" (provider request) (model request)
                                     (providers config) = Returned routing ->
             selectAdapter (providerKey routing)
                           (lookup (providerKey routing) (providers config))
                           adapters "chat" = Returned adapter ->
             (1 <= n)%nat).
Proof.
  intros config adapters request w Hexact.
  pose proof (resolveMaxAttempts_at_least_one config) as Hpos.
  unfold dispatchChat, bind, lift.
  destruct (resolveRoutingSelection "chat" (provider request) (model request)
              (providers config)) as [ routing | error | ] eqn:Hroute.
  2, 3: exists 0%nat, ""%string, request; cbn [fst snd repeat];
    (split; [ rewrite app_nil_r; reflexivity | ]);
    (split; [ lia | ]); (split; [ intros; discriminate | ]);
    (split; [ lia | intros; discriminate ]).
  destruct (selectAdapter (providerKey routing)
              (lookup (providerKey routing) (providers config)) adapters "chat")
    as [ adapter | error | ] eqn:Hselect.
  2, 3: exists 0%nat, ""%string, request; cbn [fst snd repeat];
    (split; [ rewrite app_nil_r; reflexivity | ]);
    (split; [ lia | ]); (split; [ intros; discriminate | ]);
    (split; [ lia | ]);
    intros routing' adapter' Hr Hs; injection Hr as <-;
    rewrite Hselect in Hs; discriminate.
  destruct (selectAdapter_returned _ _ _ _ _ _ Hselect) as (Hreg & _ & entry & Hentry & _).
  rewrite Hentry. cbn [configured ret].
  set (normalizedRequest :=
         normalizeChatRequest request (providerKey routing) entry
                              (Some (selectedModel routing))).
  unfold executeWithRetry.
  destruct (retryLoop_calls ProviderResponse (invokeChat adapter normalizedRequest)
              (providerKey routing) (resolveMaxAttempts config)
              (ChatCall (providerKey routing) normalizedRequest))
    with (budget := Z.to_nat (resolveMaxAttempts config)) (attempt := 0)
         (last := @None Thrown) (w := w)
    as (n & Hcalls & Hbound & Hsome & Hres).
  { intro w0. unfold invokeChat.
    destruct (chat adapter normalizedRequest (upstream w0)) as [outcome u].
    cbn [snd calls]. rewrite (getRegisteredAdapter_name _ _ _ Hreg). reflexivity. }
  exists n, (providerKey routing), normalizedRequest.
  assert (Hkey : provider normalizedRequest = Some (providerKey routing)
                 /\ lookup (providerKey routing) (providers config) <> None
                 /\ (truthyString (provider request) = true ->
                     provider request = Some (providerKey routing))).
  { split; [ reflexivity | split; [ rewrite Hentry; discriminate | ] ].
    intro Htruthy. apply (override_is_selected _ _ _ _ _ Hroute Htruthy). }
  destruct (retryLoop (Z.to_nat (resolveMaxAttempts config))
              (invokeChat adapter normalizedRequest) (providerKey routing)
              (resolveMaxAttempts config) 0 None w) as [ [ [result a] | error | ] w' ];
    cbn [fst snd] in *.
  all: split; [ exact Hcalls | split; [ lia | split; [ | split; [ intros _; exact Hkey | ] ] ] ].
  all: try (intros r H; discriminate).
  all: try (intros; apply Hsome; lia).
  intros r H. injection H as <-. cbn [attempts].
  destruct (Hres result a eq_refl) as [Hn Ha]. split; [ exact Hn | ].
  rewrite Ha. reflexivity.
Qed.

(** X4.  After [k] chat calls that each threw a retryable provider error,
    with [k] below the maximum and below [2^53] (up to which the source's
    counter is exact), the next call decides: its result is
    returned with [k + 1] attempts, and an error of it that is not a
    retryable provider error is thrown as it is, without further calls. *)
Theorem executeWithRetry_after_failures :
  forall (T : Type) (operation : M Upstream T) key maxAttempts k
         (w w1 : World Upstream),
    afterRetryableFailures operation k w = Some w1 ->
    Z.of_nat k < maxAttempts ->
    Z.of_nat k < 2 ^ 53 ->
    (forall result w2,
        operation w1 = (Returned result, w2) ->
        executeWithRetry operation key maxAttempts w
        = (Returned (result, Z.of_nat k + 1), w2))
    /\ (forall error w2,
           operation w1 = (Threw error, w2) ->
           isProviderError error && retryableError error = false ->
           executeWithRetry operation key maxAttempts w = (Threw error, w2)).
Proof.
  intros T operation key maxAttempts k w w1 Hafter Hk Hexact.
  unfold executeWithRetry.
  assert (Hgen :
            forall k budget attempt last (w : World Upstream),
              afterRetryableFailures operation k w = Some w1 ->
              attempt + Z.of_nat k < maxAttempts ->
              (k < budget)%nat ->
              0 <= attempt ->
              (forall result w2,
                  operation w1 = (Returned result, w2) ->
                  retryLoop budget operation key maxAttempts attempt last w
                  = (Returned (result, attempt + Z.of_nat k + 1), w2))
              /\ (forall error w2,
                     operation w1 = (Threw error, w2) ->
                     isProviderError error && retryableError error = false ->
                     retryLoop budget operation key maxAttempts attempt last w
                     = (Threw error, w2))).
  { clear k w Hafter Hk Hexact.
    induction k as [ | k IH ]; intros budget attempt last w Hafter Hk Hbudget Hattempt;
      (destruct budget as [ | budget ]; [ lia | ]); cbn [retryLoop];
      (destruct (Z.ltb_spec attempt maxAttempts) as [ _ | ]; [ | lia ]).
    - cbn [afterRetryableFailures] in Hafter. injection Hafter as ->. split.
      + intros result w2 Hop. rewrite Hop. do 2 f_equal. f_equal. lia.
      + intros error w2 Hop Hno. rewrite Hop.
        destruct (isProviderError error); [ | reflexivity ].
        cbn [andb] in Hno. rewrite Hno. reflexivity.
    - cbn [afterRetryableFailures] in Hafter.
      destruct (operation w) as [ [ result | error | ] w' ]; try discriminate.
      destruct (isProviderError error); cbn [andb] in Hafter; [ | discriminate ].
      destruct (retryableError error); [ | discriminate ].
      destruct (Z.ltb_spec (attempt + 1) maxAttempts) as [ _ | ]; [ | lia ].
      destruct (IH budget (attempt + 1) (Some error) w' Hafter) as [Hret Hthrow];
        [ lia | lia | lia | ].
      split.
      + intros result w2 Hop. rewrite (Hret result w2 Hop). do 2 f_equal. f_equal. lia.
      + exact Hthrow. }
  destruct (Hgen k (Z.to_nat maxAttempts) 0 None w Hafter) as [Hret Hthrow];
    [ lia | lia | lia | ].
  split; [ | exact Hthrow ].
  intros result w2 Hop. rewrite (Hret result w2 Hop). reflexivity.
Qed.

(** X5.  A streaming dispatch is never retried.  Either it fails before
    any adapter method is called, or it calls the chat-stream method of the
    selected adapter exactly once and returns that stream: the same events
    in the same order, with their types, deltas and trace ids, and the
    stream's own failure, if any, passed through. *)
Theorem dispatchChatStream_single_call :
  forall config (adapters : list (ProviderAdapter Upstream)) request (w : World Upstream),
    (exists error, dispatchChatStream config adapters request w = (Threw error, w))
    \/ exists adapter method normalizedRequest result,
         chatStream adapter = Some method
         /\ In adapter adapters
         /\ dispatchChatStream config adapters request w
            = (Returned result,
               {| upstream := snd (method normalizedRequest (upstream w));
                  calls := calls w ++ [ChatStreamCall (name adapter) normalizedRequest] |})
         /\ let stream := fst (method normalizedRequest (upstream w)) in
            map OpenAIAdapter.eventType (OpenAIAdapter.emitted result)
            = map OpenAIAdapter.eventType (OpenAIAdapter.emitted stream)
            /\ map OpenAIAdapter.eventDelta (OpenAIAdapter.emitted result)
               = map OpenAIAdapter.eventDelta (OpenAIAdapter.emitted stream)
            /\ map OpenAIAdapter.eventTraceId (OpenAIAdapter.emitted result)
               = map OpenAIAdapter.eventTraceId (OpenAIAdapter.emitted stream)
            /\ OpenAIAdapter.failure result = OpenAIAdapter.failure stream.
Proof.
  intros config adapters request w.
  unfold dispatchChatStream, bind, lift.
  destruct (resolveRoutingSelection "chatStream" (provider request) (model request)
              (providers config)) as [ routing | error | ] eqn:Hroute;
    [ | left; eexists; reflexivity | ].
  2: { exfalso. revert Hroute. unfold resolveRoutingSelection.
       destruct (if truthyString (provider request) then provider request else None)
         as [ requested | ].
       - destruct (lookup requested (providers config)); discriminate.
       - destruct (providers config) as [ | [k c] rest ]; [ discriminate | ].
         destruct (forEachEntry "chatStream" ((k, c) :: rest) 0 None); discriminate. }
  destruct (selectAdapter (providerKey routing)
              (lookup (providerKey routing) (providers config)) adapters "chat")
    as [ adapter | error | ] eqn:Hselect;
    [ | left; eexists; reflexivity | ].
  2: { exfalso. revert Hselect. unfold selectAdapter, getRegisteredAdapter, validateCapability.
       destruct (find _ adapters) as [ found | ]; [ | discriminate ].
       destruct (negb (supports found "chat")); [ discriminate | ].
       destruct (lookup (providerKey routing) (providers config)) as [ entry | ];
         [ | discriminate ].
       destruct (negb (includes "chat" (capabilities entry))); discriminate. }
  destruct (selectAdapter_returned _ _ _ _ _ _ Hselect) as (Hreg & _ & entry & Hentry & _).
  destruct (chatStream adapter) as [ method | ] eqn:Hmethod;
    [ | left; eexists; reflexivity ].
  right. rewrite Hentry. cbn [configured ret]. unfold invokeChatStream.
  set (normalizedRequest :=
         normalizeChatRequest request (providerKey routing) entry
                              (Some (selectedModel routing))).
  exists adapter, method, normalizedRequest.
  destruct (method normalizedRequest (upstream w)) as [stream u].
  eexists. split; [ exact Hmethod | split; [ | split; [ reflexivity | ] ] ].
  - unfold getRegisteredAdapter in Hreg.
    destruct (find (fun entry0 => String.eqb (name entry0) (providerKey routing)) adapters)
      as [ found | ] eqn:Hfind; [ | discriminate ].
    injection Hreg as <-. apply find_some in Hfind as [Hin _]. exact Hin.
  - cbn [fst attachRoutingToStream OpenAIAdapter.emitted OpenAIAdapter.failure].
    rewrite !map_map.
    repeat split; apply map_ext; intro event; unfold attachRoutingToEvent;
      destruct (OpenAIAdapter.eventPayload event) as [ p | ]; try reflexivity;
      destruct (truthy p); reflexivity.
Qed.

End DispatchFacts.

(** ** Routing metadata and the model sent upstream *)

Section MetadataFacts.

Import Orchestrator RoutingSpec.

(** Reading a property after setting one. *)
Lemma lookup_setProp_same :
  forall k v fields, lookup k (setProp k v fields) = Some v.
Proof.
  intros k v. induction fields as [ | [k' v'] rest IH ]; cbn [setProp lookup].
  - rewrite String.eqb_refl. reflexivity.
  - destruct (String.eqb k k') eqn:E; cbn [lookup].
    + rewrite String.eqb_refl. reflexivity.
    + rewrite E. exact IH.
Qed.

Lemma lookup_setProp_other :
  forall k k' v fields, k' <> k -> lookup k' (setProp k v fields) = lookup k' fields.
Proof.
  intros k k' v fields Hne. apply String.eqb_neq in Hne.
  induction fields as [ | [k0 v0] rest IH ]; cbn [setProp lookup].
  - rewrite Hne. reflexivity.
  - destruct (String.eqb k k0) eqn:E; cbn [lookup].
    + apply String.eqb_eq in E. subst k0. rewrite Hne. reflexivity.
    + destruct (String.eqb k' k0); [ reflexivity | exact IH ].
Qed.

(** A property the source of a spread does not have comes from the
    target. *)
Lemma lookup_assign_absent :
  forall k source target,
    lookup k source = None -> lookup k (assign target source) = lookup k target.
Proof.
  intros k. unfold assign.
  induction source as [ | [k' v'] rest IH ]; intros target Hnone; cbn [fold_left fst snd].
  - reflexivity.
  - cbn [lookup] in Hnone. destruct (String.eqb k k') eqn:E; [ discriminate | ].
    rewrite (IH _ Hnone). apply lookup_setProp_other.
    apply String.eqb_neq. exact E.
Qed.

(** X6.  On an object payload, [attachRoutingMetadata] gives an object
    whose [providerInfo.routing] is the capability and the strategy of the
    dispatch, whatever the adapter had put there; every other top-level
    property of the payload is as the adapter returned it; and when the
    adapter's [providerInfo] has no [name] (no [model]) of its own, the
    routed provider key (the resolved model) is filled in. *)
Theorem attachRoutingMetadata_object :
  forall fields context,
    exists fields' info,
      attachRoutingMetadata (Obj fields) context = Obj fields'
      /\ lookup "providerInfo" fields' = Some (Obj info)
      /\ lookup "routing" info = Some (routingValue context)
      /\ (forall k, k <> "providerInfo" -> lookup k fields' = lookup k fields)
      /\ (lookup "name" (ownEntries (getProp (Obj fields) "providerInfo")) = None ->
          lookup "name" info = Some (Str (ctxProvider context)))
      /\ (lookup "model" (ownEntries (getProp (Obj fields) "providerInfo")) = None ->
          lookup "model" info = Some (Str (ctxModel context))).
Proof.
  intros fields context. unfold attachRoutingMetadata. cbn [truthy isObjectType negb orb].
  eexists. eexists. split; [ reflexivity | ].
  cbn [ownEntries]. rewrite lookup_setProp_same.
  split; [ reflexivity | ]. rewrite lookup_setProp_same.
  split; [ reflexivity | ].
  split; [ intros k Hk; apply lookup_setProp_other; exact Hk | ].
  assert (Hexisting :
            forall k,
              lookup k (ownEntries (getProp (Obj fields) "providerInfo")) = None ->
              lookup k (ownEntries (coalesce (getProp (Obj fields) "providerInfo") (Obj [])))
              = None
              /\ getProp (coalesce (getProp (Obj fields) "providerInfo") (Obj [])) k
                 = Undefined).
  { intros k Hk. unfold coalesce.
    destruct (getProp (Obj fields) "providerInfo") as [ | | b | x | s | items | info ];
      cbn [isNullish ownEntries getProp lookup] in *; try (split; reflexivity).
    - split; [ exact Hk | reflexivity ].
    - split; [ exact Hk | reflexivity ].
    - rewrite Hk. split; reflexivity. }
  split; intro Hnone; destruct (Hexisting _ Hnone) as [Habsent Hundefined].
  - rewrite lookup_setProp_other by discriminate.
    rewrite (lookup_assign_absent _ _ _ Habsent). cbn [lookup String.eqb Ascii.eqb Bool.eqb].
    rewrite Hundefined. reflexivity.
  - rewrite lookup_setProp_other by discriminate.
    rewrite (lookup_assign_absent _ _ _ Habsent).
    rewrite Hundefined. reflexivity.
Qed.

Variable Upstream : Type.

(** X7.  When the caller names no provider, the model it asks for has no
    effect at all: routing picks the model from the configuration and the
    request is rewritten with it, so a chat, streaming or embed dispatch
    makes the same adapter calls and ends in the same way as for the
    request with any other model, or none. *)
Theorem model_without_provider_is_ignored :
  forall config (adapters : list (ProviderAdapter Upstream)) (w : World Upstream),
    (forall request m,
        truthyString (provider request) = false ->
        dispatchChat config adapters (withModel request m) w
        = dispatchChat config adapters request w
        /\ dispatchChatStream config adapters (withModel request m) w
           = dispatchChatStream config adapters request w)
    /\ (forall request m,
           truthyString (embedProvider request) = false ->
           dispatchEmbed config adapters (withEmbedModel request m) w
           = dispatchEmbed config adapters request w).
Proof.
  intros config adapters w.
  assert (Hroute : forall capability rp rm rm',
             truthyString rp = false ->
             resolveRoutingSelection capability rp rm (providers config)
             = resolveRoutingSelection capability rp rm' (providers config)).
  { intros capability rp rm rm' H. unfold resolveRoutingSelection. rewrite H. reflexivity. }
  split.
  - intros request m Hnone. split.
    + unfold dispatchChat. cbn [withModel provider model].
      rewrite (Hroute "chat" _ m (model request) Hnone). reflexivity.
    + unfold dispatchChatStream. cbn [withModel provider model].
      rewrite (Hroute "chatStream" _ m (model request) Hnone). reflexivity.
  - intros request m Hnone.
    unfold dispatchEmbed. cbn [withEmbedModel embedProvider embedModel].
    rewrite (Hroute "embed" _ m (embedModel request) Hnone). reflexivity.
Qed.

End MetadataFacts.

(** ** The stream normalizer, further *)

Section StreamFacts.

Import OpenAIAdapter StreamSpec.

Context {RT : Runtime}.

Lemma append_empty_r : forall s : string, (s ++ "")%string = s.
Proof.
  induction s as [ | c s IH ]; cbn [append]; [ reflexivity | rewrite IH; reflexivity ].
Qed.

Lemma append_assoc_string :
  forall a b c : string, ((a ++ b) ++ c)%string = (a ++ (b ++ c))%string.
Proof.
  induction a as [ | x a IH ]; intros b c; cbn [append];
    [ reflexivity | rewrite IH; reflexivity ].
Qed.

Lemma streamedText_app :
  forall l1 l2, streamedText (l1 ++ l2) = (streamedText l1 ++ streamedText l2)%string.
Proof.
  induction l1 as [ | e l1 IH ]; intro l2; cbn [streamedText app];
    [ reflexivity | rewrite IH, append_assoc_string; reflexivity ].
Qed.

Lemma contentsAgree_app :
  forall l1 l2 acc,
    contentsAgree acc l1 ->
    contentsAgree (acc ++ streamedText l1) l2 ->
    contentsAgree acc (l1 ++ l2).
Proof.
  induction l1 as [ | e l1 IH ]; intros l2 acc H1 H2; cbn [app streamedText] in *.
  - rewrite append_empty_r in H2. exact H2.
  - cbn [contentsAgree] in *. destruct H1 as [He H1]. split; [ exact He | ].
    apply IH; [ exact H1 | ]. rewrite append_assoc_string. exact H2.
Qed.

(** The delta block adds to the accumulated content exactly the fragment
    of the event it yields. *)
Lemma applyDelta_content :
  forall st choice,
    accumulatedContent (fst (applyDelta st choice))
    = (accumulatedContent st ++ streamedText (snd (applyDelta st choice)))%string
    /\ contentsAgree (accumulatedContent st) (snd (applyDelta st choice)).
Proof.
  intros st choice. unfold applyDelta.
  destruct (truthy (getProp choice "delta"));
    [ | cbn; rewrite append_empty_r; split; [ reflexivity | exact I ] ].
  destruct (asString (getProp (getProp choice "delta") "content")) as [ c | ] eqn:Hc.
  - destruct (truthyString (asString (getProp (getProp choice "delta") "role"))
              || truthyString (Some c)) eqn:Hyield;
      cbn [fst snd accumulatedContent streamedText deltaText eventDelta
           deltaContent orDefault contentsAgree eventType].
    + rewrite append_empty_r. split; [ reflexivity | ].
      split; [ discriminate | exact I ].
    + apply orb_false_elim in Hyield as [_ Hempty]. cbn [truthyString] in Hempty.
      apply negb_false_iff, String.eqb_eq in Hempty. subst c.
      split; [ reflexivity | exact I ].
  - destruct (truthyString (asString (getProp (getProp choice "delta") "role"))
              || truthyString None);
      cbn [fst snd accumulatedContent streamedText deltaText eventDelta
           deltaContent orDefault contentsAgree eventType];
      rewrite ?append_empty_r; (split; [ reflexivity | ]);
      try exact I; split; [ discriminate | exact I ].
Qed.

(** The completion block yields the accumulated content and no fragment. *)
Lemma applyFinish_content :
  forall providerName model st choice,
    streamedText (applyFinish providerName model st choice) = ""
    /\ contentsAgree (accumulatedContent st) (applyFinish providerName model st choice).
Proof.
  intros providerName model st choice. unfold applyFinish.
  destruct (getProp choice "finish_reason"); try (split; [ reflexivity | exact I ]).
  destruct (String.eqb s "stop"); [ | split; [ reflexivity | exact I ] ].
  split; [ reflexivity | ]. cbn [contentsAgree]. split; [ | exact I ].
  intros _. reflexivity.
Qed.

Lemma forEachChoice_content :
  forall providerName model choices st,
    let '(st2, events, _) := forEachChoice providerName model choices st in
    accumulatedContent st2 = (accumulatedContent st ++ streamedText events)%string
    /\ contentsAgree (accumulatedContent st) events.
Proof.
  intros providerName model.
  induction choices as [ | choice rest IH ]; intro st; cbn [forEachChoice].
  - cbn. rewrite append_empty_r. split; [ reflexivity | exact I ].
  - destruct (isNullish choice);
      [ cbn; rewrite append_empty_r; split; [ reflexivity | exact I ] | ].
    pose proof (applyDelta_content st choice) as [Hacc Hdelta].
    destruct (applyDelta st choice) as [st1 deltas]. cbn [fst snd] in Hacc, Hdelta.
    pose proof (applyFinish_content providerName model st1 choice) as [Hnone Hfinish].
    specialize (IH st1).
    destruct (forEachChoice providerName model rest st1) as [ [st2 later] err ].
    destruct IH as [Hacc2 Hlater].
    rewrite !streamedText_app, Hnone. cbn [append]. split.
    + rewrite Hacc2, Hacc, append_assoc_string. reflexivity.
    + apply contentsAgree_app; [ exact Hdelta | ]. rewrite <- Hacc.
      apply contentsAgree_app; [ exact Hfinish | ].
      rewrite Hnone, append_empty_r. exact Hlater.
Qed.

Lemma consume_content :
  forall providerName model source st,
    contentsAgree (accumulatedContent st) (emitted (consume providerName model source st)).
Proof.
  intros providerName model.
  induction source as [ | chunk rest IH ]; intro st; cbn [consume].
  - exact I.
  - destruct (extractDataPayload chunk) as [ data | ]; [ | apply IH ].
    destruct (String.eqb data ""); [ apply IH | ].
    destruct (String.eqb data "[DONE]"); [ exact I | ].
    destruct (JSON_parse data) as [ parsed | ]; [ | exact I ].
    destruct (isNullish parsed); [ exact I | ].
    pose proof (forEachChoice_content providerName model (choicesOf parsed)
                  (observeChunk st parsed)) as H.
    destruct (forEachChoice providerName model (choicesOf parsed) (observeChunk st parsed))
      as [ [st2 events] err ].
    cbn [observeChunk accumulatedContent] in H. destruct H as [Hacc Hevents].
    destruct err as [ e | ]; cbn [emitted]; [ exact Hevents | ].
    apply contentsAgree_app; [ exact Hevents | ]. rewrite <- Hacc. apply IH.
Qed.

(** X8.  In every run of the normalizer, the message of a completion event
    has as content the concatenation, in order, of the content fragments of
    the delta events emitted before it. *)
Theorem completion_content_is_streamed_text :
  forall source providerName model before event after,
    emitted (mapChatCompletionsStream source providerName model)
    = before ++ event :: after ->
    eventType event = completion ->
    messageContent event = Str (streamedText before).
Proof.
  intros source providerName model before event after Hrun Htype.
  pose proof (consume_content providerName model source initialStreamState) as H.
  fold (mapChatCompletionsStream source providerName model) in H.
  rewrite Hrun in H. cbn [initialStreamState accumulatedContent] in H. clear Hrun.
  change (streamedText before) with ("" ++ streamedText before)%string.
  revert H. generalize ""%string as acc.
  induction before as [ | e before IH ]; intros acc H; cbn [app contentsAgree] in H.
  - cbn [streamedText]. rewrite append_empty_r. apply (proj1 H Htype).
  - cbn [streamedText]. rewrite <- append_assoc_string. apply IH. apply (proj2 H).
Qed.

(** X9.  Nothing after the sentinel is read: two sources that agree up to
    and including a [DONE] block give the same run. *)
Theorem nothing_read_after_sentinel :
  forall providerName model before sentinel rest rest',
    isSentinel sentinel = true ->
    mapChatCompletionsStream (before ++ sentinel :: rest) providerName model
    = mapChatCompletionsStream (before ++ sentinel :: rest') providerName model.
Proof.
  intros providerName model before sentinel rest rest' Hsentinel.
  unfold mapChatCompletionsStream. generalize initialStreamState as st.
  unfold isSentinel in Hsentinel.
  destruct (extractDataPayload sentinel) as [ data | ] eqn:Hdata; [ | discriminate ].
  apply String.eqb_eq in Hsentinel. subst data.
  induction before as [ | chunk before IH ]; intro st; cbn [app consume].
  - rewrite Hdata. reflexivity.
  - destruct (extractDataPayload chunk) as [ data | ]; [ | apply IH ].
    destruct (String.eqb data ""); [ apply IH | ].
    destruct (String.eqb data "[DONE]"); [ reflexivity | ].
    destruct (JSON_parse data) as [ parsed | ]; [ | reflexivity ].
    destruct (isNullish parsed); [ reflexivity | ].
    destruct (forEachChoice providerName model (choicesOf parsed) (observeChunk st parsed))
      as [ [st2 events] err ].
    destruct err; [ reflexivity | ]. rewrite IH. reflexivity.
Qed.

Lemma forEachChoice_failure :
  forall providerName model choices st,
    let '(_, _, err) := forEachChoice providerName model choices st in
    forall e,
      err = Some e ->
      e = nullAccess /\ exists choice, In choice choices /\ isNullish choice = true.
Proof.
  intros providerName model.
  induction choices as [ | choice rest IH ]; intro st; cbn [forEachChoice].
  - intros e H. discriminate.
  - destruct (isNullish choice) eqn:Hnull.
    + intros e H. injection H as <-. split; [ reflexivity | ].
      exists choice. split; [ left; reflexivity | exact Hnull ].
    + destruct (applyDelta st choice) as [st1 deltas].
      specialize (IH st1).
      destruct (forEachChoice providerName model rest st1) as [ [st2 later] err ].
      intros e H. destruct (IH e H) as (He & c & Hin & Hc).
      split; [ exact He | ]. exists c. split; [ right; exact Hin | exact Hc ].
Qed.

(** On a source that delivers its chunks and ends, a run fails only in two
    ways, each caused by a chunk: with the TEMPORARY provider error for a
    payload that is not JSON, or with the TypeError of a property read when
    a payload is the JSON [null] or carries a [null] choice. *)
Lemma chunk_failure_origin :
  forall source providerName model error,
    failure (mapChatCompletionsStream source providerName model) = Some error ->
    exists chunk data,
      In chunk source
      /\ extractDataPayload chunk = Some data
      /\ ((error = parseFailure
           /\ classificationOf error = Some TEMPORARY
           /\ JSON_parse data = None)
          \/ (error = nullAccess
              /\ isProviderError error = false
              /\ exists parsed,
                   JSON_parse data = Some parsed
                   /\ (isNullish parsed = true
                       \/ exists choice,
                            In choice (choicesOf parsed) /\ isNullish choice = true))).
Proof.
  intros source providerName model error.
  unfold mapChatCompletionsStream. generalize initialStreamState as st.
  induction source as [ | chunk rest IH ]; intro st; cbn [consume failure].
  - discriminate.
  - assert (Hlater :
              forall st',
                failure (consume providerName model rest st') = Some error ->
                exists chunk0 data,
                  In chunk0 (chunk :: rest)
                  /\ extractDataPayload chunk0 = Some data
                  /\ ((error = parseFailure
                       /\ classificationOf error = Some TEMPORARY
                       /\ JSON_parse data = None)
                      \/ (error = nullAccess
                          /\ isProviderError error = false
                          /\ exists parsed,
                               JSON_parse data = Some parsed
                               /\ (isNullish parsed = true
                                   \/ exists choice,
                                        In choice (choicesOf parsed)
                                        /\ isNullish choice = true)))).
    { intros st' H. destruct (IH st' H) as (c & d & Hin & Hrest).
      exists c, d. split; [ right; exact Hin | exact Hrest ]. }
    destruct (extractDataPayload chunk) as [ data | ] eqn:Hdata; [ | apply Hlater ].
    destruct (String.eqb data ""); [ apply Hlater | ].
    destruct (String.eqb data "[DONE]"); [ discriminate | ].
    destruct (JSON_parse data) as [ parsed | ] eqn:Hparse.
    + destruct (isNullish parsed) eqn:Hnull.
      * cbn [failure]. intro H. injection H as <-.
        exists chunk, data. split; [ left; reflexivity | split; [ exact Hdata | ] ].
        right. split; [ reflexivity | split; [ reflexivity | ] ].
        exists parsed. split; [ exact Hparse | left; exact Hnull ].
      * pose proof (forEachChoice_failure providerName model (choicesOf parsed)
                      (observeChunk st parsed)) as Hchoices.
        destruct (forEachChoice providerName model (choicesOf parsed)
                    (observeChunk st parsed)) as [ [st2 events] err ].
        destruct err as [ e | ]; cbn [failure]; [ | apply Hlater ].
        intro H. injection H as ->.
        destruct (Hchoices error eq_refl) as (-> & choice & Hin & Hc).
        exists chunk, data. split; [ left; reflexivity | split; [ exact Hdata | ] ].
        right. split; [ reflexivity | split; [ reflexivity | ] ].
        exists parsed. split; [ exact Hparse | right ].
        exists choice. split; assumption.
    + cbn [failure]. intro H. injection H as <-.
      exists chunk, data. split; [ left; reflexivity | split; [ exact Hdata | ] ].
      left. split; [ reflexivity | split; [ reflexivity | exact Hparse ] ].
Qed.

(** The run on a source that may reject, by the run on its chunks. *)
Lemma consumeFrom_consume :
  forall providerName model chunks ending st,
    emitted (StreamSource.consumeFrom providerName model chunks ending st)
    = emitted (consume providerName model chunks st)
    /\ failure (StreamSource.consumeFrom providerName model chunks ending st)
       = match failure (consume providerName model chunks st) with
         | Some error => Some error
         | None => if existsb isSentinel chunks then None else ending
         end.
Proof.
  intros providerName model chunks ending.
  induction chunks as [ | chunk rest IH ]; intro st;
    cbn [StreamSource.consumeFrom consume existsb].
  - split; reflexivity.
  - unfold isSentinel at 1.
    destruct (extractDataPayload chunk) as [ data | ]; [ | apply IH ].
    destruct (String.eqb_spec data "") as [ -> | _ ]; [ apply IH | ].
    destruct (String.eqb data "[DONE]"); [ split; reflexivity | ].
    destruct (JSON_parse data) as [ parsed | ]; [ | split; reflexivity ].
    destruct (isNullish parsed); [ split; reflexivity | ].
    destruct (forEachChoice providerName model (choicesOf parsed) (observeChunk st parsed))
      as [ [st2 events] err ].
    destruct err as [ e | ]; [ split; reflexivity | ].
    destruct (IH st2) as [Hevents Hfailure]. cbn [emitted failure orb].
    rewrite Hevents. split; [ reflexivity | exact Hfailure ].
Qed.

(** X10.  Where the failure of a stream comes from.  Whether the source
    ends or rejects, the events are those of the chunks it delivered.  The
    run fails because of a chunk - with the TEMPORARY (hence retryable)
    provider error for a payload that is not JSON, or with the TypeError of
    a property read, no provider error, when a payload is the JSON [null]
    or carries a [null] choice - or else with the rejection of the source
    itself, thrown as it is, not wrapped in a provider error: this exactly
    when the source rejects after chunks that were all read without a
    failure and without the sentinel. *)
Theorem stream_failure_origin :
  forall source providerName model,
    let run := StreamSource.mapChatCompletionsStreamFrom source providerName model in
    let onChunks :=
      mapChatCompletionsStream (StreamSource.delivered source) providerName model in
    emitted run = emitted onChunks
    /\ failure run
       = match failure onChunks with
         | Some error => Some error
         | None =>
             if existsb isSentinel (StreamSource.delivered source)
             then None else StreamSource.rejection source
         end
    /\ forall error,
         failure onChunks = Some error ->
         exists chunk data,
           In chunk (StreamSource.delivered source)
           /\ extractDataPayload chunk = Some data
           /\ ((error = parseFailure
                /\ classificationOf error = Some TEMPORARY
                /\ JSON_parse data = None)
               \/ (error = nullAccess
                   /\ isProviderError error = false
                   /\ exists parsed,
                        JSON_parse data = Some parsed
                        /\ (isNullish parsed = true
                            \/ exists choice,
                                 In choice (choicesOf parsed)
                                 /\ isNullish choice = true))).
Proof.
  intros source providerName model run onChunks. subst run onChunks.
  unfold StreamSource.mapChatCompletionsStreamFrom.
  destruct (consumeFrom_consume providerName model (StreamSource.delivered source)
              (StreamSource.rejection source) initialStreamState) as [Hevents Hfailure].
  split; [ exact Hevents | split; [ exact Hfailure | ] ].
  intros error Herror.
  apply (chunk_failure_origin _ providerName model error Herror).
Qed.

(** The lines of a text that starts with a line without line feed. *)
Lemma split_single_line :
  forall line rest,
    singleLine line = true ->
    split LF (line ++ String LF rest) = line :: split LF rest.
Proof.
  induction line as [ | c line IH ]; intros rest Hline; cbn [append split].
  - reflexivity.
  - cbn [singleLine] in Hline. apply andb_prop in Hline as [Hc Hline].
    apply negb_true_iff in Hc. rewrite Hc, (IH rest Hline). reflexivity.
Qed.

Lemma trimStart_idempotent :
  forall s, trimStart (trimStart s) = trimStart s.
Proof.
  induction s as [ | c s IH ]; cbn [trimStart]; [ reflexivity | ].
  destruct (isWhiteSpace c) eqn:Hc; [ exact IH | ].
  cbn [trimStart]. rewrite Hc. reflexivity.
Qed.

(** X11.  The extractor reads back what SSE framing wrote: from the block
    [data: <payload>] followed by an empty line it extracts the payload,
    trimmed, whenever the payload has no line feed. *)
Theorem extractDataPayload_sse_block :
  forall payload,
    singleLine payload = true ->
    extractDataPayload (sseBlock payload) = Some (trim payload).
Proof.
  intros payload Hline. unfold extractDataPayload, sseBlock.
  change ("data: " ++ payload ++ String LF (String LF EmptyString))%string
    with (String "d" (String "a" (String "t" (String "a" (String ":" (String " "
            (payload ++ String LF (String LF EmptyString)))))))).
  assert (Hsplit :
            split LF (String "d" (String "a" (String "t" (String "a" (String ":" (String " "
                        (payload ++ String LF (String LF EmptyString))))))))
            = [String "d" (String "a" (String "t" (String "a" (String ":" (String " "
                 payload))))); ""; ""]).
  { change (String "d" (String "a" (String "t" (String "a" (String ":" (String " "
              (payload ++ String LF (String LF EmptyString))))))))
      with (("data: " ++ payload) ++ String LF (String LF EmptyString))%string.
    rewrite split_single_line; [ reflexivity | ].
    cbn. exact Hline. }
  rewrite Hsplit. cbn [filter startsWith prefix].
  cbn. change (isWhiteSpace " ") with true. cbv iota.
  unfold trim. rewrite trimStart_idempotent. reflexivity.
Qed.

End StreamFacts.

(** ** helpers.ts *)

Section HelperFacts.

Import Helpers HelpersSpec.

Lemma dropTrailingSlashes_slashes :
  forall n, dropTrailingSlashes (slashes n) = "".
Proof.
  induction n as [ | n IH ]; cbn [slashes dropTrailingSlashes]; [ reflexivity | ].
  rewrite IH. reflexivity.
Qed.

Lemma dropTrailingSlashes_app :
  forall s n, dropTrailingSlashes (s ++ slashes n) = dropTrailingSlashes s.
Proof.
  induction s as [ | c s IH ]; intro n; cbn [append dropTrailingSlashes].
  - apply dropTrailingSlashes_slashes.
  - rewrite IH. reflexivity.
Qed.

Lemma dropTrailingSlashes_fixed :
  forall s, endsWithSlash s = false -> dropTrailingSlashes s = s.
Proof.
  induction s as [ | c s IH ]; intro H; cbn [dropTrailingSlashes]; [ reflexivity | ].
  destruct s as [ | c' s' ].
  - cbn [endsWithSlash] in H. cbn [dropTrailingSlashes]. rewrite H. reflexivity.
  - rewrite IH by exact H. reflexivity.
Qed.

Lemma dropLeadingSlashes_app :
  forall n s, dropLeadingSlashes (slashes n ++ s) = dropLeadingSlashes s.
Proof.
  induction n as [ | n IH ]; intro s; cbn [slashes append dropLeadingSlashes];
    [ reflexivity | apply IH ].
Qed.

Lemma dropLeadingSlashes_fixed :
  forall s, startsWith "/" s = false -> dropLeadingSlashes s = s.
Proof.
  intros [ | c s ] H; cbn [dropLeadingSlashes]; [ reflexivity | ].
  unfold startsWith in H. cbn [prefix] in H.
  destruct (Ascii.ascii_dec "/" c) as [ <- | Hne ].
  - destruct s; discriminate.
  - assert (E : Ascii.eqb c "/" = false) by (apply Ascii.eqb_neq; congruence).
    rewrite E. reflexivity.
Qed.

(** X12.  [joinUrl] does not depend on how many slashes end the base URL
    or begin the path: it joins the base without its trailing slashes and
    the path without its leading slashes by exactly one slash. *)
Theorem joinUrl_single_slash :
  forall base path n m,
    endsWithSlash base = false ->
    startsWith "/" path = false ->
    joinUrl (base ++ slashes n) (slashes m ++ path) = (base ++ "/" ++ path)%string.
Proof.
  intros base path n m Hbase Hpath. unfold joinUrl.
  rewrite dropTrailingSlashes_app, dropLeadingSlashes_app.
  rewrite (dropTrailingSlashes_fixed base Hbase), (dropLeadingSlashes_fixed path Hpath).
  reflexivity.
Qed.

End HelperFacts.

(** ** The OpenAI adapter behind the orchestrator *)

Section EndToEnd.

Import Orchestrator Helpers HttpClient OpenAIClass Transport WireScenario.

Context {RT : Runtime}.

(** When every call of the operation throws the same retryable provider
    error, the loop makes all the remaining attempts and then raises the
    exhaustion error. *)
Lemma retryLoop_constant_failure :
  forall (U T : Type) (operation : M U T) key maxAttempts error
         (step : World U -> World U),
    (forall w, operation w = (Threw error, step w)) ->
    isProviderError error = true ->
    retryableError error = true ->
    forall budget attempt last (w : World U),
      0 <= attempt < maxAttempts ->
      (Z.to_nat (maxAttempts - attempt) <= budget)%nat ->
      retryLoop budget operation key maxAttempts attempt last w
      = (Threw (exhausted key maxAttempts (Some error)),
         Nat.iter (Z.to_nat (maxAttempts - attempt)) step w).
Proof.
  intros U T operation key maxAttempts error step Hop Hprov Hretry.
  induction budget as [ | budget IH ]; intros attempt last w Hrange Hbudget; [ lia | ].
  cbn [retryLoop].
  destruct (Z.ltb_spec attempt maxAttempts) as [ _ | ]; [ | lia ].
  rewrite Hop, Hprov, Hretry.
  destruct (Z.ltb_spec (attempt + 1) maxAttempts) as [ Hmore | Hlast ].
  - rewrite IH by lia.
    replace (Z.to_nat (maxAttempts - attempt))
      with (S (Z.to_nat (maxAttempts - (attempt + 1)))) by lia.
    rewrite Nat.iter_succ_r. reflexivity.
  - replace (Z.to_nat (maxAttempts - attempt)) with 1%nat by lia. reflexivity.
Qed.

(** Sending the same request [n] times. *)
Lemma iter_sent :
  forall (A : Type) (sent : A) (call : AdapterCall) n (w : World (list A)),
    Nat.iter n (fun w0 => {| upstream := upstream w0 ++ [sent];
                             calls := calls w0 ++ [call] |}) w
    = {| upstream := upstream w ++ repeat sent n; calls := calls w ++ repeat call n |}.
Proof.
  intros A sent call. induction n as [ | n IH ]; intro w.
  - cbn [Nat.iter nat_rect repeat]. rewrite !app_nil_r. destruct w; reflexivity.
  - rewrite Nat.iter_succ_r, IH. cbn [upstream calls repeat].
    rewrite <- !app_assoc. reflexivity.
Qed.

(** A chat dispatch to an adapter whose chat throws the same provider
    error at every call, sending one request each time. *)
Lemma dispatchChat_constant_failure :
  forall (A : Type) config (adapters : list (ProviderAdapter (list A))) request routing
         adapter entry error sent (w : World (list A)),
    resolveRoutingSelection "chat" (provider request) (model request) (providers config)
    = Returned routing ->
    selectAdapter (providerKey routing) (lookup (providerKey routing) (providers config))
                  adapters "chat" = Returned adapter ->
    lookup (providerKey routing) (providers config) = Some entry ->
    let normalizedRequest :=
      normalizeChatRequest request (providerKey routing) entry
                           (Some (selectedModel routing)) in
    (forall u, Orchestrator.chat adapter normalizedRequest u = (Threw error, u ++ [sent])) ->
    isProviderError error = true ->
    let n := if retryableError error
             then Z.to_nat (resolveMaxAttempts config) else 1%nat in
    dispatchChat config adapters request w
    = (Threw (if retryableError error
              then exhausted (providerKey routing) (resolveMaxAttempts config) (Some error)
              else error),
       {| upstream := upstream w ++ repeat sent n;
          calls := calls w ++ repeat (ChatCall (name adapter) normalizedRequest) n |}).
Proof.
  intros A config adapters request routing adapter entry error sent w
         Hroute Hselect Hentry normalizedRequest Hchat Hprov n.
  pose proof (resolveMaxAttempts_at_least_one config) as Hpos.
  unfold dispatchChat, bind, lift. rewrite Hroute, Hselect, Hentry.
  cbn [configured ret]. fold normalizedRequest. unfold executeWithRetry.
  assert (Hop : forall w0 : World (list A),
             invokeChat adapter normalizedRequest w0
             = (Threw error,
                {| upstream := upstream w0 ++ [sent];
                   calls := calls w0 ++ [ChatCall (name adapter) normalizedRequest] |})).
  { intro w0. unfold invokeChat. rewrite Hchat. reflexivity. }
  subst n. destruct (retryableError error) eqn:Hretry.
  - rewrite (retryLoop_constant_failure _ _ _ _ _ _ _ Hop Hprov Hretry) by lia.
    rewrite Z.sub_0_r, iter_sent. reflexivity.
  - destruct (Z.to_nat (resolveMaxAttempts config)) as [ | budget ] eqn:Hbudget; [ lia | ].
    erewrite retryLoop_not_retried;
      [ reflexivity | lia | apply Hop | rewrite Hretry; apply andb_false_r ].
Qed.

(** The classification behind each gateway status. *)
Lemma gatewayStatus_classification :
  forall status,
    mapProviderErrorToStatus
      (ProviderErrorObj "" (mapStatusToClassification status) None None)
    = gatewayStatus status
    /\ isRetryable (mapStatusToClassification status) = retriedStatus status.
Proof.
  intro status. unfold mapStatusToClassification, gatewayStatus, retriedStatus.
  destruct (Z.eqb_spec status 401), (Z.eqb_spec status 403), (Z.eqb_spec status 429),
    (Z.leb_spec 500 status), (Z.leb_spec 400 status), (Z.ltb_spec status 400);
    cbn; try lia; split; reflexivity.
Qed.

(** X13.  End to end, for an OpenAI provider whose API key is set and whose
    upstream answers every request with the same status outside 200-299:
    a chat dispatch sends the same request - to the chat/completions URL,
    with the bearer key - once if the status is a 4xx other than 429, and
    as many times as the configured maximum of attempts otherwise (a
    maximum of at most [2^53], up to which the source's counter is exact), then
    throws a provider error with the classification of the status, which
    the gateway answers with 502 (for 401, 403), 429 (for 429), 422 (for
    the other 4xx) or 503 (for the rest). *)
Theorem upstream_status_end_to_end :
  forall config adapters request routing entry secret code answer
         (w : World Wire),
    resolveRoutingSelection "chat" (provider request) (model request) (providers config)
    = Returned routing ->
    lookup (providerKey routing) (providers config) = Some entry ->
    selectAdapter (providerKey routing) (Some entry) adapters "chat"
    = Returned (adapter entry
                  (answering (Some secret)
                     (fun _ _ => {| status := code; responseBody := answer |}))) ->
    secret <> "" ->
    notOk code = true ->
    resolveMaxAttempts config <= 2 ^ 53 ->
    let normalizedRequest :=
      normalizeChatRequest request (providerKey routing) entry
                           (Some (selectedModel routing)) in
    let sent :=
      (joinUrl (baseUrl entry) "chat/completions",
       {| headers := requestHeaders secret;
          body := buildOpenAIRequestBody normalizedRequest |}) in
    let n := if retriedStatus code
             then Z.to_nat (resolveMaxAttempts config) else 1%nat in
    exists thrown,
      dispatchChat config adapters request w
      = (Threw thrown,
         {| upstream := upstream w ++ repeat sent n;
            calls := calls w ++ repeat (ChatCall "openai" normalizedRequest) n |})
      /\ classificationOf thrown = Some (mapStatusToClassification code)
      /\ mapProviderErrorToStatus thrown = gatewayStatus code.
Proof.
  intros config adapters request routing entry secret code answer w
         Hroute Hentry Hselect Hsecret Hcode Hexact normalizedRequest sent n.
  rewrite <- Hentry in Hselect.
  pose proof (dispatchChat_constant_failure _ config adapters request routing _ entry
                (createHttpError "openai" code answer) sent w Hroute Hselect Hentry)
    as Hdispatch.
  cbn zeta in Hdispatch. fold normalizedRequest in Hdispatch.
  destruct (gatewayStatus_classification code) as [Hgateway Hretried].
  assert (Hretry : retryableError (createHttpError "openai" code answer)
                   = retriedStatus code).
  { unfold retryableError, createHttpError. cbn [classificationOf]. exact Hretried. }
  rewrite Hretry in Hdispatch. subst n.
  eexists. split; [ apply Hdispatch | ].
  - intro u. cbn [adapter Orchestrator.chat]. unfold OpenAIClass.chat.
    cbn [answering getSecret post]. unfold truthyString.
    apply String.eqb_neq in Hsecret. rewrite Hsecret. cbn [negb status responseBody].
    rewrite Hcode. reflexivity.
  - reflexivity.
  - destruct (retriedStatus code); cbn [classificationOf exhausted createHttpError orDefault];
      (split; [ reflexivity | exact Hgateway ]).
Qed.


(** X14.  A success status whose body carries no completion message is a
    transient failure like any other: with the same upstream answer at
    every request, the chat dispatch sends the request as many times as the
    configured maximum of attempts (a maximum of at most [2^53], up to
    which the source's counter is exact), then throws a TEMPORARY provider
    error, which the gateway answers with 503. *)
Theorem malformed_success_is_retried :
  forall config adapters request routing entry secret code answer error
         (w : World Wire),
    resolveRoutingSelection "chat" (provider request) (model request) (providers config)
    = Returned routing ->
    lookup (providerKey routing) (providers config) = Some entry ->
    selectAdapter (providerKey routing) (Some entry) adapters "chat"
    = Returned (adapter entry
                  (answering (Some secret)
                     (fun _ _ => {| status := code; responseBody := answer |}))) ->
    secret <> "" ->
    notOk code = false ->
    normalizeOpenAIResponse answer "openai" = Threw error ->
    resolveMaxAttempts config <= 2 ^ 53 ->
    let normalizedRequest :=
      normalizeChatRequest request (providerKey routing) entry
                           (Some (selectedModel routing)) in
    let sent :=
      (joinUrl (baseUrl entry) "chat/completions",
       {| headers := requestHeaders secret;
          body := buildOpenAIRequestBody normalizedRequest |}) in
    let n := Z.to_nat (resolveMaxAttempts config) in
    exists thrown,
      dispatchChat config adapters request w
      = (Threw thrown,
         {| upstream := upstream w ++ repeat sent n;
            calls := calls w ++ repeat (ChatCall "openai" normalizedRequest) n |})
      /\ classificationOf thrown = Some TEMPORARY
      /\ mapProviderErrorToStatus thrown = 503.
Proof.
  intros config adapters request routing entry secret code answer error w
         Hroute Hentry Hselect Hsecret Hcode Hbody Hexact normalizedRequest sent n.
  rewrite <- Hentry in Hselect.
  assert (Hclass : classificationOf error = Some TEMPORARY /\ isProviderError error = true).
  { revert Hbody. unfold normalizeOpenAIResponse.
    destruct (negb (truthy answer) || negb (isObjectType answer));
      [ intro H; injection H as <-; split; reflexivity | ].
    match goal with |- context [if negb (truthy ?m) then _ else _] =>
      destruct (negb (truthy m)) end;
      [ intro H; injection H as <-; split; reflexivity | discriminate ]. }
  destruct Hclass as [Hclass Hprov].
  assert (Hretry : retryableError error = true).
  { unfold retryableError. rewrite Hclass. reflexivity. }
  pose proof (dispatchChat_constant_failure _ config adapters request routing _ entry
                error sent w Hroute Hselect Hentry) as Hdispatch.
  cbn zeta in Hdispatch. fold normalizedRequest in Hdispatch.
  rewrite Hretry in Hdispatch. subst n.
  eexists. split; [ apply Hdispatch | ].
  - intro u. cbn [adapter Orchestrator.chat]. unfold OpenAIClass.chat.
    cbn [answering getSecret post]. unfold truthyString.
    apply String.eqb_neq in Hsecret. rewrite Hsecret. cbn [negb status responseBody].
    rewrite Hcode, Hbody. reflexivity.
  - exact Hprov.
  - unfold mapProviderErrorToStatus. cbn [classificationOf exhausted].
    rewrite Hclass. split; reflexivity.
Qed.

Section AnyDependencies.

Variable Net : Type.
Variable deps : AdapterDependencies Net.

(** X15.  Without an API key the OpenAI adapter sends nothing: the chat
    dispatch calls the adapter once, which only asks for the secret, and
    throws the CONFIG provider error at once - never retried, whatever
    maximum is configured - which the gateway answers with 500. *)
Theorem missing_key_end_to_end :
  forall config adapters request routing entry secret after (w : World Net),
    resolveRoutingSelection "chat" (provider request) (model request) (providers config)
    = Returned routing ->
    lookup (providerKey routing) (providers config) = Some entry ->
    selectAdapter (providerKey routing) (Some entry) adapters "chat"
    = Returned (adapter entry deps) ->
    getSecret deps "OPENAI_API_KEY" (upstream w) = (Fulfilled secret, after) ->
    truthyString secret = false ->
    dispatchChat config adapters request w
    = (Threw (keyMissing),
       {| upstream := after;
          calls := calls w
                   ++ [ChatCall "openai"
                         (normalizeChatRequest request (providerKey routing) entry
                            (Some (selectedModel routing)))] |})
    /\ classificationOf keyMissing = Some CONFIG
    /\ mapProviderErrorToStatus keyMissing = 500.
Proof.
  intros config adapters request routing entry secret after w
         Hroute Hentry Hselect Hsecret Hnone.
  rewrite <- Hentry in Hselect.
  pose proof (resolveMaxAttempts_at_least_one config) as Hpos.
  split; [ | split; reflexivity ].
  unfold dispatchChat, bind, lift. rewrite Hroute, Hselect, Hentry.
  cbn [configured ret]. unfold executeWithRetry.
  destruct (Z.to_nat (resolveMaxAttempts config)) as [ | budget ] eqn:Hbudget; [ lia | ].
  erewrite retryLoop_not_retried; [ reflexivity | lia | | reflexivity ].
  unfold invokeChat. cbn [adapter Orchestrator.chat Orchestrator.name].
  unfold OpenAIClass.chat. rewrite Hsecret, Hnone. reflexivity.
Qed.

(** X16.  End to end, a success: when the key is set and the upstream
    answers the request with a status in 200-299 and a body that carries a
    completion message, the chat dispatch makes one call and one request,
    and returns that message with one attempt, the upstream's trace id, the
    provider named openai and the routing of the dispatch. *)
Theorem chat_success_end_to_end :
  forall config adapters request routing entry secret code answer response
         net1 net2 (w : World Net),
    resolveRoutingSelection "chat" (provider request) (model request) (providers config)
    = Returned routing ->
    lookup (providerKey routing) (providers config) = Some entry ->
    selectAdapter (providerKey routing) (Some entry) adapters "chat"
    = Returned (adapter entry deps) ->
    let normalizedRequest :=
      normalizeChatRequest request (providerKey routing) entry
                           (Some (selectedModel routing)) in
    getSecret deps "OPENAI_API_KEY" (upstream w) = (Fulfilled (Some secret), net1) ->
    secret <> "" ->
    post deps (joinUrl (baseUrl entry) "chat/completions")
         {| headers := requestHeaders secret;
            body := buildOpenAIRequestBody normalizedRequest |} net1
    = (Fulfilled {| status := code; responseBody := answer |}, net2) ->
    notOk code = false ->
    normalizeOpenAIResponse answer "openai" = Returned response ->
    exists result,
      dispatchChat config adapters request w
      = (Returned result,
         {| upstream := net2; calls := calls w ++ [ChatCall "openai" normalizedRequest] |})
      /\ attempts result = Some 1
      /\ Orchestrator.traceId result = orDefault (asString (getProp answer "id")) ""
      /\ getProp (payload result) "message"
         = getProp (nth 0 (OpenAIAdapter.choicesOf answer) Undefined) "message"
      /\ truthy (getProp (payload result) "message") = true
      /\ getProp (payload result) "providerInfo"
         = Obj [("name", Str "openai");
                ("model", getProp answer "model");
                ("routing",
                 Obj [("capability", Str "chat");
                      ("strategy", Str (strategyName (strategy routing)))])].
Proof.
  intros config adapters request routing entry secret code answer response net1 net2 w
         Hroute Hentry Hselect normalizedRequest Hsecret Hkey Hpost Hcode Hbody.
  rewrite <- Hentry in Hselect.
  pose proof (resolveMaxAttempts_at_least_one config) as Hpos.
  unfold dispatchChat, bind, lift. rewrite Hroute, Hselect, Hentry.
  cbn [configured ret]. fold normalizedRequest. unfold executeWithRetry.
  destruct (Z.to_nat (resolveMaxAttempts config)) as [ | budget ] eqn:Hbudget; [ lia | ].
  cbn [retryLoop].
  destruct (Z.ltb_spec 0 (resolveMaxAttempts config)) as [ _ | ]; [ | lia ].
  unfold invokeChat. cbn [adapter Orchestrator.chat Orchestrator.name].
  unfold OpenAIClass.chat. rewrite Hsecret. unfold truthyString.
  apply String.eqb_neq in Hkey. rewrite Hkey. cbn [negb].
  rewrite Hpost. cbn [status responseBody]. rewrite Hcode, Hbody.
  eexists. split; [ reflexivity | ].
  revert Hbody. unfold normalizeOpenAIResponse.
  destruct (negb (truthy answer) || negb (isObjectType answer)); [ discriminate | ].
  set (first := nth 0 (OpenAIAdapter.choicesOf answer) Undefined).
  destruct (isNullish first) eqn:Hnull; [ cbn; discriminate | ].
  destruct (truthy (getProp first "message")) eqn:Hmessage; cbn [negb]; [ | discriminate ].
  intro H. injection H as <-.
  cbn [attempts Orchestrator.traceId payload].
  split; [ reflexivity | split; [ reflexivity | ] ].
  unfold attachRoutingMetadata. cbn -[first].
  split; [ reflexivity | split; [ exact Hmessage | reflexivity ] ].
Qed.

End AnyDependencies.

End EndToEnd.

(** ** Embeddings and streaming through the OpenAI adapter *)

Section AdapterFacts.

Import Orchestrator Helpers HttpClient OpenAIClass Transport WireScenario.

Context {RT : Runtime}.

(** X17.  The usage reported for embeddings agrees with the usage a chat
    response would report from the same raw object wherever it reports
    something: the input count always, the output count and the total when
    present.  It leaves the output count out exactly when upstream gave no
    numeric one, and then reports a total only if upstream gave a numeric
    total. *)
Theorem embedding_usage_agrees_with_chat_usage :
  forall raw : Value,
    let base := OpenAIAdapter.usageBase raw in
    let usage := normalizeEmbeddingUsage raw in
    let chatUsage := OpenAIAdapter.normalizeChatUsage raw in
    embedInputTokens usage = OpenAIAdapter.inputTokens chatUsage
    /\ (forall o, embedOutputTokens usage = Some o ->
                  o = OpenAIAdapter.outputTokens chatUsage)
    /\ (forall t, embedTotalTokens usage = Some t ->
                  OpenAIAdapter.totalTokens chatUsage = Some t)
    /\ (embedOutputTokens usage = None <->
        OpenAIAdapter.toNumber (getProp base "completion_tokens") = None
        /\ OpenAIAdapter.toNumber (getProp base "output_tokens") = None)
    /\ (embedOutputTokens usage = None ->
        embedTotalTokens usage
        = option_map OpenAIAdapter.clampNonNegative
            (OpenAIAdapter.toNumber (getProp base "total_tokens"))).
Proof.
  intro raw. cbn zeta.
  unfold normalizeEmbeddingUsage, OpenAIAdapter.normalizeChatUsage, OpenAIAdapter.rawOutput.
  cbn [embedInputTokens embedOutputTokens embedTotalTokens OpenAIAdapter.inputTokens
       OpenAIAdapter.outputTokens OpenAIAdapter.totalTokens].
  set (base := OpenAIAdapter.usageBase raw).
  assert (Hinput : isFinite (OpenAIAdapter.rawInput base) = true).
  { unfold OpenAIAdapter.rawInput.
    destruct (OpenAIAdapter.toNumber (getProp base "prompt_tokens")) as [ x | ] eqn:E1;
      [ apply (toNumber_finite _ _ E1) | ].
    destruct (OpenAIAdapter.toNumber (getProp base "input_tokens")) as [ x | ] eqn:E2;
      [ apply (toNumber_finite _ _ E2) | reflexivity ]. }
  set (output := orElse (OpenAIAdapter.toNumber (getProp base "completion_tokens"))
                        (OpenAIAdapter.toNumber (getProp base "output_tokens"))).
  assert (Houtput : forall o, output = Some o -> isFinite o = true).
  { intros o. subst output.
    destruct (OpenAIAdapter.toNumber (getProp base "completion_tokens")) as [ x | ] eqn:E1;
      cbn [orElse].
    - rewrite <- E1. apply toNumber_finite.
    - apply toNumber_finite. }
  split; [ reflexivity | ].
  split.
  { intros o H. destruct output as [ x | ]; cbn [option_map orDefault] in *;
      [ injection H as <-; reflexivity | discriminate ]. }
  split.
  { intros t. rewrite Hinput.
    destruct (OpenAIAdapter.toNumber (getProp base "total_tokens")) as [ total | ];
      cbn [orElse option_map]; [ intro H; exact H | ].
    destruct output as [ x | ] eqn:Hx; cbn [option_map orDefault]; [ | discriminate ].
    rewrite (Houtput x eq_refl). cbn [andb option_map]. intro H; exact H. }
  split.
  { subst output.
    destruct (OpenAIAdapter.toNumber (getProp base "completion_tokens")) as [ x | ];
      cbn [orElse option_map].
    - split; [ discriminate | intros [H _]; discriminate ].
    - destruct (OpenAIAdapter.toNumber (getProp base "output_tokens")) as [ y | ];
        cbn [option_map].
      + split; [ discriminate | intros [_ H]; discriminate ].
      + split; [ intros _; split; reflexivity | reflexivity ]. }
  destruct output as [ x | ]; cbn [option_map]; [ discriminate | ].
  intros _.
  destruct (OpenAIAdapter.toNumber (getProp base "total_tokens")); reflexivity.
Qed.

(** The vectors [embeddingsOf] returns are the embedding arrays of the
    entries, in order; it throws when some entry has none. *)
Lemma embeddingsOf_cases :
  forall data,
    match embeddingsOf data with
    | Returned vectors =>
        vectors = map (fun entry => getProp entry "embedding") data
        /\ forallb (fun entry => isArray (getProp entry "embedding")) data = true
    | Threw error =>
        classificationOf error = Some TEMPORARY
        /\ forallb (fun entry => truthy entry && isObjectType entry
                                 && isArray (getProp entry "embedding")) data = false
    | Unsettled => False
    end.
Proof.
  induction data as [ | entry rest IH ]; cbn [embeddingsOf map forallb].
  - split; reflexivity.
  - destruct (truthy entry); cbn [negb orb andb]; [ | split; reflexivity ].
    destruct (isObjectType entry); cbn [negb orb andb]; [ | split; reflexivity ].
    destruct (isArray (getProp entry "embedding")); cbn [negb orb andb];
      [ | split; reflexivity ].
    destruct (embeddingsOf rest) as [ vectors | error | ]; [ | exact IH | exact IH ].
    destruct IH as [-> Hall]. split; [ reflexivity | exact Hall ].
Qed.

(** X18.  An embeddings response is all or nothing: it either carries
    exactly one vector for each entry of the upstream [data] array, in
    order - the entry's [embedding] array - together with the request id as
    trace id, or it fails with a TEMPORARY provider error; it never returns
    part of the vectors. *)
Theorem embeddings_response_all_or_nothing :
  forall body traceId providerName model,
    let data := match getProp body "data" with Arr items => items | _ => [] end in
    match normalizeEmbeddingsResponse body traceId providerName model with
    | Returned response =>
        getProp (payload response) "vectors"
        = Arr (map (fun entry => getProp entry "embedding") data)
        /\ forallb (fun entry => isArray (getProp entry "embedding")) data = true
        /\ Orchestrator.traceId response = traceId
    | Threw error =>
        classificationOf error = Some TEMPORARY
        /\ (truthy body && isObjectType body = false
            \/ forallb (fun entry => truthy entry && isObjectType entry
                                     && isArray (getProp entry "embedding")) data = false)
    | Unsettled => False
    end.
Proof.
  intros body traceId providerName model data. unfold normalizeEmbeddingsResponse.
  destruct (truthy body); cbn [negb orb andb];
    [ | split; [ reflexivity | left; reflexivity ] ].
  destruct (isObjectType body); cbn [negb orb andb];
    [ | split; [ reflexivity | left; reflexivity ] ].
  fold data. pose proof (embeddingsOf_cases data) as H.
  destruct (embeddingsOf data) as [ vectors | error | ].
  - destruct H as [-> Hall]. repeat split; assumption.
  - destruct H as [Hclass Hbad]. split; [ exact Hclass | right; exact Hbad ].
  - exact H.
Qed.

(** X19.  End to end, embeddings are never retried: with the key set and
    an upstream that answers with a status outside 200-299, an embed
    dispatch sends one request to the embeddings URL and throws the
    provider error of that status as it is - also for 429 and 5xx, which a
    chat dispatch would retry. *)
Theorem embed_status_end_to_end :
  forall config adapters request routing entry secret code answer
         (w : World Wire),
    resolveRoutingSelection "embed" (embedProvider request) (embedModel request)
                            (providers config) = Returned routing ->
    lookup (providerKey routing) (providers config) = Some entry ->
    selectAdapter (providerKey routing) (Some entry) adapters "embed"
    = Returned (adapter entry
                  (answering (Some secret)
                     (fun _ _ => {| status := code; responseBody := answer |}))) ->
    secret <> "" ->
    notOk code = true ->
    let normalizedRequest :=
      normalizeEmbedRequest request (providerKey routing) entry
                            (Some (selectedModel routing)) in
    dispatchEmbed config adapters request w
    = (Threw (createHttpError "openai" code answer),
       {| upstream := upstream w
                      ++ [(joinUrl (baseUrl entry) "embeddings",
                           {| headers := requestHeaders secret;
                              body := embedRequestBody normalizedRequest |})];
          calls := calls w ++ [EmbedCall "openai" normalizedRequest] |})
    /\ classificationOf (createHttpError "openai" code answer)
       = Some (mapStatusToClassification code)
    /\ mapProviderErrorToStatus (createHttpError "openai" code answer)
       = gatewayStatus code.
Proof.
  intros config adapters request routing entry secret code answer w
         Hroute Hentry Hselect Hsecret Hcode normalizedRequest.
  rewrite <- Hentry in Hselect.
  split; [ | split; [ reflexivity | ] ].
  - unfold dispatchEmbed, bind, lift. rewrite Hroute, Hselect, Hentry.
    cbn [adapter Orchestrator.embed configured ret]. fold normalizedRequest.
    unfold invokeEmbed, OpenAIClass.embed.
    cbn [answering getSecret post Orchestrator.name]. unfold truthyString.
    apply String.eqb_neq in Hsecret. rewrite Hsecret. cbn [negb status responseBody].
    rewrite Hcode. reflexivity.
  - unfold mapProviderErrorToStatus, createHttpError. cbn [classificationOf].
    apply (proj1 (gatewayStatus_classification code)).
Qed.

End AdapterFacts.

Section StreamEndToEnd.

Import Orchestrator Helpers HttpClient OpenAIClass.

Context {RT : Runtime}.

(** Every completion event of a run of the normalizer is the completion
    event of some state of its variables. *)
Lemma forEachChoice_completions :
  forall providerName model choices st event,
    In event (snd (fst (OpenAIAdapter.forEachChoice providerName model choices st))) ->
    OpenAIAdapter.eventType event = OpenAIAdapter.completion ->
    exists st', event = OpenAIAdapter.completionEvent providerName model st'.
Proof.
  intros providerName model.
  induction choices as [ | choice rest IH ]; intros st event;
    cbn [OpenAIAdapter.forEachChoice].
  - intros [].
  - destruct (isNullish choice); [ intros [] | ].
    pose proof (applyDelta_types st choice) as Hdelta.
    destruct (OpenAIAdapter.applyDelta st choice) as [st1 deltas]. cbn [snd] in Hdelta.
    specialize (IH st1 event).
    destruct (OpenAIAdapter.forEachChoice providerName model rest st1)
      as [ [st2 later] err ].
    cbn [fst snd] in *. intros Hin Htype.
    apply in_app_or in Hin as [ Hin | Hin ].
    + exfalso. apply (in_map OpenAIAdapter.eventType) in Hin.
      rewrite Hdelta, Htype in Hin.
      destruct (OpenAIAdapter.hasFragment choice); cbn in Hin;
        [ destruct Hin as [ H | [] ]; discriminate | contradiction ].
    + apply in_app_or in Hin as [ Hin | Hin ]; [ | apply IH; assumption ].
      unfold OpenAIAdapter.applyFinish in Hin.
      destruct (getProp choice "finish_reason"); try contradiction.
      destruct (String.eqb s "stop"); [ | contradiction ].
      destruct Hin as [ <- | [] ]. exists st1. reflexivity.
Qed.

Lemma consume_completions :
  forall providerName model source st event,
    In event (OpenAIAdapter.emitted (OpenAIAdapter.consume providerName model source st)) ->
    OpenAIAdapter.eventType event = OpenAIAdapter.completion ->
    exists st', event = OpenAIAdapter.completionEvent providerName model st'.
Proof.
  intros providerName model.
  induction source as [ | chunk rest IH ]; intros st event; cbn [OpenAIAdapter.consume].
  - intros [].
  - destruct (OpenAIAdapter.extractDataPayload chunk) as [ data | ]; [ | apply IH ].
    destruct (String.eqb data ""); [ apply IH | ].
    destruct (String.eqb data "[DONE]"); [ intros [] | ].
    destruct (JSON_parse data) as [ parsed | ]; [ | intros [] ].
    destruct (isNullish parsed); [ intros [] | ].
    pose proof (forEachChoice_completions providerName model
                  (OpenAIAdapter.choicesOf parsed)
                  (OpenAIAdapter.observeChunk st parsed) event) as Hchoices.
    destruct (OpenAIAdapter.forEachChoice providerName model
                (OpenAIAdapter.choicesOf parsed) (OpenAIAdapter.observeChunk st parsed))
      as [ [st2 events] err ].
    cbn [fst snd] in Hchoices.
    destruct err as [ e | ]; cbn [OpenAIAdapter.emitted]; [ exact Hchoices | ].
    intros Hin Htype. apply in_app_or in Hin as [ Hin | Hin ];
      [ apply Hchoices; assumption | apply (IH st2 event); assumption ].
Qed.

Variable Net : Type.
Variable deps : AdapterDependencies Net.

(** X20.  End to end, a stream: when the key is set and the HTTP client
    streams, a streaming dispatch sends one request - the chat body with
    [stream: true] - and returns the events the normalizer makes of the
    chunks delivered, in order, with the failure of that run if any; every
    completion event among them carries the provider name openai, the
    routed model and the routing of the dispatch. *)
Theorem stream_end_to_end :
  forall config adapters request routing entry secret method chunks net1 net2
         (w : World Net),
    resolveRoutingSelection "chatStream" (provider request) (model request)
                            (providers config) = Returned routing ->
    lookup (providerKey routing) (providers config) = Some entry ->
    selectAdapter (providerKey routing) (Some entry) adapters "chat"
    = Returned (adapter entry deps) ->
    let normalizedRequest :=
      normalizeChatRequest request (providerKey routing) entry
                           (Some (selectedModel routing)) in
    getSecret deps "OPENAI_API_KEY" (upstream w) = (Fulfilled (Some secret), net1) ->
    secret <> "" ->
    postStream deps = Some method ->
    method (joinUrl (baseUrl entry) "chat/completions")
           {| headers := requestHeaders secret;
              body := Obj (setProp "stream" (Bool true)
                             (ownEntries (buildOpenAIRequestBody normalizedRequest))) |}
           net1
    = (Fulfilled chunks, net2) ->
    let run :=
      OpenAIAdapter.mapChatCompletionsStream chunks "openai"
                                             (Some (selectedModel routing)) in
    exists result,
      dispatchChatStream config adapters request w
      = (Returned result,
         {| upstream := net2;
            calls := calls w ++ [ChatStreamCall "openai" normalizedRequest] |})
      /\ map OpenAIAdapter.eventType (OpenAIAdapter.emitted result)
         = map OpenAIAdapter.eventType (OpenAIAdapter.emitted run)
      /\ map OpenAIAdapter.eventDelta (OpenAIAdapter.emitted result)
         = map OpenAIAdapter.eventDelta (OpenAIAdapter.emitted run)
      /\ OpenAIAdapter.failure result = OpenAIAdapter.failure run
      /\ forall event,
           In event (OpenAIAdapter.emitted result) ->
           OpenAIAdapter.eventType event = OpenAIAdapter.completion ->
           exists message usage,
             OpenAIAdapter.eventPayload event
             = Some (Obj [("message", message);
                          ("usage", usage);
                          ("providerInfo",
                           Obj [("name", Str "openai");
                                ("model", Str (selectedModel routing));
                                ("routing",
                                 Obj [("capability", Str "chatStream");
                                      ("strategy",
                                       Str (strategyName (strategy routing)))])])]).
Proof.
  intros config adapters request routing entry secret method chunks net1 net2 w
         Hroute Hentry Hselect normalizedRequest Hsecret Hkey Hstream Hmethod run.
  rewrite <- Hentry in Hselect.
  unfold dispatchChatStream, bind, lift. rewrite Hroute, Hselect, Hentry.
  cbn [adapter Orchestrator.chatStream configured ret]. fold normalizedRequest.
  unfold invokeChatStream, OpenAIClass.chatStream.
  rewrite Hsecret. unfold truthyString.
  apply String.eqb_neq in Hkey. rewrite Hkey. cbn [negb].
  rewrite Hstream, Hmethod. cbn [Orchestrator.name adapter].
  change (Orchestrator.model normalizedRequest) with (Some (selectedModel routing)).
  fold run.
  eexists. split; [ reflexivity | ].
  cbn [attachRoutingToStream OpenAIAdapter.emitted OpenAIAdapter.failure].
  rewrite !map_map.
  assert (Hsame : forall (A : Type) (f : OpenAIAdapter.ProviderStreamEvent -> A) context,
             (forall event p,
                 f {| OpenAIAdapter.eventType := OpenAIAdapter.eventType event;
                      OpenAIAdapter.eventDelta := OpenAIAdapter.eventDelta event;
                      OpenAIAdapter.eventPayload := p;
                      OpenAIAdapter.eventTraceId := OpenAIAdapter.eventTraceId event |}
                 = f event) ->
             forall events,
               map (fun event => f (attachRoutingToEvent context event)) events
               = map f events).
  { intros A f context Hf events. apply map_ext. intro event.
    unfold attachRoutingToEvent.
    destruct (OpenAIAdapter.eventPayload event) as [ p | ]; [ | reflexivity ].
    destruct (truthy p); [ apply Hf | reflexivity ]. }
  split; [ apply Hsame; reflexivity | ].
  split; [ apply Hsame; reflexivity | ].
  split; [ reflexivity | ].
  intros event Hin Htype. apply in_map_iff in Hin as (source & <- & Hin).
  assert (Hsource : OpenAIAdapter.eventType source = OpenAIAdapter.completion).
  { revert Htype. unfold attachRoutingToEvent.
    destruct (OpenAIAdapter.eventPayload source) as [ p | ]; [ | intro H; exact H ].
    destruct (truthy p); intro H; exact H. }
  destruct (consume_completions _ _ _ _ _ Hin Hsource) as (st & ->).
  eexists. eexists. reflexivity.
Qed.

End StreamEndToEnd.

(** ** Model discovery and provider health *)

Section DiscoveryFacts.

Import Orchestrator Discovery DiscoverySpec.

Lemma lookup_mapSet_same :
  forall (A : Type) k (v : A) m, lookup k (mapSet k v m) = Some v.
Proof.
  intros A k v. induction m as [ | [k' v'] rest IH ]; cbn [mapSet lookup].
  - rewrite String.eqb_refl. reflexivity.
  - destruct (String.eqb k' k) eqn:E; cbn [lookup].
    + rewrite String.eqb_sym, E. reflexivity.
    + rewrite String.eqb_sym, E. exact IH.
Qed.

Lemma lookup_mapSet_other :
  forall (A : Type) k k' (v : A) m, k' <> k -> lookup k' (mapSet k v m) = lookup k' m.
Proof.
  intros A k k' v m Hne. apply String.eqb_neq in Hne.
  induction m as [ | [k0 v0] rest IH ]; cbn [mapSet lookup].
  - rewrite Hne. reflexivity.
  - destruct (String.eqb k0 k) eqn:E; cbn [lookup].
    + apply String.eqb_eq in E. subst k0. rewrite Hne. reflexivity.
    + destruct (String.eqb k' k0); [ reflexivity | exact IH ].
Qed.

(** One iteration of the grouping loop, read under a model id. *)
Lemma recordDefault_lookup :
  forall m capability modelId queried,
    lookup queried (recordDefault m (capability, modelId))
    = if String.eqb modelId queried
      then Some (orDefault (lookup queried m) [] ++ [capability])
      else lookup queried m.
Proof.
  intros m capability modelId queried. unfold recordDefault.
  destruct (String.eqb_spec modelId queried) as [ <- | Hne ].
  - rewrite lookup_mapSet_same.
    destruct (lookup modelId m) as [ caps | ] eqn:E.
    + rewrite E. reflexivity.
    + rewrite lookup_mapSet_same. reflexivity.
  - rewrite lookup_mapSet_other by congruence.
    destruct (lookup modelId m); [ reflexivity | ].
    apply lookup_mapSet_other. congruence.
Qed.

(** The grouping loop as a whole: under a model id it stores the
    capabilities that default to it, in order. *)
Lemma defaultsByModel_lookup :
  forall entries m queried,
    lookup queried (fold_left recordDefault entries m)
    = match capabilitiesDefaultingTo queried entries with
      | [] => lookup queried m
      | found => Some (orDefault (lookup queried m) [] ++ found)
      end.
Proof.
  unfold capabilitiesDefaultingTo.
  induction entries as [ | [capability modelId] rest IH ]; intros m queried;
    cbn [fold_left filter map snd fst]; [ reflexivity | ].
  rewrite IH, recordDefault_lookup.
  destruct (String.eqb modelId queried); cbn [map fst orDefault].
  - destruct (map fst (filter (fun entry => String.eqb (snd entry) queried) rest));
      [ reflexivity | rewrite <- app_assoc; reflexivity ].
  - reflexivity.
Qed.

Variable Upstream : Type.

(** X21.  Model discovery answers for the provider asked for (none of the
    names every object inherits), or for the first configured one, which is
    a configured provider, and returns the adapter's models in their order
    with their ids, readiness and descriptions unchanged; each model is
    given as defaults the capabilities whose configured default model it
    is, in configuration order (its own defaults stay when there is none),
    and the configured scores of the provider when it has any. *)
Theorem listModels_enriched :
  forall config (adapters : list (DiscoveryAdapter Upstream)) requestProvider u
         key models u',
    RoutingSpec.ownName requestProvider = true ->
    listModels config adapters requestProvider u = (Returned (key, models), u') ->
    exists entry adapter method raw,
      lookup key (providers config) = Some entry
      /\ orElse requestProvider (option_map fst (hd_error (providers config))) = Some key
      /\ getRegisteredAdapter key adapters = Returned adapter
      /\ listModelsMethod adapter = Some method
      /\ method u = (Returned raw, u')
      /\ map id models = map id raw
      /\ map ready models = map ready raw
      /\ map description models = map description raw
      /\ Forall2
           (fun before after =>
              modelDefaults after
              = match capabilitiesDefaultingTo (id before)
                        (orDefault (defaults entry) []) with
                | [] => modelDefaults before
                | found => Some found
                end
              /\ modelScores after
                 = match scores entry with
                   | Some configured => Some configured
                   | None => modelScores before
                   end)
           raw models.
Proof.
  intros config adapters requestProvider u key models u' _. unfold listModels.
  destruct (resolveProviderKey requestProvider (providers config))
    as [ providerKey | error | ] eqn:Hkey; try discriminate.
  destruct (getRegisteredAdapter providerKey adapters) as [ adapter | error | ] eqn:Hreg;
    try discriminate.
  destruct (listModelsMethod adapter) as [ method | ] eqn:Hmethod; try discriminate.
  destruct (method u) as [ [ raw | error | ] u1 ] eqn:Hcall; try discriminate.
  destruct (lookup providerKey (providers config)) as [ entry | ] eqn:Hentry;
    try discriminate.
  intro H. injection H as <- <- <-.
  exists entry, adapter, method, raw.
  split; [ exact Hentry | ].
  split.
  { revert Hkey. unfold resolveProviderKey.
    destruct (orElse requestProvider (option_map fst (hd_error (providers config))))
      as [ chosen | ]; [ | discriminate ].
    destruct (String.eqb chosen ""); [ discriminate | ].
    destruct (lookup chosen (providers config)); [ | discriminate ].
    intro H. injection H as ->. reflexivity. }
  split; [ exact Hreg | split; [ exact Hmethod | split; [ exact Hcall | ] ] ].
  unfold enrichModelMetadata. rewrite !map_map. cbn [id ready description].
  split; [ reflexivity | split; [ reflexivity | split; [ reflexivity | ] ] ].
  clear Hcall.
  induction raw as [ | model rest IH ]; cbn [map]; [ constructor | ].
  constructor; [ | exact IH ].
  cbn [modelDefaults modelScores]. split; [ | reflexivity ].
  rewrite defaultsByModel_lookup. cbn [lookup orDefault app].
  destruct (capabilitiesDefaultingTo (id model) (orDefault (defaults entry) []));
    reflexivity.
Qed.

Context {RT : Runtime}.

(** X22.  The health check of a provider served by an LM Studio adapter
    never throws: whatever the discovery request does, a health report is
    returned after that one request.  Its status is ok when discovery
    answers with a success status and at least one model with an id,
    degraded when it lists none, answers 5xx or the request fails, and
    failed when it answers any other status or fails with a CONFIG provider
    error; the report covers every declared capability with that status. *)
Theorem lmstudio_health_always_reported :
  forall String_of config (adapters : list (DiscoveryAdapter Upstream)) key entry deps
         adapterName (u : Upstream),
    lookup key (providers config) = Some entry ->
    getRegisteredAdapter key adapters
    = Returned (LMStudio.adapter String_of entry deps adapterName) ->
    let answer := HttpClient.get deps (Helpers.joinUrl (baseUrl entry) "models") u in
    exists health,
      checkProviderHealth config adapters key u = (Returned health, snd answer)
      /\ status health = probeStatus (fst answer)
      /\ capabilityCoverage health
         = Some (map (fun declared =>
                        {| capability := declared; coverageStatus := status health |})
                     (capabilities entry)).
Proof.
  intros String_of config adapters key entry deps adapterName u Hentry Hreg answer.
  unfold checkProviderHealth. rewrite Hentry, Hreg.
  cbn [LMStudio.adapter checkHealthMethod].
  unfold LMStudio.checkHealth, LMStudio.listModels, LMStudio.fetchDiscovery.
  subst answer.
  destruct (HttpClient.get deps (Helpers.joinUrl (baseUrl entry) "models") u)
    as [ [ response | error ] u1 ]; cbn [fst snd probeStatus].
  - destruct (HttpClient.notOk (HttpClient.status response)).
    + eexists. split; [ reflexivity | ].
      cbn [isProviderError classificationOf status capabilityCoverage].
      destruct (500 <=? HttpClient.status response); split; reflexivity.
    + destruct (LMStudio.normalizeModelList (HttpClient.responseBody response));
        eexists; (split; [ reflexivity | split; reflexivity ]).
  - unfold LMStudio.rethrow.
    destruct error as [ message classification hint cause | kind message | v ];
      cbn [isProviderError classificationOf].
    + eexists. split; [ reflexivity | ].
      cbn [status capabilityCoverage]. destruct classification; split; reflexivity.
    + eexists. split; [ reflexivity | split; reflexivity ].
    + eexists. split; [ reflexivity | split; reflexivity ].
Qed.

End DiscoveryFacts.

(** ** The health report *)

Section HealthFacts.

Import Discovery Health.

Lemma deriveOverallStatus_worst :
  forall components,
    deriveOverallStatus components = worst (map Health.status components).
Proof.
  unfold deriveOverallStatus.
  induction components as [ | component rest IH ]; cbn [existsb map worst];
    [ reflexivity | ].
  rewrite <- IH.
  destruct (Health.status component); cbn [isFailed isDegraded orb];
    destruct (existsb (fun c => isFailed (Health.status c)) rest);
    try destruct (existsb (fun c => isDegraded (Health.status c)) rest);
    reflexivity.
Qed.

Variable Upstream : Type.
Variable check : string -> Upstream -> Outcome ProviderHealth * Upstream.

Lemma probeProviders_report :
  forall providerNames timestamp u,
    match probeProviders check providerNames timestamp u with
    | (Returned components, _) =>
        map Health.name components
        = map (fun providerName => "provider:" ++ providerName)%string providerNames
        /\ map Health.status components
           = map reportedStatus (probeOutcomes check providerNames u)
    | (Threw _, _) => False
    | (Unsettled, _) => In Unsettled (probeOutcomes check providerNames u)
    end.
Proof.
  induction providerNames as [ | providerName rest IH ]; intros timestamp u;
    cbn [probeProviders probeOutcomes map].
  - split; reflexivity.
  - specialize (IH timestamp (snd (check providerName u))).
    destruct (check providerName u) as [ [ health | error | ] u' ]; cbn [fst snd] in *;
      [ | | left; reflexivity ];
      (destruct (probeProviders check rest timestamp u') as [ [ components | e | ] u'' ];
       [ destruct IH as [Hnames Hstatus]; cbn [map Health.name Health.status reportedStatus];
         rewrite Hnames, Hstatus; split; reflexivity
       | exact IH
       | right; exact IH ]).
Qed.

(** X23.  The health report never fails because of a provider: a probe
    that throws is reported as a failed component.  When every probe
    settles, the report lists the transport, the orchestrator and one
    component per configured provider, in order, each provider with the
    status of its probe, and the overall status is the worst status among
    them. *)
Theorem health_report_is_worst_status :
  forall config timestamp (u : Upstream),
    let providerNames := map fst (providers config) in
    match buildHealthComponents check config timestamp u with
    | (Returned components, _) =>
        map Health.name components
        = "transport" :: "orchestrator"
          :: map (fun providerName => "provider:" ++ providerName)%string providerNames
        /\ map Health.status components
           = ok :: ok :: map reportedStatus (probeOutcomes check providerNames u)
        /\ deriveOverallStatus components
           = worst (map reportedStatus (probeOutcomes check providerNames u))
    | (Threw _, _) => False
    | (Unsettled, _) => In Unsettled (probeOutcomes check providerNames u)
    end.
Proof.
  intros config timestamp u providerNames. unfold buildHealthComponents.
  fold providerNames.
  pose proof (probeProviders_report providerNames timestamp u) as H.
  destruct (probeProviders check providerNames timestamp u) as [ [ components | e | ] u' ];
    [ | exact H | exact H ].
  destruct H as [Hnames Hstatus]. cbn [map Health.name Health.status].
  rewrite Hnames, Hstatus. split; [ reflexivity | split; [ reflexivity | ] ].
  rewrite deriveOverallStatus_worst. cbn [map Health.status worst]. rewrite Hstatus.
  destruct (worst (map reportedStatus (probeOutcomes check providerNames u)));
    reflexivity.
Qed.

End HealthFacts.

(** ** What is written to a streaming client *)

Section SanitizerFacts.

Import OpenAIAdapter Sanitizer.



Lemma stripControlChars_clean :
  forall s, hasControlChar (stripControlChars s) = false.
Proof.
  induction s as [ | c s IH ]; cbn [stripControlChars hasControlChar]; [ reflexivity | ].
  destruct (isControlChar c) eqn:E; [ exact IH | ].
  cbn [hasControlChar]. rewrite E, IH. reflexivity.
Qed.

Lemma stripControlChars_fixed :
  forall s, hasControlChar s = false -> stripControlChars s = s.
Proof.
  induction s as [ | c s IH ]; cbn [stripControlChars hasControlChar]; [ reflexivity | ].
  intro H. apply orb_false_elim in H as [Hc Hs]. rewrite Hc, (IH Hs). reflexivity.
Qed.

Lemma stripControlChars_changes :
  forall s, hasControlChar s = true -> stripControlChars s <> s.
Proof.
  intros s H E. rewrite <- E, stripControlChars_clean in H. discriminate.
Qed.

Lemma take_clean :
  forall n s, hasControlChar s = false -> hasControlChar (take n s) = false.
Proof.
  induction n as [ | n IH ]; intros [ | c s ]; cbn [take hasControlChar];
    try reflexivity.
  intro H. apply orb_false_elim in H as [Hc Hs]. rewrite Hc, (IH s Hs). reflexivity.
Qed.

Lemma take_length :
  forall n s, (String.length (take n s) <= n)%nat.
Proof.
  induction n as [ | n IH ]; intros [ | c s ]; cbn [take String.length]; try lia.
  specialize (IH s). lia.
Qed.

Lemma take_all :
  forall n s, (String.length s <= n)%nat -> take n s = s.
Proof.
  induction n as [ | n IH ]; intros [ | c s ]; cbn [take String.length]; intro H;
    try reflexivity; try lia.
  rewrite IH by lia. reflexivity.
Qed.

Lemma take_shorter :
  forall n s, (n < String.length s)%nat -> take n s <> s.
Proof.
  intros n s H E. pose proof (take_length n s) as Hle. rewrite E in Hle. lia.
Qed.

Lemma stripControlChars_length :
  forall s, (String.length (stripControlChars s) <= String.length s)%nat.
Proof.
  induction s as [ | c s IH ]; cbn [stripControlChars String.length]; [ lia | ].
  destruct (isControlChar c); cbn [String.length]; lia.
Qed.

(** Sanitized content is free of control characters and bounded. *)
Lemma sanitizeContent_clean :
  forall content,
    hasControlChar (value (sanitizeContent content)) = false
    /\ (String.length (value (sanitizeContent content)) <= MAX_STREAM_DELTA_CHARS)%nat.
Proof.
  intro content. unfold sanitizeContent.
  pose proof (stripControlChars_clean content) as Hclean.
  destruct (Nat.ltb_spec MAX_STREAM_DELTA_CHARS (String.length (stripControlChars content)))
    as [ Hlong | Hshort ]; cbn [value].
  - split; [ apply take_clean; exact Hclean | apply take_length ].
  - split; assumption.
Qed.

(** X24.  Content passed through [sanitizeContent] has no control
    character left and at most 4000 characters; it is flagged as modified
    exactly when it differs from the input; and sanitizing it again changes
    nothing. *)
Theorem sanitizeContent_clean_and_bounded :
  forall content,
    let result := sanitizeContent content in
    hasControlChar (value result) = false
    /\ (String.length (value result) <= MAX_STREAM_DELTA_CHARS)%nat
    /\ (modified result = false <-> value result = content)
    /\ sanitizeContent (value result) = {| value := value result; modified := false |}.
Proof.
  intro content. cbn zeta.
  destruct (sanitizeContent_clean content) as [Hclean Hlen].
  split; [ exact Hclean | split; [ exact Hlen | split ] ].
  - unfold sanitizeContent.
    destruct (Nat.ltb_spec MAX_STREAM_DELTA_CHARS
                (String.length (stripControlChars content))) as [ Hlong | Hshort ];
      cbn [value modified].
    + split; [ discriminate | ]. intro E. exfalso.
      pose proof (take_length MAX_STREAM_DELTA_CHARS (stripControlChars content)) as Hcut.
      pose proof (stripControlChars_length content) as Hle.
      rewrite E in Hcut. lia.
    + split.
      * apply stripControlChars_fixed.
      * intro E. rewrite <- E. apply stripControlChars_clean.
  - generalize dependent (value (sanitizeContent content)). intros text Hclean Hlen.
    unfold sanitizeContent. rewrite (stripControlChars_fixed _ Hclean).
    destruct (Nat.ltb_spec MAX_STREAM_DELTA_CHARS (String.length text)); [ lia | ].
    rewrite Hclean. reflexivity.
Qed.




End SanitizerFacts.

(** ** The adapters of a configuration *)

Section FactoryFacts.

Import Orchestrator Factory Transport.

Context {RT : Runtime}.
Variable Number_parseFloat : string -> float.
Variable String_of : Value -> string.
Variable Net : Type.
Variable deps : HttpClient.AdapterDependencies Net.

(** Every adapter the factory makes is named by its provider key and
    supports what its provider entry declares. *)
Lemma createAdapter_name_supports :
  forall key entry,
    let made :=
      Discovery.dispatching (createAdapter Number_parseFloat String_of Net deps key entry) in
    name made = key
    /\ forall declared, supports made declared = includes declared (capabilities entry).
Proof.
  intros key entry. cbn zeta. unfold createAdapter.
  destruct (String.eqb_spec key "openai") as [ -> | _ ]; [ split; reflexivity | ].
  destruct (String.eqb_spec key "anthropic") as [ -> | _ ]; [ split; reflexivity | ].
  destruct (String.eqb key "lmstudio"); [ split; reflexivity | ].
  destruct (startsWith "lmstudio" (toLowerCase key)); split; reflexivity.
Qed.

Lemma factory_registers :
  forall entries key entry,
    lookup key entries = Some entry ->
    getRegisteredAdapter key
      (map Discovery.dispatching
           (map (fun item => createAdapter Number_parseFloat String_of Net deps
                               (fst item) (snd item)) entries))
    = Returned (Discovery.dispatching
                  (createAdapter Number_parseFloat String_of Net deps key entry)).
Proof.
  unfold getRegisteredAdapter.
  induction entries as [ | [k e] rest IH ]; intros key entry Hlookup;
    cbn [lookup map find fst snd] in *; [ discriminate | ].
  rewrite (proj1 (createAdapter_name_supports k e)).
  rewrite String.eqb_sym.
  destruct (String.eqb_spec key k) as [ <- | Hne ].
  - injection Hlookup as <-. reflexivity.
  - apply IH. exact Hlookup.
Qed.

(** X26.  With the adapters the factory makes for a configuration, every
    configured provider has an adapter registered under its key, which
    supports exactly the capabilities its entry declares.  So the selection
    of an adapter passes exactly when the entry declares the capability,
    and otherwise fails with the error about the adapter - the error about
    the entry's declaration can never be the one raised. *)
Theorem factory_adapters_match_configuration :
  forall config key entry capability,
    lookup key (providers config) = Some entry ->
    exists adapter,
      getRegisteredAdapter key
        (dispatchingAdapters Number_parseFloat String_of Net deps config)
      = Returned adapter
      /\ name adapter = key
      /\ (forall declared,
             supports adapter declared = includes declared (capabilities entry))
      /\ selectAdapter key (Some entry)
           (dispatchingAdapters Number_parseFloat String_of Net deps config) capability
         = if includes capability (capabilities entry)
           then Returned adapter
           else Threw (NativeError PlainError
                         ("Adapter " ++ key ++ " does not support " ++ capability
                          ++ " capability")).
Proof.
  intros config key entry capability Hlookup.
  pose proof (factory_registers (providers config) key entry Hlookup) as Hreg.
  destruct (createAdapter_name_supports key entry) as [Hname Hsupports].
  eexists. split; [ exact Hreg | split; [ exact Hname | split; [ exact Hsupports | ] ] ].
  unfold selectAdapter, dispatchingAdapters, createProviderAdapters. rewrite Hreg, Hsupports.
  cbn [validateCapability].
  destruct (includes capability (capabilities entry)); reflexivity.
Qed.

(** X27.  A provider whose key is none of openai, anthropic and the
    lmstudio names gets an adapter that cannot chat: a chat dispatch routed
    to it calls that adapter once, sends nothing, and throws a CONFIG
    provider error - not retried - which the gateway answers with 500. *)
Theorem unsupported_provider_end_to_end :
  forall config request routing entry (w : World Net),
    resolveRoutingSelection "chat" (provider request) (model request) (providers config)
    = Returned routing ->
    lookup (providerKey routing) (providers config) = Some entry ->
    includes "chat" (capabilities entry) = true ->
    String.eqb (providerKey routing) "openai" = false ->
    String.eqb (providerKey routing) "anthropic" = false ->
    startsWith "lmstudio" (toLowerCase (providerKey routing)) = false ->
    let thrown :=
      ProviderErrorObj ("Provider " ++ providerKey routing ++ " adapter not registered")
                       CONFIG None None in
    dispatchChat config (dispatchingAdapters Number_parseFloat String_of Net deps config)
                 request w
    = (Threw thrown,
       {| upstream := upstream w;
          calls := calls w
                   ++ [ChatCall (providerKey routing)
                         (normalizeChatRequest request (providerKey routing) entry
                            (Some (selectedModel routing)))] |})
    /\ mapProviderErrorToStatus thrown = 500.
Proof.
  intros config request routing entry w Hroute Hentry Hchat Hopenai Hanthropic Hlm thrown.
  split; [ | reflexivity ].
  pose proof (resolveMaxAttempts_at_least_one config) as Hpos.
  pose proof (factory_registers (providers config) (providerKey routing) entry Hentry)
    as Hreg.
  destruct (createAdapter_name_supports (providerKey routing) entry) as [Hname Hsupports].
  assert (Hmade : createAdapter Number_parseFloat String_of Net deps
                    (providerKey routing) entry
                  = plain Net (unsupportedAdapter Net (providerKey routing) entry)).
  { unfold createAdapter. rewrite Hopenai, Hanthropic.
    assert (Hplain : String.eqb (providerKey routing) "lmstudio" = false).
    { destruct (String.eqb_spec (providerKey routing) "lmstudio") as [ E | ];
        [ | reflexivity ].
      rewrite E in Hlm. discriminate. }
    rewrite Hplain, Hlm. reflexivity. }
  unfold dispatchChat, bind, lift. rewrite Hroute.
  unfold selectAdapter, dispatchingAdapters, createProviderAdapters.
  rewrite Hreg, Hsupports, Hchat, Hentry. cbn [negb validateCapability].
  rewrite Hchat. cbn [negb configured ret]. unfold executeWithRetry.
  destruct (Z.to_nat (resolveMaxAttempts config)) as [ | budget ] eqn:Hbudget; [ lia | ].
  erewrite retryLoop_not_retried; [ reflexivity | lia | | reflexivity ].
  unfold invokeChat. rewrite Hmade.
  cbn [plain Discovery.dispatching unsupportedAdapter chat name]. destruct w; reflexivity.
Qed.

End FactoryFacts.

(** ** Further scenarios, run *)

Section MoreRuns.

Import OpenAIAdapter Orchestrator Scenarios RoutingSpec MoreScenarios.

#[local] Existing Instance RefRuntime.runtime.

(** X1, witness: in the configuration of the orchestrator's tests an embed
    request without a provider goes to [openai], the only provider that
    declares embed. *)
Lemma capability_routing_selects_configured_witness :
  exists key config,
    In (key, config) (providers baseConfig)
    /\ resolveRoutingSelection "embed" None None (providers baseConfig)
       = Returned
           (if declares "embed" config
            then capabilitySelection "embed" key config
            else {| providerKey := key; selectedModel := defaultModel config;
                    strategy := Fallback |})
    /\ (declares "embed" config = false ->
        hd_error (providers baseConfig) = Some (key, config)
        /\ forall k c, In (k, c) (providers baseConfig) -> declares "embed" c = false).
Proof.
  apply (capability_routing_selects_configured "embed" None None (providers baseConfig)).
  - reflexivity.
  - discriminate.
Defined.

(** With a tie at the highest score the earlier provider is routed to. *)
Example tied_config_routes_to_second :
  resolveRoutingSelection "chat" None None (providers tiedConfig)
  = Returned {| providerKey := "second"; selectedModel := "m2-chat";
                strategy := CapabilityDefault |}.
Proof. vm_compute. reflexivity. Qed.

(** X2, witness: the three providers of [tiedConfig]. *)
Lemma highest_score_wins_witness :
  exists i key config,
    nth_error (providers tiedConfig) i = Some (key, config)
    /\ declares "chat" config = true
    /\ resolveRoutingSelection "chat" None None (providers tiedConfig)
       = Returned (capabilitySelection "chat" key config)
    /\ forall j key' config',
         nth_error (providers tiedConfig) j = Some (key', config') ->
         declares "chat" config' = true ->
         (entryScore "chat" config' <=? entryScore "chat" config)%float = true
         /\ ((entryScore "chat" config' =? entryScore "chat" config)%float = true ->
             (i <= j)%nat).
Proof.
  apply (highest_score_wins "chat" None None (providers tiedConfig)).
  - reflexivity.
  - intros key config Hin _. cbn [tiedConfig providers In] in Hin.
    destruct Hin as [ H | [ H | [ H | [] ] ] ]; injection H as <- <-;
      vm_compute; reflexivity.
  - exists "first", (snd (hd ("", entry "" []) (providers tiedConfig))).
    split; [ left; reflexivity | vm_compute; reflexivity ].
Defined.

(** X4, witness: a chat that fails once with a transient error and then
    answers is returned with two attempts, after two calls. *)
Lemma executeWithRetry_after_failures_witness :
  executeWithRetry (invokeChat chatFlakyOnce normalizedChat) "openai" 2 idle
  = (Returned (okResponse "ok", 2),
     {| upstream := 2%nat;
        calls := [ChatCall "openai" normalizedChat; ChatCall "openai" normalizedChat] |}).
Proof.
  apply (proj1 (executeWithRetry_after_failures Served ProviderResponse
                  (invokeChat chatFlakyOnce normalizedChat) "openai" 2 1 idle
                  {| upstream := 1%nat; calls := [ChatCall "openai" normalizedChat] |}
                  eq_refl eq_refl eq_refl)).
  reflexivity.
Defined.

(** X3, witness: with three attempts allowed, the chat that fails once is
    called twice, by one adapter with one request. *)
Lemma dispatchChat_calls_bounded_witness :
  exists n key normalizedRequest,
    calls (snd (dispatchChat patientConfig [chatFlakyOnce] chatRequest idle))
    = repeat (ChatCall key normalizedRequest) n
    /\ Z.of_nat n <= 3
    /\ (forall result,
           fst (dispatchChat patientConfig [chatFlakyOnce] chatRequest idle)
           = Returned result ->
           (1 <= n)%nat /\ attempts result = Some (Z.of_nat n)).
Proof.
  destruct (dispatchChat_calls_bounded Served patientConfig [chatFlakyOnce] chatRequest idle)
    as (n & key & normalizedRequest & Hcalls & Hbound & Hresult & _).
  - vm_compute. discriminate.
  - exists n, key, normalizedRequest.
    split; [ exact Hcalls | split; [ exact Hbound | exact Hresult ] ].
Defined.

(** The same through [dispatchChat]: the response reports two attempts. *)
Example flaky_chat_second_attempt :
  option_map attempts (match fst (dispatchChat baseConfig [chatFlakyOnce] chatRequest idle) with
                       | Returned response => Some response
                       | _ => None
                       end) = Some (Some 2)
  /\ calls (snd (dispatchChat baseConfig [chatFlakyOnce] chatRequest idle))
     = [ChatCall "openai" normalizedChat; ChatCall "openai" normalizedChat].
Proof. vm_compute. split; reflexivity. Qed.

End MoreRuns.

Section WireRunsFacts.

Import OpenAIAdapter Orchestrator Scenarios StreamSpec Helpers HelpersSpec HttpClient
       OpenAIClass Transport WireScenario WireRuns.

#[local] Existing Instance RefRuntime.runtime.

(** X8, witness: the completion of the reconstruction scenario carries
    Hello, the text of the two deltas before it. *)
Lemma completion_content_is_streamed_text_witness :
  messageContent (completionEvent "openai" None
                    {| OpenAIAdapter.accumulatedContent := "Hello";
                       OpenAIAdapter.role := Some "assistant";
                       OpenAIAdapter.traceId := None;
                       OpenAIAdapter.usageRaw := Undefined |})
  = Str (streamedText [deltaEvent (Some "assistant") (Some "Hel");
                       deltaEvent None (Some "lo")]).
Proof.
  apply (completion_content_is_streamed_text helloStream "openai" None
           [deltaEvent (Some "assistant") (Some "Hel"); deltaEvent None (Some "lo")]
           _ []).
  - vm_compute. reflexivity.
  - reflexivity.
Defined.

(** X9, witness: what follows the sentinel of the reconstruction scenario
    does not matter. *)
Lemma nothing_read_after_sentinel_witness :
  mapChatCompletionsStream
    (firstn 3 helloStream ++ sse "[DONE]" :: [sse "{'choices':[{'delta':{'content':'!'}}]}"])
    "openai" None
  = mapChatCompletionsStream (firstn 3 helloStream ++ sse "[DONE]" :: []) "openai" None.
Proof.
  apply (nothing_read_after_sentinel "openai" None (firstn 3 helloStream) (sse "[DONE]")).
  vm_compute. reflexivity.
Defined.

(** A stream cut short fails with the parse error after the events of the
    chunks before. *)
Example broken_stream_fails :
  mapChatCompletionsStream brokenStream "openai" None
  = {| emitted := [deltaEvent None (Some "Hi")]; failure := Some parseFailure |}.
Proof. vm_compute. reflexivity. Qed.

(** A stream whose connection fails after its first chunk: the event of
    that chunk, then the error of the connection, as it is. *)
Example dropped_stream_fails :
  StreamSource.mapChatCompletionsStreamFrom droppedStream "openai" None
  = {| emitted := [deltaEvent None (Some "Hi")];
       failure := Some (NativeError PlainError "terminated") |}.
Proof. vm_compute. reflexivity. Qed.

(** X11, witness: the sentinel block. *)
Lemma extractDataPayload_sse_block_witness :
  extractDataPayload (sseBlock "[DONE]") = Some (trim "[DONE]").
Proof.
  apply (extractDataPayload_sse_block "[DONE]"). reflexivity.
Defined.

(** X12, witness: a base URL with trailing slashes and a path with a
    leading slash. *)
Lemma joinUrl_single_slash_witness :
  joinUrl ("https://api.openai.com/v1" ++ slashes 2) (slashes 1 ++ "chat/completions")
  = ("https://api.openai.com/v1" ++ "/" ++ "chat/completions")%string.
Proof.
  apply (joinUrl_single_slash "https://api.openai.com/v1" "chat/completions" 2 1);
    reflexivity.
Defined.

(** X13, witness: an upstream that always answers 503 is asked twice (the
    default maximum), and the gateway answers 503. *)
Lemma upstream_status_end_to_end_witness :
  exists thrown,
    dispatchChat baseConfig [adapter openaiEntry (fixedAnswer 503 Undefined)]
                 chatRequest quiet
    = (Threw thrown,
       {| upstream :=
            repeat ("https://example.invalid/chat/completions",
                    {| headers := requestHeaders "sk-test";
                       body := buildOpenAIRequestBody normalizedChat |}) 2;
          calls := repeat (ChatCall "openai" normalizedChat) 2 |})
    /\ classificationOf thrown = Some TEMPORARY
    /\ mapProviderErrorToStatus thrown = 503.
Proof.
  apply (upstream_status_end_to_end baseConfig
           [adapter openaiEntry (fixedAnswer 503 Undefined)]
           chatRequest toOpenai openaiEntry "sk-test" 503 Undefined quiet).
  - reflexivity.
  - reflexivity.
  - reflexivity.
  - discriminate.
  - reflexivity.
  - vm_compute. discriminate.
Defined.

(** An upstream that always answers 400 is asked once; the gateway answers
    422. *)
Example bad_request_asked_once :
  List.length (upstream (snd (dispatchChat baseConfig
                                [adapter openaiEntry (fixedAnswer 400 Undefined)]
                                chatRequest quiet))) = 1%nat
  /\ option_map mapProviderErrorToStatus
       (match fst (dispatchChat baseConfig
                     [adapter openaiEntry (fixedAnswer 400 Undefined)]
                     chatRequest quiet) with
        | Threw error => Some error
        | _ => None
        end) = Some 422.
Proof. vm_compute. split; reflexivity. Qed.

(** X14, witness: a 200 with an empty list of choices is asked for
    twice. *)
Lemma malformed_success_is_retried_witness :
  exists thrown,
    dispatchChat baseConfig
                 [adapter openaiEntry (fixedAnswer 200 (Obj [("choices", Arr [])]))]
                 chatRequest quiet
    = (Threw thrown,
       {| upstream :=
            repeat ("https://example.invalid/chat/completions",
                    {| headers := requestHeaders "sk-test";
                       body := buildOpenAIRequestBody normalizedChat |}) 2;
          calls := repeat (ChatCall "openai" normalizedChat) 2 |})
    /\ classificationOf thrown = Some TEMPORARY
    /\ mapProviderErrorToStatus thrown = 503.
Proof.
  apply (malformed_success_is_retried baseConfig
           [adapter openaiEntry (fixedAnswer 200 (Obj [("choices", Arr [])]))]
           chatRequest toOpenai openaiEntry "sk-test" 200 (Obj [("choices", Arr [])])
           (ProviderErrorObj "OpenAI response missing completion message"
                             TEMPORARY None None) quiet).
  - reflexivity.
  - reflexivity.
  - reflexivity.
  - discriminate.
  - reflexivity.
  - reflexivity.
  - vm_compute. discriminate.
Defined.

(** X15, witness: without a key nothing is sent. *)
Lemma missing_key_end_to_end_witness :
  dispatchChat baseConfig [adapter openaiEntry keyless] chatRequest quiet
  = (Threw keyMissing,
     {| upstream := []; calls := [] ++ [ChatCall "openai" normalizedChat] |})
  /\ classificationOf keyMissing = Some CONFIG
  /\ mapProviderErrorToStatus keyMissing = 500.
Proof.
  apply (missing_key_end_to_end Wire keyless baseConfig [adapter openaiEntry keyless]
           chatRequest toOpenai openaiEntry None [] quiet);
    reflexivity.
Defined.

(** X16, witness: a completion comes back with its message, the upstream's
    id and the routing. *)
Lemma chat_success_end_to_end_witness :
  exists result,
    dispatchChat baseConfig [adapter openaiEntry (fixedAnswer 200 chatAnswer)]
                 chatRequest quiet
    = (Returned result,
       {| upstream := [("https://example.invalid/chat/completions",
                        {| headers := requestHeaders "sk-test";
                           body := buildOpenAIRequestBody normalizedChat |})];
          calls := [] ++ [ChatCall "openai" normalizedChat] |})
    /\ attempts result = Some 1
    /\ Orchestrator.traceId result = orDefault (asString (getProp chatAnswer "id")) ""
    /\ getProp (payload result) "message"
       = getProp (nth 0 (choicesOf chatAnswer) Undefined) "message"
    /\ truthy (getProp (payload result) "message") = true
    /\ getProp (payload result) "providerInfo"
       = Obj [("name", Str "openai");
              ("model", getProp chatAnswer "model");
              ("routing",
               Obj [("capability", Str "chat");
                    ("strategy", Str (strategyName (strategy toOpenai)))])].
Proof.
  refine (chat_success_end_to_end Wire (fixedAnswer 200 chatAnswer) baseConfig
            [adapter openaiEntry (fixedAnswer 200 chatAnswer)]
            chatRequest toOpenai openaiEntry "sk-test" 200 chatAnswer
            _ [] _ quiet eq_refl eq_refl eq_refl eq_refl _ eq_refl eq_refl eq_refl).
  discriminate.
Defined.

(** X19, witness: an embeddings upstream that answers 503 is asked once. *)
Lemma embed_status_end_to_end_witness :
  dispatchEmbed baseConfig [adapter openaiEntry (fixedAnswer 503 Undefined)]
                embedRequest quiet
  = (Threw (createHttpError "openai" 503 Undefined),
     {| upstream := [] ++ [("https://example.invalid/embeddings",
                            {| headers := requestHeaders "sk-test";
                               body := embedRequestBody normalizedEmbed |})];
        calls := [] ++ [EmbedCall "openai" normalizedEmbed] |})
  /\ classificationOf (createHttpError "openai" 503 Undefined) = Some TEMPORARY
  /\ mapProviderErrorToStatus (createHttpError "openai" 503 Undefined) = 503.
Proof.
  apply (embed_status_end_to_end baseConfig
           [adapter openaiEntry (fixedAnswer 503 Undefined)]
           embedRequest toOpenai openaiEntry "sk-test" 503 Undefined quiet).
  - reflexivity.
  - reflexivity.
  - reflexivity.
  - discriminate.
  - reflexivity.
Defined.

(** X20, witness: the reconstruction scenario, streamed through the
    adapter and the orchestrator. *)
Lemma stream_end_to_end_witness :
  exists result,
    dispatchChatStream baseConfig [adapter openaiEntry (streamingDeps helloStream)]
                       chatRequest quiet
    = (Returned result,
       {| upstream :=
            [("https://example.invalid/chat/completions",
              {| headers := requestHeaders "sk-test";
                 body := Obj (setProp "stream" (Bool true)
                                (ownEntries (buildOpenAIRequestBody normalizedChat))) |})];
          calls := [] ++ [ChatStreamCall "openai" normalizedChat] |})
    /\ map eventType (emitted result)
       = map eventType (emitted (mapChatCompletionsStream helloStream "openai"
                                   (Some "gpt-4o-mini")))
    /\ map eventDelta (emitted result)
       = map eventDelta (emitted (mapChatCompletionsStream helloStream "openai"
                                    (Some "gpt-4o-mini")))
    /\ failure result
       = failure (mapChatCompletionsStream helloStream "openai" (Some "gpt-4o-mini"))
    /\ forall event,
         In event (emitted result) ->
         eventType event = completion ->
         exists message usage,
           eventPayload event
           = Some (Obj [("message", message);
                        ("usage", usage);
                        ("providerInfo",
                         Obj [("name", Str "openai");
                              ("model", Str "gpt-4o-mini");
                              ("routing",
                               Obj [("capability", Str "chatStream");
                                    ("strategy", Str (strategyName Fallback))])])]).
Proof.
  refine (stream_end_to_end Wire (streamingDeps helloStream) baseConfig
            [adapter openaiEntry (streamingDeps helloStream)]
            chatRequest toOpenai openaiEntry "sk-test" _ helloStream [] _ quiet
            eq_refl eq_refl eq_refl eq_refl _ eq_refl eq_refl).
  discriminate.
Defined.

End WireRunsFacts.

Section LocalRunsFacts.

Import Orchestrator Discovery DiscoverySpec Health HttpClient WireScenario LocalRuns.

#[local] Existing Instance RefRuntime.runtime.

(** The models of the local provider, as discovery reports them. *)
Example local_models :
  fst (listModels localConfig [localAdapter 200 modelList] None [])
  = Returned
      ("lmstudio",
       [ {| id := "qwen"; ready := true; description := None;
            modelDefaults := Some ["chat"; "chatStream"]; modelScores := None |};
         {| id := "nomic"; ready := false; description := None;
            modelDefaults := Some ["embed"]; modelScores := None |};
         {| id := "llama"; ready := true; description := Some "general";
            modelDefaults := None; modelScores := None |} ]).
Proof. vm_compute. reflexivity. Qed.

(** X21, witness: the local provider. *)
Lemma listModels_enriched_witness :
  exists entry adapter method raw,
    lookup "lmstudio" (providers localConfig) = Some entry
    /\ orElse (Some "lmstudio") (option_map fst (hd_error (providers localConfig)))
       = Some "lmstudio"
    /\ getRegisteredAdapter "lmstudio" [localAdapter 200 modelList] = Returned adapter
    /\ listModelsMethod adapter = Some method
    /\ method []
       = (Returned raw, [("http://localhost:1234/v1/models",
                          {| headers := []; body := Undefined |})])
    /\ map id (enrichModelMetadata (LMStudio.normalizeModelList modelList) lmstudioEntry)
       = map id raw
    /\ map ready (enrichModelMetadata (LMStudio.normalizeModelList modelList) lmstudioEntry)
       = map ready raw
    /\ map description
           (enrichModelMetadata (LMStudio.normalizeModelList modelList) lmstudioEntry)
       = map description raw
    /\ Forall2
         (fun before after =>
            modelDefaults after
            = match capabilitiesDefaultingTo (id before)
                      (orDefault (defaults entry) []) with
              | [] => modelDefaults before
              | found => Some found
              end
            /\ modelScores after
               = match scores entry with
                 | Some configured => Some configured
                 | None => modelScores before
                 end)
         raw
         (enrichModelMetadata (LMStudio.normalizeModelList modelList) lmstudioEntry).
Proof.
  apply (listModels_enriched Wire localConfig [localAdapter 200 modelList]
           (Some "lmstudio") []).
  - reflexivity.
  - vm_compute. reflexivity.
Defined.

(** X22, witness: a discovery endpoint that answers 404 makes the provider
    failed, one that answers 503 degraded. *)
Lemma lmstudio_health_always_reported_witness :
  exists health,
    checkProviderHealth localConfig [localAdapter 404 Undefined] "lmstudio" []
    = (Returned health,
       snd (get (localDeps 404 Undefined)
                (Helpers.joinUrl (baseUrl lmstudioEntry) "models") []))
    /\ Discovery.status health
       = probeStatus (fst (get (localDeps 404 Undefined)
                               (Helpers.joinUrl (baseUrl lmstudioEntry) "models") []))
    /\ Discovery.capabilityCoverage health
       = Some (map (fun declared =>
                      {| capability := declared;
                         coverageStatus := Discovery.status health |})
                   (capabilities lmstudioEntry)).
Proof.
  apply (lmstudio_health_always_reported Wire (fun _ => "thrown value") localConfig
           [localAdapter 404 Undefined] "lmstudio" lmstudioEntry
           (localDeps 404 Undefined) "lmstudio" []);
    reflexivity.
Defined.

Example local_health_statuses :
  option_map Discovery.status
    (match fst (checkProviderHealth localConfig [localAdapter 404 Undefined] "lmstudio" [])
     with Returned health => Some health | _ => None end) = Some failed
  /\ option_map Discovery.status
       (match fst (checkProviderHealth localConfig [localAdapter 503 Undefined]
                     "lmstudio" [])
        with Returned health => Some health | _ => None end) = Some degraded
  /\ option_map Discovery.status
       (match fst (checkProviderHealth localConfig [localAdapter 200 modelList]
                     "lmstudio" [])
        with Returned health => Some health | _ => None end) = Some ok.
Proof. vm_compute. repeat split. Qed.

End LocalRunsFacts.

Section FactoryRunsFacts.

Import Orchestrator Scenarios HttpClient WireScenario Factory FactoryRuns Transport.

#[local] Existing Instance RefRuntime.runtime.

(** X26, witness: the openai provider of [mixedConfig] and embeddings. *)
Lemma factory_adapters_match_configuration_witness :
  exists adapter,
    getRegisteredAdapter "openai" mixedAdapters = Returned adapter
    /\ name adapter = "openai"
    /\ (forall declared,
           supports adapter declared = includes declared ["chat"; "embed"])
    /\ selectAdapter "openai" (Some (entry "gpt-4o-mini" ["chat"; "embed"]))
                     mixedAdapters "chatStream"
       = if includes "chatStream" ["chat"; "embed"]
         then Returned adapter
         else Threw (NativeError PlainError
                       ("Adapter " ++ "openai" ++ " does not support " ++ "chatStream"
                        ++ " capability")).
Proof.
  apply (factory_adapters_match_configuration (fun _ => nan) (fun _ => "thrown value")
           Wire _ mixedConfig "openai" (entry "gpt-4o-mini" ["chat"; "embed"])
           "chatStream").
  reflexivity.
Defined.

(** X27, witness: a chat sent to the mistral provider fails at once, with
    five attempts configured. *)
Lemma unsupported_provider_end_to_end_witness :
  dispatchChat mixedConfig mixedAdapters toMistral WireRuns.quiet
  = (Threw (ProviderErrorObj ("Provider " ++ "mistral" ++ " adapter not registered")
                             CONFIG None None),
     {| upstream := [];
        calls := [] ++ [ChatCall "mistral"
                          (normalizeChatRequest toMistral "mistral"
                             (entry "mistral-small" ["chat"]) (Some "mistral-small"))] |})
  /\ mapProviderErrorToStatus
       (ProviderErrorObj ("Provider " ++ "mistral" ++ " adapter not registered")
                         CONFIG None None) = 500.
Proof.
  apply (unsupported_provider_end_to_end (fun _ => nan) (fun _ => "thrown value")
           Wire _ mixedConfig toMistral
           {| providerKey := "mistral"; selectedModel := "mistral-small";
              strategy := CallerOverride |}
           (entry "mistral-small" ["chat"]) WireRuns.quiet);
    reflexivity.
Defined.

End FactoryRunsFacts.

Section FurtherRuns.

Import OpenAIAdapter Orchestrator Scenarios RoutingSpec Sanitizer Discovery Health.

#[local] Existing Instance RefRuntime.runtime.

(** X7, witness: asking for another model without naming a provider changes
    nothing. *)
Lemma model_without_provider_is_ignored_witness :
  dispatchChat baseConfig [streamingAdapter] (withModel chatRequest (Some "gpt-5")) idle
  = dispatchChat baseConfig [streamingAdapter] chatRequest idle.
Proof.
  apply (proj1 (proj1 (model_without_provider_is_ignored Served baseConfig
                         [streamingAdapter] idle)
                      chatRequest (Some "gpt-5") eq_refl)).
Defined.

(** What the sanitizer does to three events: a delta that only sets the
    role is dropped, a delta with a bell character in its text passes
    without it, and a completion with empty content is dropped. *)
Example sanitizer_samples :
  sanitizeStreamEvent (deltaEvent (Some "assistant") None) = None
  /\ sanitizeStreamEvent
       (deltaEvent None (Some ("Hel" ++ String (ascii_of_nat 7) "lo")%string))
     = Some (deltaEvent None (Some "Hello"))
  /\ sanitizeStreamEvent (completionEvent "openai" None initialStreamState) = None.
Proof. vm_compute. repeat split. Qed.

(** A health report with one provider degraded and one whose probe
    throws. *)
Example health_report_sample :
  let check := fun (providerName : string) (u : nat) =>
                 if String.eqb providerName "openai"
                 then (Returned {| Discovery.status := degraded;
                                   Discovery.details := None;
                                   Discovery.capabilityCoverage := None |}, S u)
                 else (Threw (NativeError PlainError "boom"), S u) in
  match fst (buildHealthComponents check baseConfig "now" 0%nat) with
  | Returned components =>
      map Health.status components = [ok; ok; degraded; failed]
      /\ deriveOverallStatus components = failed
  | _ => False
  end.
Proof. vm_compute. split; reflexivity. Qed.

End FurtherRuns.

(** ** Failures of routing, exhaustion, and settling *)

(** Routing and the selection of an adapter are synchronous: they return or
    throw. *)
Lemma routing_unsettled_never :
  forall capability requestProvider requestModel entries,
    RoutingSpec.settled
      (Orchestrator.resolveRoutingSelection capability requestProvider requestModel entries)
    = true.
Proof.
  intros capability requestProvider requestModel entries.
  unfold Orchestrator.resolveRoutingSelection.
  destruct (if truthyString requestProvider then requestProvider else None)
    as [ requested | ].
  - destruct (lookup requested entries); reflexivity.
  - destruct entries as [ | [k c] rest ]; [ reflexivity | ].
    destruct (Orchestrator.forEachEntry capability ((k, c) :: rest) 0 None); reflexivity.
Qed.

Lemma selectAdapter_unsettled_never :
  forall (Upstream : Type) key providerConfig
         (adapters : list (Orchestrator.ProviderAdapter Upstream)) capability,
    RoutingSpec.settled (Orchestrator.selectAdapter key providerConfig adapters capability)
    = true.
Proof.
  intros Upstream key providerConfig adapters capability.
  unfold Orchestrator.selectAdapter, Orchestrator.getRegisteredAdapter,
    Orchestrator.validateCapability.
  destruct (find _ adapters) as [ found | ]; [ | reflexivity ].
  destruct (negb (Orchestrator.supports found capability)); [ reflexivity | ].
  destruct providerConfig as [ entry | ]; [ | reflexivity ].
  destruct (negb (Orchestrator.includes capability (capabilities entry))); reflexivity.
Qed.

Section PolicyFacts.

Import Orchestrator RoutingSpec.

Variable Upstream : Type.

Lemma lookup_In :
  forall (A : Type) key (value : A) fields,
    In (key, value) fields -> lookup key fields <> None.
Proof.
  intros A key value. induction fields as [ | [k v] rest IH ]; intros Hin; cbn [lookup].
  - destruct Hin.
  - destruct (String.eqb_spec key k) as [ _ | Hne ]; [ discriminate | ].
    destruct Hin as [ H | H ]; [ injection H as -> _; congruence | apply IH; exact H ].
Qed.

(** X28.  For a provider asked for that is none of the names every object
    inherits: routing fails in two cases only - the provider asked for is
    not configured, or none is asked for and none is configured - and then
    the dispatch, of any kind, throws that plain error without calling any
    adapter.  When it passes, the provider it names is a configured
    one. *)
Theorem routing_failure_is_local :
  forall config (adapters : list (ProviderAdapter Upstream)) d (w : World Upstream),
    ownName (requestedProvider d) = true ->
    match dispatchRouting config d with
    | Returned routing => lookup (providerKey routing) (providers config) <> None
    | Threw error =>
        dispatch config adapters d w = (Threw error, w)
        /\ ((exists requested,
                requestedProvider d = Some requested
                /\ String.eqb requested "" = false
                /\ lookup requested (providers config) = None
                /\ error = NativeError PlainError ("Unknown provider: " ++ requested))
            \/ (truthyString (requestedProvider d) = false
                /\ providers config = []
                /\ error = NativeError PlainError "No providers configured"))
    | Unsettled => False
    end.
Proof.
  intros config adapters d w _.
  assert (Hroute :
            forall capability requestProvider requestModel,
              match resolveRoutingSelection capability requestProvider requestModel
                      (providers config) with
              | Returned routing => lookup (providerKey routing) (providers config) <> None
              | Threw error =>
                  (exists requested,
                      requestProvider = Some requested
                      /\ String.eqb requested "" = false
                      /\ lookup requested (providers config) = None
                      /\ error = NativeError PlainError ("Unknown provider: " ++ requested))
                  \/ (truthyString requestProvider = false
                      /\ providers config = []
                      /\ error = NativeError PlainError "No providers configured")
              | Unsettled => False
              end).
  { intros capability requestProvider requestModel. unfold resolveRoutingSelection.
    destruct (truthyString requestProvider) eqn:Htruthy.
    - destruct requestProvider as [ requested | ]; [ | discriminate ].
      cbn [truthyString] in Htruthy. apply negb_true_iff in Htruthy.
      destruct (lookup requested (providers config)) as [ entry | ] eqn:Hentry.
      + cbn [providerKey]. rewrite Hentry. discriminate.
      + left. exists requested. repeat split; assumption.
    - destruct (providers config) as [ | [firstKey firstConfig] rest ] eqn:Hproviders.
      + right. repeat split.
      + pose proof (forEachEntry_result capability ((firstKey, firstConfig) :: rest) 0 None)
          as H.
        destruct (forEachEntry capability ((firstKey, firstConfig) :: rest) 0 None)
          as [ b | ]; cbn [providerKey].
        * destruct H as [ H | (key & entry & i & Hin & _ & ->) ]; [ discriminate | ].
          apply (lookup_In _ _ _ _ Hin).
        * cbn [lookup]. rewrite String.eqb_refl. discriminate. }
  destruct d as [ request | request | request ];
    cbn [dispatchRouting routedCapability requestedProvider dispatch].
  - specialize (Hroute "chat" (provider request) (model request)).
    unfold dispatchChat, bind, lift.
    destruct (resolveRoutingSelection "chat" (provider request) (model request)
                (providers config)); [ exact Hroute | | exact Hroute ].
    split; [ reflexivity | exact Hroute ].
  - specialize (Hroute "chatStream" (provider request) (model request)).
    unfold dispatchChatStream, bind, lift.
    destruct (resolveRoutingSelection "chatStream" (provider request) (model request)
                (providers config)); [ exact Hroute | | exact Hroute ].
    split; [ reflexivity | exact Hroute ].
  - specialize (Hroute "embed" (embedProvider request) (embedModel request)).
    unfold dispatchEmbed, bind, lift.
    destruct (resolveRoutingSelection "embed" (embedProvider request) (embedModel request)
                (providers config)); [ exact Hroute | | exact Hroute ].
    split; [ reflexivity | exact Hroute ].
Qed.

(** X29.  With a maximum of at most [2^53] (up to which the source's
    counter is exact): when every one of the allowed attempts throws a
    retryable provider error - not necessarily the same - the loop ends
    after the last of them with the exhaustion error, which has that last error as
    its cause and the classification of that last error. *)
Theorem executeWithRetry_exhaustion_keeps_last :
  forall (T : Type) (operation : M Upstream T) key maxAttempts error
         (w after : World Upstream),
    maxAttempts <= 2 ^ 53 ->
    lastRetryableFailure operation (Z.to_nat maxAttempts) w = Some (error, after) ->
    executeWithRetry operation key maxAttempts w
    = (Threw (exhausted key maxAttempts (Some error)), after)
    /\ classificationOf (exhausted key maxAttempts (Some error)) = classificationOf error
    /\ retryableError (exhausted key maxAttempts (Some error)) = true.
Proof.
  intros T operation key maxAttempts error w after _ Hlast.
  assert (Hloop :
            forall k attempt last (w0 : World Upstream),
              lastRetryableFailure operation k w0 = Some (error, after) ->
              attempt + Z.of_nat k = maxAttempts ->
              0 <= attempt ->
              retryLoop k operation key maxAttempts attempt last w0
              = (Threw (exhausted key maxAttempts (Some error)), after)
                /\ isProviderError error && retryableError error = true).
  { induction k as [ | k IH ]; intros attempt last w0 Hrun Hsum Hattempt;
      cbn [lastRetryableFailure] in Hrun; [ discriminate | ].
    cbn [retryLoop].
    destruct (Z.ltb_spec attempt maxAttempts) as [ _ | ]; [ | lia ].
    destruct (operation w0) as [ [ result | thrown | ] w1 ]; try discriminate.
    destruct (isProviderError thrown && retryableError thrown) eqn:Hretry;
      [ | discriminate ].
    apply andb_prop in Hretry as [Hprov Hretry]. rewrite Hprov, Hretry.
    destruct k as [ | k ].
    - injection Hrun as <- <-.
      destruct (Z.ltb_spec (attempt + 1) maxAttempts); [ lia | ].
      split; [ reflexivity | rewrite Hprov, Hretry; reflexivity ].
    - destruct (Z.ltb_spec (attempt + 1) maxAttempts); [ | lia ].
      apply IH; [ exact Hrun | lia | lia ]. }
  unfold executeWithRetry.
  assert (Hpos : (0 < Z.to_nat maxAttempts)%nat).
  { destruct (Z.to_nat maxAttempts); [ discriminate | lia ]. }
  destruct (Hloop (Z.to_nat maxAttempts) 0 None w Hlast) as [Hrun Hretry]; [ lia | lia | ].
  apply andb_prop in Hretry as [Hprov Hretry].
  split; [ exact Hrun | ].
  destruct error as [ message classification hint cause | kind message | v ];
    try discriminate.
  split; [ reflexivity | ].
  unfold retryableError in *. cbn [classificationOf exhausted orDefault] in *.
  exact Hretry.
Qed.

(** X30.  A dispatch settles whenever the adapters do: with a maximum of
    attempts of at most [2^53] (above which the source's counter stops
    counting), if the chat and embed methods of the registered adapters
    never hang, then no chat, streaming or embed dispatch does - the retry
    loop comes to an end. *)
Theorem dispatch_always_settles :
  forall config (adapters : list (ProviderAdapter Upstream)) d (w : World Upstream),
    resolveMaxAttempts config <= 2 ^ 53 ->
    (forall adapter request u,
        In adapter adapters -> settled (fst (chat adapter request u)) = true) ->
    (forall adapter method request u,
        In adapter adapters -> embed adapter = Some method ->
        settled (fst (method request u)) = true) ->
    settled (fst (dispatch config adapters d w)) = true.
Proof.
  intros config adapters d w _ Hchat Hembed.
  assert (Hselected :
            forall key providerConfig capability adapter,
              selectAdapter key providerConfig adapters capability = Returned adapter ->
              In adapter adapters).
  { intros key providerConfig capability adapter Hselect.
    destruct (selectAdapter_returned _ _ _ _ _ _ Hselect) as (Hreg & _).
    unfold getRegisteredAdapter in Hreg.
    destruct (find (fun entry => String.eqb (name entry) key) adapters)
      as [ found | ] eqn:Hfind; [ | discriminate ].
    injection Hreg as <-. apply (find_some _ _ Hfind). }
  destruct d as [ request | request | request ]; cbn [dispatch]; unfold bind at 1.
  - unfold dispatchChat, bind, lift.
    destruct (resolveRoutingSelection "chat" (provider request) (model request)
                (providers config)) as [ routing | error | ] eqn:Hroute;
      [ | reflexivity | ].
    2: { pose proof (routing_unsettled_never "chat" (provider request) (model request)
                       (providers config)) as H. rewrite Hroute in H. discriminate. }
    destruct (selectAdapter (providerKey routing)
                (lookup (providerKey routing) (providers config)) adapters "chat")
      as [ adapter | error | ] eqn:Hselect; [ | reflexivity | ].
    2: { pose proof (selectAdapter_unsettled_never Upstream (providerKey routing)
                       (lookup (providerKey routing) (providers config)) adapters "chat")
           as H. rewrite Hselect in H. discriminate. }
    destruct (selectAdapter_returned _ _ _ _ _ _ Hselect) as (_ & _ & entry & Hentry & _).
    rewrite Hentry. cbn [configured ret].
    pose proof (executeWithRetry_settles Upstream ProviderResponse
                  (invokeChat adapter
                     (normalizeChatRequest request (providerKey routing) entry
                        (Some (selectedModel routing))))
                  (providerKey routing) (resolveMaxAttempts config) w) as Hsettles.
    destruct (executeWithRetry
                (invokeChat adapter
                   (normalizeChatRequest request (providerKey routing) entry
                      (Some (selectedModel routing))))
                (providerKey routing) (resolveMaxAttempts config) w)
      as [ [ [result attempts] | error | ] w' ]; try reflexivity.
    exfalso. apply Hsettles; [ | reflexivity ].
    intros w0 Hhang. unfold invokeChat in Hhang.
    pose proof (Hchat adapter
                  (normalizeChatRequest request (providerKey routing) entry
                     (Some (selectedModel routing)))
                  (upstream w0) (Hselected _ _ _ _ Hselect)) as Hs.
    destruct (chat adapter
                (normalizeChatRequest request (providerKey routing) entry
                   (Some (selectedModel routing))) (upstream w0)) as [outcome u].
    cbn [fst] in *. rewrite Hhang in Hs. discriminate.
  - unfold dispatchChatStream, bind, lift.
    destruct (resolveRoutingSelection "chatStream" (provider request) (model request)
                (providers config)) as [ routing | error | ] eqn:Hroute;
      [ | reflexivity | ].
    2: { pose proof (routing_unsettled_never "chatStream" (provider request)
                       (model request) (providers config)) as H.
         rewrite Hroute in H. discriminate. }
    destruct (selectAdapter (providerKey routing)
                (lookup (providerKey routing) (providers config)) adapters "chat")
      as [ adapter | error | ] eqn:Hselect; [ | reflexivity | ].
    2: { pose proof (selectAdapter_unsettled_never Upstream (providerKey routing)
                       (lookup (providerKey routing) (providers config)) adapters "chat")
           as H. rewrite Hselect in H. discriminate. }
    destruct (selectAdapter_returned _ _ _ _ _ _ Hselect) as (_ & _ & entry & Hentry & _).
    destruct (chatStream adapter) as [ method | ]; [ | reflexivity ].
    rewrite Hentry. cbn [configured ret]. unfold invokeChatStream.
    destruct (method _ (upstream w)); reflexivity.
  - unfold dispatchEmbed, bind, lift.
    destruct (resolveRoutingSelection "embed" (embedProvider request) (embedModel request)
                (providers config)) as [ routing | error | ] eqn:Hroute;
      [ | reflexivity | ].
    2: { pose proof (routing_unsettled_never "embed" (embedProvider request)
                       (embedModel request) (providers config)) as H.
         rewrite Hroute in H. discriminate. }
    destruct (selectAdapter (providerKey routing)
                (lookup (providerKey routing) (providers config)) adapters "embed")
      as [ adapter | error | ] eqn:Hselect; [ | reflexivity | ].
    2: { pose proof (selectAdapter_unsettled_never Upstream (providerKey routing)
                       (lookup (providerKey routing) (providers config)) adapters "embed")
           as H. rewrite Hselect in H. discriminate. }
    destruct (selectAdapter_returned _ _ _ _ _ _ Hselect) as (_ & _ & entry & Hentry & _).
    destruct (embed adapter) as [ method | ] eqn:Hmethod; [ | reflexivity ].
    rewrite Hentry. cbn [configured ret]. unfold invokeEmbed.
    pose proof (Hembed adapter method
                  (normalizeEmbedRequest request (providerKey routing) entry
                     (Some (selectedModel routing)))
                  (upstream w) (Hselected _ _ _ _ Hselect) Hmethod) as Hs.
    destruct (method _ (upstream w)) as [ [ response | error | ] u ];
      [ reflexivity | reflexivity | discriminate ].
Qed.

End PolicyFacts.

(** ** Exhaustion and settling, run *)

Section PolicyRuns.

Import Orchestrator Scenarios RoutingSpec MoreScenarios.

(** X29, witness: with two attempts allowed, a chat throttled at the first
    and unavailable at the second ends with the exhaustion error of a
    transient failure, after two calls. *)
Lemma executeWithRetry_exhaustion_keeps_last_witness :
  executeWithRetry (invokeChat throttledThenDown normalizedChat) "openai" 2 idle
  = (Threw (exhausted "openai" 2 (Some (providerFailure TEMPORARY "unavailable"))),
     {| upstream := 2%nat;
        calls := [ChatCall "openai" normalizedChat; ChatCall "openai" normalizedChat] |})
  /\ classificationOf (exhausted "openai" 2 (Some (providerFailure TEMPORARY "unavailable")))
     = classificationOf (providerFailure TEMPORARY "unavailable")
  /\ retryableError (exhausted "openai" 2 (Some (providerFailure TEMPORARY "unavailable")))
     = true.
Proof.
  apply (executeWithRetry_exhaustion_keeps_last Served ProviderResponse
           (invokeChat throttledThenDown normalizedChat) "openai" 2
           (providerFailure TEMPORARY "unavailable") idle).
  - vm_compute. discriminate.
  - reflexivity.
Defined.

(** The same through a dispatch: the caller gets the transient
    classification, not the throttling one of the first attempt. *)
Example throttled_then_down_dispatch :
  fst (dispatchChat baseConfig [throttledThenDown] chatRequest idle)
  = Threw (ProviderErrorObj "Provider openai failed after 2 attempts" TEMPORARY None
             (Some (providerFailure TEMPORARY "unavailable"))).
Proof. vm_compute. reflexivity. Qed.

(** X30, witness: a chat dispatch that is retried - the first call of the
    adapter fails with a transient error, the second answers. *)
Lemma dispatch_always_settles_witness :
  settled (fst (dispatch baseConfig [chatFlakyOnce] (ChatDispatch chatRequest) idle))
  = true.
Proof.
  apply (dispatch_always_settles Served baseConfig [chatFlakyOnce]
           (ChatDispatch chatRequest) idle).
  - vm_compute. discriminate.
  - intros adapter request u [ <- | [] ]. destruct u; reflexivity.
  - intros adapter method request u [ <- | [] ] Hmethod. discriminate.
Defined.

(** X28, witness: a chat dispatch that asks for a provider that is not
    configured throws the routing error and calls no adapter. *)
Lemma routing_failure_is_local_witness :
  dispatch baseConfig [streamingAdapter] (ChatDispatch FactoryRuns.toMistral) idle
  = (Threw (NativeError PlainError "Unknown provider: mistral"), idle).
Proof.
  exact (proj1 (routing_failure_is_local Served baseConfig [streamingAdapter]
                  (ChatDispatch FactoryRuns.toMistral) idle eq_refl)).
Defined.

(** A provider asked for under an inherited name is left out of these
    statements. *)
Example inherited_names :
  map inherited ["constructor"; "toString"; "__proto__"; "openai"]
  = [true; true; true; false].
Proof. reflexivity. Qed.

End PolicyRuns.
